(** * ShardedGradScaler: a shallow embedding of [fairscale/optim/grad_scaler.py]

    The scaler is a Python object whose attributes reference one-element
    tensors (the scale, the growth tracker, the per-device overflow flags).
    Those buffers are mutated in place, copied across devices and shared,
    so the embedding keeps them in explicit stores and threads the whole
    process state through a small state-and-exception monad. *)

From Stdlib Require Import ZArith Bool Lia.
From Stdlib Require Import Floats.SpecFloat.
From stdpp Require Import base list strings.

(** ** Floating-point scalars

    Tensor elements and Python floats are IEEE-754 values; they are
    represented by [spec_float], each operation taking the format it is
    computed in. *)
Module Float.

Record format := Format { prec : Z; emax : Z }.

Definition binary16 := Format 11 16.
Definition brain16 := Format 8 128.
Definition binary32 := Format 24 128.
Definition binary64 := Format 53 1024.

(** Conversion of a value to format [f] (round to nearest even). *)
Definition round (f : format) (x : spec_float) : spec_float :=
  match x with
  | S754_finite s m e =>
      binary_normalize (prec f) (emax f) (cond_Zopp s (Zpos m)) e s
  | _ => x
  end.

Definition of_Z (f : format) (z : Z) : spec_float :=
  binary_normalize (prec f) (emax f) z 0 false.

(** [m * 2^e] in format [f]. *)
Definition of_pow2 (f : format) (m e : Z) : spec_float :=
  binary_normalize (prec f) (emax f) m e false.

Definition mul (f : format) (x y : spec_float) := SFmul (prec f) (emax f) x y.
Definition add (f : format) (x y : spec_float) := SFadd (prec f) (emax f) x y.
Definition div (f : format) (x y : spec_float) := SFdiv (prec f) (emax f) x y.

Definition eqb (x y : spec_float) : bool := SFeqb x y.
Definition ltb (x y : spec_float) : bool := SFltb x y.

Definition isinf (x : spec_float) : bool :=
  match x with S754_infinity _ => true | _ => false end.
Definition isnan (x : spec_float) : bool :=
  match x with S754_nan => true | _ => false end.

(** Truth value of a number: everything but a zero is true. *)
Definition truthy (x : spec_float) : bool :=
  match x with S754_zero _ => false | _ => true end.

Definition zero : spec_float := S754_zero false.
Definition one (f : format) : spec_float := of_Z f 1.
Definition pinf : spec_float := S754_infinity false.
Definition ninf : spec_float := S754_infinity true.

End Float.

(** A Python float is a binary64 value. *)
Definition pyfloat := spec_float.
Definition py (m e : Z) : pyfloat := Float.of_pow2 Float.binary64 m e.

(** Wrap-around of a 32-bit signed tensor element. *)
Definition wrap32 (z : Z) : Z := ((z + 2 ^ 31) mod 2 ^ 32 - 2 ^ 31)%Z.

(** ** Devices, element types, Python values *)

Inductive device_type := cpu | cuda | xla.

Record device := Device { dev_type : device_type; dev_index : option nat }.

Definition cpu_device : device := Device cpu None.
(** The device [.cuda()] copies to: the current accelerator. *)
Definition current_cuda_device : device := Device cuda (Some 0).

Inductive dtype := float16 | bfloat16 | float32 | float64.

#[global] Instance device_type_eq_dec : EqDecision device_type.
Proof. solve_decision. Defined.
#[global] Instance device_eq_dec : EqDecision device.
Proof. solve_decision. Defined.
#[global] Instance dtype_eq_dec : EqDecision dtype.
Proof. solve_decision. Defined.

Definition dtype_format (t : dtype) : Float.format :=
  match t with
  | float16 => Float.binary16
  | bfloat16 => Float.brain16
  | float32 => Float.binary32
  | float64 => Float.binary64
  end.

(** Result type of an operation between two dimensioned tensors. *)
Definition promote (a b : dtype) : dtype :=
  match a, b with
  | float64, _ | _, float64 => float64
  | float32, _ | _, float32 => float32
  | float16, float16 => float16
  | bfloat16, bfloat16 => bfloat16
  | _, _ => float32
  end.

(** Entries of a state blob. *)
Inductive pyval :=
| PyFloat (x : pyfloat)
| PyInt (z : Z).

(** Opaque Python objects travelling through [step] as arguments and
    results; [PySelf] is the scaler itself. *)
Inductive pyobj :=
| PyNone
| PyObj (tag : nat)
| PySelf.

Definition kwargs := list (string * pyobj).

(** References into the stores. *)
Abbreviation loc := nat (only parsing).

(** ** Stores *)

(** One-element buffers. *)
Inductive cell :=
| FloatCell (d : device) (v : spec_float)   (* dtype float32 *)
| IntCell (d : device) (v : Z).             (* dtype int32 *)

Definition cell_device (c : cell) : device :=
  match c with FloatCell d _ | IntCell d _ => d end.

(** Data of a gradient-sized tensor, seen the way iteration sees it: a
    zero-dimensional tensor, or the sequence of its slices along the first
    dimension, each slice flattened. *)
Inductive tdata :=
| Scalar0 (x : spec_float)
| Rows (rs : list (list spec_float)).

Record tensor := Tensor {
  t_device : device;
  t_dtype : dtype;
  t_data : tdata
}.

(** The gradient attached to a parameter. A sparse gradient holds its
    (linearised) indices and a reference to its values tensor, one row per
    index. *)
Inductive grad_ref :=
| DenseGrad (t : loc)
| SparseGrad (indices : list Z) (values : loc) (is_coalesced : bool).

(** The stage of a per-optimizer state. [READY] and [STEPPED] are members
    of the [OptState] enumeration of this file: the factory of the
    per-optimizer map and [step] store them, and [step] compares with them.
    [UNSCALED] is the member of the tensor library's own enumeration of
    the same name, which the inherited [unscale_] stores and compares
    with. Members of the two enumerations are never identical, and no
    other member of either is ever stored. *)
Inductive OptState := READY | UNSCALED | STEPPED.

#[global] Instance OptState_eq_dec : EqDecision OptState.
Proof. solve_decision. Defined.

Record opt_state := OptStateRec {
  stage : OptState;
  found_inf_per_device : list (device * loc)
}.

Definition _refresh_per_optimizer_state : opt_state :=
  {| stage := READY; found_inf_per_device := [] |}.

(** The value bound to [_growth_tracker]: nothing yet, a one-element int32
    tensor, or (after [_amp_update_scale_cpu_]) a plain Python integer. *)
Inductive tracker_ref :=
| TrackerNone
| TrackerTensor (l : loc)
| TrackerInt (z : Z).

Record ShardedGradScaler := Scaler {
  _enabled : bool;
  _init_scale : pyfloat;
  _scale : option loc;
  _growth_factor : pyfloat;
  _backoff_factor : pyfloat;
  _growth_interval : Z;
  _init_growth_tracker : Z;
  _growth_tracker : tracker_ref;
  _per_optimizer_states : list (nat * opt_state);
  display_warning : bool;
  (* the attributes above, [_enabled] apart, that the dictionary of a
     disabled instance does not hold (see [missing]); the field of such an
     attribute holds no value of the program *)
  lacks : list string
}.

(** The attributes an instance can have beside [_enabled]. (The process
    group is kept by the world, as [peers].) *)
Definition attribute_names : list string :=
  ["_init_scale"; "_scale"; "_growth_factor"; "_backoff_factor";
   "_growth_interval"; "_init_growth_tracker"; "_growth_tracker";
   "_per_optimizer_states"; "display_warning"].

(** The attributes missing from the instance dictionary. [__init__]
    assigns all of them in the branch that leaves [_enabled] true and
    nothing deletes an attribute, so an enabled instance misses none; a
    disabled one misses those it has never been given. *)
Definition missing (s : ShardedGradScaler) : list string :=
  if _enabled s then [] else lacks s.

Definition has_attr (name : string) (s : ShardedGradScaler) : bool :=
  negb (existsb (String.eqb name) (missing s)).

(** [x = v] on an attribute: it is there afterwards. *)
Definition given (name : string) (s : ShardedGradScaler) : list string :=
  List.filter (fun n => negb (String.eqb n name)) (lacks s).

Record Optimizer := {
  id : nat;
  is_OSS : bool;
  (* [None]: the attribute is absent *)
  _step_supports_amp_scaling : option bool;
  (* each group's "params", as references into the parameter store *)
  param_groups : list (list loc);
  (* the value a call of [optimizer.step] with these arguments returns *)
  step_result : list pyobj -> kwargs -> pyobj
}.

Record world := World {
  scaler : ShardedGradScaler;
  cells : list cell;                  (* one-element buffers *)
  tensors : list tensor;              (* gradient tensors *)
  params : list (option grad_ref);    (* [param.grad] of every parameter *)
  (* what the other ranks contribute to the all_reduce calls still to come *)
  peers : list (list spec_float);
  (* [optimizer.step] invocations so far, latest first *)
  calls : list (nat * list pyobj * kwargs);
  (* messages given to [logging.warning] and [warnings.warn], latest first *)
  log : list string;
  (* lines printed, latest first *)
  stdout : list string
}.

(** ** Exceptions and the monad *)

Inductive exn :=
| AssertionError (msg : string)
| RuntimeError (msg : string)
| ValueError (msg : string)
| KeyError (key : string)
| AttributeError (msg : string)
| TypeError (msg : string)
(* outside the embedding: a dangling or ill-typed reference, which no run
   produces, or an argument that is not of its documented type *)
| Unmodelled (what : string).

Inductive result (A : Type) :=
| Raise (e : exn)
| Return (a : A) (w : world).
Arguments Raise {A} e.
Arguments Return {A} a w.

Definition M (A : Type) := world -> result A.

Definition ret {A} (a : A) : M A := fun w => Return a w.
Definition raise {A} (e : exn) : M A := fun _ => Raise e.
Definition bind {A B} (m : M A) (k : A -> M B) : M B :=
  fun w => match m w with
           | Raise e => Raise e
           | Return a w' => k a w'
           end.

Declare Scope py_scope.
Delimit Scope py_scope with py.
Notation "x <- m ;; k" := (bind m (fun x => k))
  (at level 100, m at next level, right associativity) : py_scope.
Notation "'let*' p := m 'in' k" := (bind m (fun x => let p := x in k))
  (at level 100, p pattern, m at next level, right associativity) : py_scope.
Notation "m ;;; k" := (bind m (fun _ => k))
  (at level 100, right associativity) : py_scope.
Open Scope py_scope.

Definition get_world : M world := fun w => Return w w.
Definition gets {A} (f : world -> A) : M A := fun w => Return (f w) w.
Definition modify (f : world -> world) : M unit := fun w => Return tt (f w).
Definition assert (b : bool) (msg : string) : M unit :=
  if b then ret tt else raise (AssertionError msg).

Definition set_scaler (s : ShardedGradScaler) (w : world) : world :=
  {| scaler := s; cells := cells w; tensors := tensors w; params := params w;
     peers := peers w; calls := calls w; log := log w; stdout := stdout w |}.
Definition set_cells (cs : list cell) (w : world) : world :=
  {| scaler := scaler w; cells := cs; tensors := tensors w; params := params w;
     peers := peers w; calls := calls w; log := log w; stdout := stdout w |}.
Definition set_tensors (ts : list tensor) (w : world) : world :=
  {| scaler := scaler w; cells := cells w; tensors := ts; params := params w;
     peers := peers w; calls := calls w; log := log w; stdout := stdout w |}.
Definition set_params (ps : list (option grad_ref)) (w : world) : world :=
  {| scaler := scaler w; cells := cells w; tensors := tensors w; params := ps;
     peers := peers w; calls := calls w; log := log w; stdout := stdout w |}.
Definition set_peers (p : list (list spec_float)) (w : world) : world :=
  {| scaler := scaler w; cells := cells w; tensors := tensors w; params := params w;
     peers := p; calls := calls w; log := log w; stdout := stdout w |}.
Definition set_calls (c : list (nat * list pyobj * kwargs)) (w : world) : world :=
  {| scaler := scaler w; cells := cells w; tensors := tensors w; params := params w;
     peers := peers w; calls := c; log := log w; stdout := stdout w |}.
Definition set_log (l : list string) (w : world) : world :=
  {| scaler := scaler w; cells := cells w; tensors := tensors w; params := params w;
     peers := peers w; calls := calls w; log := l; stdout := stdout w |}.
Definition set_stdout (l : list string) (w : world) : world :=
  {| scaler := scaler w; cells := cells w; tensors := tensors w; params := params w;
     peers := peers w; calls := calls w; log := log w; stdout := l |}.

Definition self : M ShardedGradScaler := gets scaler.
Definition set_self (f : ShardedGradScaler -> ShardedGradScaler) : M unit :=
  modify (fun w => set_scaler (f (scaler w)) w).

Definition no_attribute (name : string) : string :=
  String.append "'ShardedGradScaler' object has no attribute '"
                (String.append name "'").

(** Reading [self.name] where the source does so without having found
    [_enabled] true: the lookup fails when the attribute is missing. The
    methods that test [_enabled] first read the other attributes only once
    it was found true, and take them from the record. *)
Definition attr (name : string) : M unit :=
  s <- self ;;
  if has_attr name s then ret tt
  else raise (AttributeError (no_attribute name)).

(** ** Store primitives *)

Definition unmodelled {A} (what : string) : M A := raise (Unmodelled what).

Definition alloc_cell (c : cell) : M loc :=
  fun w => Return (length (cells w)) (set_cells (cells w ++ [c]) w).

Definition read_cell (l : loc) : M cell :=
  fun w => match cells w !! l with
           | Some c => Return c w
           | None => Raise (Unmodelled "cell")
           end.

Definition write_cell (l : loc) (c : cell) : M unit :=
  modify (fun w => set_cells (<[l := c]> (cells w)) w).

Definition read_float (l : loc) : M (device * spec_float) :=
  c <- read_cell l ;;
  match c with
  | FloatCell d v => ret (d, v)
  | IntCell _ _ => unmodelled "float cell"
  end.

Definition read_int (l : loc) : M (device * Z) :=
  c <- read_cell l ;;
  match c with
  | IntCell d v => ret (d, v)
  | FloatCell _ _ => unmodelled "int cell"
  end.

Definition alloc_tensor (t : tensor) : M loc :=
  fun w => Return (length (tensors w)) (set_tensors (tensors w ++ [t]) w).

Definition read_tensor (l : loc) : M tensor :=
  fun w => match tensors w !! l with
           | Some t => Return t w
           | None => Raise (Unmodelled "tensor")
           end.

Definition write_tensor (l : loc) (t : tensor) : M unit :=
  modify (fun w => set_tensors (<[l := t]> (tensors w)) w).

Definition read_param (p : loc) : M (option grad_ref) :=
  fun w => match params w !! p with
           | Some g => Return g w
           | None => Raise (Unmodelled "param")
           end.

Definition write_param (p : loc) (g : option grad_ref) : M unit :=
  modify (fun w => set_params (<[p := g]> (params w)) w).

(** [t.to(device=d)] on a one-element float tensor: the tensor itself when
    it already lives on [d], a copy on [d] otherwise. *)
Definition cell_to (l : loc) (d : device) : M loc :=
  let* (d0, v) := read_float l in
  if decide (d0 = d) then ret l else alloc_cell (FloatCell d v).

(** Python dictionaries keep insertion order; assigning to a key that is
    present keeps its position. *)
Fixpoint dict_get {K V} `{EqDecision K} (k : K) (d : list (K * V)) : option V :=
  match d with
  | [] => None
  | (k', v) :: d' => if decide (k = k') then Some v else dict_get k d'
  end.

Fixpoint dict_set {K V} `{EqDecision K} (k : K) (v : V) (d : list (K * V))
  : list (K * V) :=
  match d with
  | [] => [(k, v)]
  | (k', v') :: d' =>
      if decide (k = k') then (k, v) :: d' else (k', v') :: dict_set k v d'
  end.

Definition dict_values {K V} (d : list (K * V)) : list V := map snd d.

(** ** _GeneralMultiDeviceReplicator *)

Record _GeneralMultiDeviceReplicator := Replicator {
  master : loc;
  _per_device_tensors : list (device * loc)
}.

(** [__init__]: the assertion on the master's device type holds for each
    of the three device types of the embedding. *)
Definition new_replicator (master_tensor : loc) : _GeneralMultiDeviceReplicator :=
  {| master := master_tensor; _per_device_tensors := [] |}.

(** [get]: the cached copy for [d], made (always as a fresh buffer,
    [copy=True]) on the first request. *)
Definition get (r : _GeneralMultiDeviceReplicator) (d : device)
  : M (loc * _GeneralMultiDeviceReplicator) :=
  match dict_get d (_per_device_tensors r) with
  | Some retval => ret (retval, r)
  | None =>
      let* (_, v) := read_float (master r) in
      retval <- alloc_cell (FloatCell d v) ;;
      ret (retval, {| master := master r;
                      _per_device_tensors := dict_set d retval (_per_device_tensors r) |})
  end.

(** ** The scaler: construction and lazy buffers *)

Definition log_warning (msg : string) : M unit :=
  modify (fun w => set_log (msg :: log w) w).

(** [__init__]. [amp_definitely_not_available] is a fact of the machine,
    and the process group is the one whose other ranks speak through
    [peers]. The disabled branch assigns [_enabled] and nothing else: the
    attributes that were missing are still missing, as all of them are on
    a new object. *)
Definition __init__ (amp_definitely_not_available : bool)
    (init_scale growth_factor backoff_factor : pyfloat) (growth_interval : Z)
    (enabled : bool) : M unit :=
  enabled' <-
    (if enabled && amp_definitely_not_available
     then log_warning
            "torch.cuda.amp.GradScaler is enabled, but CUDA is not available.  Disabling." ;;;
          ret false
     else ret enabled) ;;
  if enabled' : bool then
    assert (Float.ltb (Float.one Float.binary64) growth_factor)
           "The growth factor must be > 1.0." ;;;
    assert (Float.ltb backoff_factor (Float.one Float.binary64))
           "The backoff factor must be < 1.0." ;;;
    set_self (fun _ =>
      {| _enabled := true;
         _init_scale := init_scale;
         _scale := None;
         _growth_factor := growth_factor;
         _backoff_factor := backoff_factor;
         _growth_interval := growth_interval;
         _init_growth_tracker := 0;
         _growth_tracker := TrackerNone;
         _per_optimizer_states := [];
         display_warning := true;
         lacks := [] |})
  else
    set_self (fun s =>
      {| _enabled := false;
         _init_scale := _init_scale s;
         _scale := _scale s;
         _growth_factor := _growth_factor s;
         _backoff_factor := _backoff_factor s;
         _growth_interval := _growth_interval s;
         _init_growth_tracker := _init_growth_tracker s;
         _growth_tracker := _growth_tracker s;
         _per_optimizer_states := _per_optimizer_states s;
         display_warning := display_warning s;
         lacks := missing s |}).

Definition fix_hint : string :=
  "This may indicate your script did not use scaler.scale(loss or outputs) earlier in the iteration.".

Definition _check_scale_growth_tracker (funcname : string) : M (loc * tracker_ref) :=
  attr "_scale" ;;;
  s <- self ;;
  match _scale s with
  | None =>
      raise (AssertionError
        (String.append "Attempted "
          (String.append funcname (String.append " but _scale is None.  " fix_hint))))
  | Some l =>
      attr "_growth_tracker" ;;;
      match _growth_tracker s with
      | TrackerNone =>
          raise (AssertionError
            (String.append "Attempted "
              (String.append funcname
                (String.append " but _growth_tracker is None.  " fix_hint))))
      | t => ret (l, t)
      end
  end.

Definition in_int32 (z : Z) : bool := ((- 2 ^ 31 <=? z) && (z <? 2 ^ 31))%Z.

(** The largest float32, as a Python float. *)
Definition float32_max : pyfloat := py (2 ^ 24 - 1) 104.

Definition overflows_float32 (x : pyfloat) : bool :=
  match x with
  | S754_finite _ _ _ => Float.ltb float32_max (SFabs x)
  | _ => false
  end.

Definition float32_overflow_message : string :=
  "value cannot be converted to type float without overflow".

(** The conversion [fill_] and [torch.full] apply to a Python float that
    goes into a float32 buffer: a finite value beyond the float32 range is
    refused, anything else is rounded. *)
Definition to_float32 (x : pyfloat) : M spec_float :=
  if overflows_float32 x then raise (RuntimeError float32_overflow_message)
  else ret (Float.round Float.binary32 x).

(** [torch.full((1,), v, dtype=torch.int32)] refuses a value that does not
    fit. *)
Definition int32_overflow_message : string :=
  "value cannot be converted to type int without overflow".

Definition full_int32 (d : device) (v : Z) : M loc :=
  if in_int32 v then alloc_cell (IntCell d v)
  else raise (RuntimeError int32_overflow_message).

Definition set_scale (v : option loc) (s : ShardedGradScaler) : ShardedGradScaler :=
  {| _enabled := _enabled s; _init_scale := _init_scale s; _scale := v;
     _growth_factor := _growth_factor s; _backoff_factor := _backoff_factor s;
     _growth_interval := _growth_interval s;
     _init_growth_tracker := _init_growth_tracker s;
     _growth_tracker := _growth_tracker s;
     _per_optimizer_states := _per_optimizer_states s;
     display_warning := display_warning s; lacks := lacks s |}.

Definition set_growth_tracker (v : tracker_ref) (s : ShardedGradScaler)
  : ShardedGradScaler :=
  {| _enabled := _enabled s; _init_scale := _init_scale s; _scale := _scale s;
     _growth_factor := _growth_factor s; _backoff_factor := _backoff_factor s;
     _growth_interval := _growth_interval s;
     _init_growth_tracker := _init_growth_tracker s;
     _growth_tracker := v;
     _per_optimizer_states := _per_optimizer_states s;
     display_warning := display_warning s; lacks := lacks s |}.

Definition set_per_optimizer_states (v : list (nat * opt_state))
    (s : ShardedGradScaler) : ShardedGradScaler :=
  {| _enabled := _enabled s; _init_scale := _init_scale s; _scale := _scale s;
     _growth_factor := _growth_factor s; _backoff_factor := _backoff_factor s;
     _growth_interval := _growth_interval s;
     _init_growth_tracker := _init_growth_tracker s;
     _growth_tracker := _growth_tracker s;
     _per_optimizer_states := v;
     display_warning := display_warning s; lacks := lacks s |}.

Definition set_display_warning (v : bool) (s : ShardedGradScaler)
  : ShardedGradScaler :=
  {| _enabled := _enabled s; _init_scale := _init_scale s; _scale := _scale s;
     _growth_factor := _growth_factor s; _backoff_factor := _backoff_factor s;
     _growth_interval := _growth_interval s;
     _init_growth_tracker := _init_growth_tracker s;
     _growth_tracker := _growth_tracker s;
     _per_optimizer_states := _per_optimizer_states s;
     display_warning := v; lacks := lacks s |}.

Definition _lazy_init_scale_growth_tracker (dev : device) : M unit :=
  s <- self ;;
  assert (match _growth_tracker s with TrackerNone => true | _ => false end)
         "_growth_tracker initialized before _scale" ;;;
  v <- to_float32 (_init_scale s) ;;
  l <- alloc_cell (FloatCell dev v) ;;
  set_self (set_scale (Some l)) ;;;
  t <- full_int32 dev (_init_growth_tracker s) ;;
  set_self (set_growth_tracker (TrackerTensor t)).

(** ** scale *)

#[warnings="-register-all"]
Inductive outputs :=
| OTensor (t : loc)
| OList (l : list outputs)
| OTuple (l : list outputs)
| OIter (l : list outputs)      (* an iterable that is neither list nor tuple *)
| OLazy (src : outputs)         (* the unevaluated [map(apply_scale, src)] *)
| OOther (o : pyobj).           (* neither a tensor nor iterable *)

(** Elementwise product of a tensor with a one-element tensor holding [s],
    computed in format [f]; a zero-dimensional operand broadcasts to the
    shape [(1,)] of the other. *)
Definition tdata_mul (f : Float.format) (s : spec_float) (d : tdata) : tdata :=
  let m x := Float.mul f (Float.round f x) (Float.round f s) in
  match d with
  | Scalar0 x => Rows [[m x]]
  | Rows rs => Rows (map (map m) rs)
  end.

(** [t * c] for a tensor and a one-element float32 tensor. A
    zero-dimensional operand takes no part in the choice of the result
    type among floating-point types: the product has the type of the
    dimensioned operand, float32. *)
Definition tensor_mul_cell (t c : loc) : M loc :=
  x <- read_tensor t ;;
  let* (_, v) := read_float c in
  let dt := match t_data x with
            | Scalar0 _ => float32
            | Rows _ => promote (t_dtype x) float32
            end in
  alloc_tensor {| t_device := t_device x; t_dtype := dt;
                  t_data := tdata_mul (dtype_format dt) v (t_data x) |}.

Definition ensure_scale (dev : device) : M loc :=
  s <- self ;;
  (match _scale s with
   | None => _lazy_init_scale_growth_tracker dev
   | Some _ => ret tt
   end) ;;;
  s' <- self ;;
  match _scale s' with
  | None => raise (AssertionError "")
  | Some l => ret l
  end.

Fixpoint apply_scale (val : outputs) (stash : option _GeneralMultiDeviceReplicator)
  : M (outputs * option _GeneralMultiDeviceReplicator) :=
  let each :=
    fix each (l : list outputs) (stash : option _GeneralMultiDeviceReplicator)
      : M (list outputs * option _GeneralMultiDeviceReplicator) :=
      match l with
      | [] => ret ([], stash)
      | v :: l' =>
          let* (v', stash1) := apply_scale v stash in
          let* (l'', stash2) := each l' stash1 in
          ret (v' :: l'', stash2)
      end in
  match val with
  | OTensor t =>
      x <- read_tensor t ;;
      r <- match stash with
           | Some r => ret r
           | None => l <- ensure_scale (t_device x) ;; ret (new_replicator l)
           end ;;
      let* (c, r') := get r (t_device x) in
      y <- tensor_mul_cell t c ;;
      ret (OTensor y, Some r')
  | OList l => let* (l', stash') := each l stash in ret (OList l', stash')
  | OTuple l => let* (l', stash') := each l stash in ret (OTuple l', stash')
  | OIter _ | OLazy _ => ret (OLazy val, stash)
  | OOther _ => raise (ValueError "outputs must be a Tensor or an iterable of Tensors")
  end.

(** The assertion on the device type of a tensor holds for each of the
    three device types of the embedding. *)
Definition scale (outs : outputs) : M outputs :=
  s <- self ;;
  if negb (_enabled s) then ret outs
  else
    match outs with
    | OTensor t =>
        x <- read_tensor t ;;
        l <- ensure_scale (t_device x) ;;
        c <- cell_to l (t_device x) ;;
        y <- tensor_mul_cell t c ;;
        ret (OTensor y)
    | _ => let* (r, _) := apply_scale outs None in ret r
    end.

(** ** Overflow scan and unscale *)

Fixpoint for_each {A S} (l : list A) (s : S) (body : A -> S -> M S) : M S :=
  match l with
  | [] => ret s
  | a :: l' => s' <- body a s ;; for_each l' s' body
  end.

Definition non_finite (x : spec_float) : bool := Float.isinf x || Float.isnan x.

(** [tensor.data *= inv_scale.item()] on one slice, in the tensor's
    format. *)
Definition unscale_row (f : Float.format) (inv : pyfloat) (r : list spec_float)
  : list spec_float :=
  map (fun x => Float.mul f x (Float.round f inv)) r.

(** The loop over the slices of one tensor: a slice holding an infinity or
    a NaN ends the loop with the flag raised and is left as it is, like the
    slices after it; the slices before it have been multiplied. *)
Fixpoint scan_rows (f : Float.format) (inv : pyfloat) (rs : list (list spec_float))
  : list (list spec_float) * bool :=
  match rs with
  | [] => ([], false)
  | r :: rs' =>
      if existsb Float.isinf r || existsb Float.isnan r then (r :: rs', true)
      else let (rs'', found) := scan_rows f inv rs' in
           (unscale_row f inv r :: rs'', found)
  end.

Definition _foreach_non_finite_check_and_unscale_cpu_
    (grads : list loc) (found_inf inv_scale : loc) : M unit :=
  match grads with
  | [] => ret tt
  | g0 :: _ =>
      (* both [numel() == 1] assertions hold of one-element buffers *)
      let* (_, inv) := read_float inv_scale in
      _ <- read_float found_inf ;;
      t <- read_tensor g0 ;;
      (* the loop runs over [grads[0]], the first tensor of the group *)
      match t_data t with
      | Scalar0 _ => raise (TypeError "iteration over a 0-d tensor")
      | Rows rs =>
          let (rs', found) :=
            scan_rows (dtype_format (t_dtype t)) (Float.round Float.binary64 inv) rs in
          write_tensor g0 {| t_device := t_device t; t_dtype := t_dtype t;
                             t_data := Rows rs' |} ;;;
          if found
          then write_cell found_inf (FloatCell cpu_device (Float.one Float.binary32))
          else ret tt
      end
  end.

Definition tdata_elems (d : tdata) : list spec_float :=
  match d with
  | Scalar0 x => [x]
  | Rows rs => concat rs
  end.

Definition tdata_map (g : spec_float -> spec_float) (d : tdata) : tdata :=
  match d with
  | Scalar0 x => Scalar0 (g x)
  | Rows rs => Rows (map (map g) rs)
  end.

(** Modelled from the spec: [torch._amp_foreach_non_finite_check_and_unscale_],
    the vectorized in-place "check non-finite and unscale" primitive of the
    tensor library: every element of every tensor of the group is
    multiplied by the reciprocal, and the flag is set to 1 when any element
    is non-finite. *)
Definition _amp_foreach_non_finite_check_and_unscale_
    (grads : list loc) (found_inf inv_scale : loc) : M unit :=
  let* (_, inv) := read_float inv_scale in
  for_each grads tt (fun g _ =>
    t <- read_tensor g ;;
    let f := dtype_format (t_dtype t) in
    (if existsb non_finite (tdata_elems (t_data t))
     then let* (d, _) := read_float found_inf in
          write_cell found_inf (FloatCell d (Float.one Float.binary32))
     else ret tt) ;;;
    write_tensor g {| t_device := t_device t; t_dtype := t_dtype t;
                      t_data := tdata_map (fun x => Float.mul f x (Float.round f inv))
                                          (t_data t) |}).

(** Modelled from the spec: sparse-tensor deduplication ([coalesce]) of the
    tensor library: the entries are ordered by index and the values of
    entries with the same index are added. *)
Fixpoint coalesce_insert (f : Float.format) (i : Z) (r : list spec_float)
    (acc : list (Z * list spec_float)) : list (Z * list spec_float) :=
  match acc with
  | [] => [(i, r)]
  | (j, r') :: acc' =>
      if (i <? j)%Z then (i, r) :: acc
      else if (i =? j)%Z then (j, zip_with (Float.add f) r' r) :: acc'
      else (j, r') :: coalesce_insert f i r acc'
  end.

Definition coalesce_entries (f : Float.format) (idx : list Z)
    (rows : list (list spec_float)) : list (Z * list spec_float) :=
  fold_left (fun acc e => coalesce_insert f (fst e) (snd e) acc) (zip idx rows) [].

Definition coalesce (g : grad_ref) : M grad_ref :=
  match g with
  | DenseGrad _ => unmodelled "coalesce of a dense tensor"
  | SparseGrad idx v true => ret g
  | SparseGrad idx v false =>
      t <- read_tensor v ;;
      match t_data t with
      | Scalar0 _ => unmodelled "values of a sparse tensor"
      | Rows rs =>
          let es := coalesce_entries (dtype_format (t_dtype t)) idx rs in
          v' <- alloc_tensor {| t_device := t_device t; t_dtype := t_dtype t;
                                t_data := Rows (map snd es) |} ;;
          ret (SparseGrad (map fst es) v' true)
      end
  end.

(** The tensor holding the elements of a gradient ([_values()] of a sparse
    one). *)
Definition grad_values (g : grad_ref) : loc :=
  match g with
  | DenseGrad t => t
  | SparseGrad _ v _ => v
  end.

Definition is_sparse (g : grad_ref) : bool :=
  match g with DenseGrad _ => false | SparseGrad _ _ _ => true end.

Definition grad_groups := list (device * list (dtype * list loc)).

(** [per_device_and_dtype_grads[device][dtype].append(g)] on the nested
    defaultdict. *)
Definition group_append (d : device) (t : dtype) (g : loc) (groups : grad_groups)
  : grad_groups :=
  let per_dtype := default [] (dict_get d groups) in
  let gs := default [] (dict_get t per_dtype) in
  dict_set d (dict_set t (gs ++ [g]) per_dtype) groups.

(** The first loop of [_unscale_grads_], for one parameter. *)
Definition collect_param (allow_fp16 : bool) (p : loc) (groups : grad_groups)
  : M grad_groups :=
  g <- read_param p ;;
  match g with
  | None => ret groups
  | Some g =>
      t <- read_tensor (grad_values g) ;;
      if negb allow_fp16 && bool_decide (t_dtype t = float16)
      then raise (ValueError "Attempting to unscale FP16 gradients.")
      else
        to_unscale <-
          (if is_sparse g then
             g' <- (if bool_decide (t_dtype t = float16)
                    then g' <- coalesce g ;; write_param p (Some g') ;;; ret g'
                    else ret g) ;;
             ret (grad_values g')
           else ret (grad_values g)) ;;
        t' <- read_tensor to_unscale ;;
        ret (group_append (t_device t') (t_dtype t') to_unscale groups)
  end.

Definition _unscale_grads_ (optimizer : Optimizer) (inv_scale found_inf : loc)
    (allow_fp16 : bool) : M (list (device * loc)) :=
  let per_device_inv_scale := new_replicator inv_scale in
  let per_device_found_inf := new_replicator found_inf in
  per_device_and_dtype_grads <-
    for_each (param_groups optimizer) ([] : grad_groups) (fun group groups =>
      for_each group groups (collect_param allow_fp16)) ;;
  let* (_, per_device_found_inf) :=
    for_each per_device_and_dtype_grads (per_device_inv_scale, per_device_found_inf)
      (fun dg reps =>
         let device := fst dg in
         for_each (dict_values (snd dg)) reps (fun grads reps =>
           let (rinv, rfound) := reps : _ * _ in
           let* (fi, rfound) := get rfound device in
           let* (inv, rinv) := get rinv device in
           g0 <- match grads with
                 | g0 :: _ => read_tensor g0
                 | [] => unmodelled "empty group"
                 end ;;
           (if bool_decide (dev_type (t_device g0) = cpu)
            then _foreach_non_finite_check_and_unscale_cpu_ grads fi inv
            else _amp_foreach_non_finite_check_and_unscale_ grads fi inv) ;;;
           ret (rinv, rfound))) in
  ret (_per_device_tensors per_device_found_inf).

(** ** Per-optimizer state *)

(** [self._per_optimizer_states[k]] on the defaultdict: a missing key gets
    a fresh entry. *)
Definition opt_state_of (k : nat) : M opt_state :=
  s <- self ;;
  match dict_get k (_per_optimizer_states s) with
  | Some st => ret st
  | None =>
      set_self (set_per_optimizer_states
                  (dict_set k _refresh_per_optimizer_state (_per_optimizer_states s))) ;;;
      ret _refresh_per_optimizer_state
  end.

(** Assignments through the reference [optimizer_state] obtained above. *)
Definition set_opt_state (k : nat) (f : opt_state -> opt_state) : M unit :=
  st <- opt_state_of k ;;
  set_self (fun s => set_per_optimizer_states
                       (dict_set k (f st) (_per_optimizer_states s)) s).

Definition set_stage (k : nat) (v : OptState) : M unit :=
  set_opt_state k (fun st => {| stage := v;
                                found_inf_per_device := found_inf_per_device st |}).

Definition set_found_inf_per_device (k : nat) (v : list (device * loc)) : M unit :=
  set_opt_state k (fun st => {| stage := stage st; found_inf_per_device := v |}).

(** ** Cross-shard agreement *)

(** Modelled from the spec: the inherited [unscale_] of the tensor
    library's gradient scaler, which this class extends: it computes the
    reciprocal of the scale, runs the overflow scan of this class (half
    precision disallowed), records the per-device flags for the optimizer
    and marks it UNSCALED; running it twice in an iteration is refused.
    Its second guard, against a call after [step], compares the stage with
    the library's own STEPPED, which the [STEPPED] that [step] stores is
    not: after [step] the method runs as it does on a READY optimizer. *)
Definition unscaled_twice_message : string :=
  "unscale_() has already been called on this optimizer since the last update().".

Definition super_unscale_ (optimizer : Optimizer) : M unit :=
  s <- self ;;
  if negb (_enabled s) then ret tt
  else
    let* (scale_loc, _) := _check_scale_growth_tracker "unscale_" in
    optimizer_state <- opt_state_of (id optimizer) ;;
    match stage optimizer_state with
    | UNSCALED =>
        raise (RuntimeError unscaled_twice_message)
    | READY | STEPPED =>
        let* (dev, v) := read_float scale_loc in
        inv_scale <- alloc_cell
          (FloatCell dev
             (Float.round Float.binary32
                (Float.div Float.binary64 (Float.one Float.binary64)
                           (Float.round Float.binary64 v)))) ;;
        found_inf <- alloc_cell (FloatCell dev Float.zero) ;;
        flags <- _unscale_grads_ optimizer inv_scale found_inf false ;;
        set_found_inf_per_device (id optimizer) flags ;;;
        set_stage (id optimizer) UNSCALED
    end.

(** Modelled from the spec: the collective-communication capability, a sum
    reduction of a one-element buffer across the process group, written
    into the buffer it is given. The contributions of the other ranks to
    successive reductions are read off [peers]. *)
Definition all_reduce (v : loc) : M unit :=
  let* (d, x) := read_float v in
  w <- get_world ;;
  let contribution := match peers w with [] => [] | c :: _ => c end in
  modify (fun w => set_peers (tail (peers w)) w) ;;;
  write_cell v (FloatCell d (fold_left (Float.add Float.binary32) contribution x)).

Definition unscale_ (optimizer : Optimizer) : M unit :=
  attr "display_warning" ;;;
  s <- self ;;
  (if display_warning s && negb (is_OSS optimizer)
   then log_warning
     "ShardedGradScaler is to be used in combination with a sharded optimizer, this could not be checked"
   else ret tt) ;;;
  set_self (set_display_warning false) ;;;
  super_unscale_ optimizer ;;;
  attr "_per_optimizer_states" ;;;
  optimizer_state <- opt_state_of (id optimizer) ;;
  for_each (dict_values (found_inf_per_device optimizer_state)) tt (fun v _ =>
    let* (d, x) := read_float v in
    if bool_decide (dev_type d = cpu) then
      v_on_cuda <- alloc_cell (FloatCell current_cuda_device x) ;;
      all_reduce v_on_cuda ;;;
      (* [v_on_cuda.cpu()]: a copy nothing refers to *)
      let* (_, y) := read_float v_on_cuda in
      _ <- alloc_cell (FloatCell cpu_device y) ;;
      ret tt
    else all_reduce v).
    (* waiting on the last handle: the reductions above are complete *)

(** ** step *)

Definition call_optimizer_step (optimizer : Optimizer) (args : list pyobj)
    (kw : kwargs) : M pyobj :=
  modify (fun w => set_calls ((id optimizer, args, kw) :: calls w) w) ;;;
  ret (step_result optimizer args kw).

(** [sum(v.item() for v in ...)], each item a Python float. *)
Definition sum_items (flags : list loc) : M pyfloat :=
  for_each flags Float.zero (fun v acc =>
    let* (_, x) := read_float v in
    ret (Float.add Float.binary64 acc (Float.round Float.binary64 x))).

Definition _maybe_opt_step (optimizer : Optimizer) (optimizer_state : opt_state)
    (args : list pyobj) (kw : kwargs) : M pyobj :=
  total <- sum_items (dict_values (found_inf_per_device optimizer_state)) ;;
  if negb (Float.truthy total) then call_optimizer_step optimizer args kw
  else ret PyNone.

Definition stepped_twice_message : string :=
  "step() has already been called since the last update().".

Definition no_checks_for_optimizer_message : string :=
  "No inf checks were recorded for this optimizer.".

Definition has_key (k : string) (kw : kwargs) : bool :=
  match dict_get k kw with Some _ => true | None => false end.

Definition step (optimizer : Optimizer) (args : list pyobj) (kw : kwargs) : M pyobj :=
  s <- self ;;
  if negb (_enabled s) then call_optimizer_step optimizer args kw
  else if has_key "closure" kw
  then raise (RuntimeError
                "Closure use is not currently supported if GradScaler is enabled.")
  else
    _ <- _check_scale_growth_tracker "step" ;;
    optimizer_state <- opt_state_of (id optimizer) ;;
    if bool_decide (stage optimizer_state = STEPPED)
    then raise (RuntimeError stepped_twice_message)
    else
      match _step_supports_amp_scaling optimizer with
      | Some true =>
          retval <- call_optimizer_step optimizer args (dict_set "grad_scaler" PySelf kw) ;;
          set_stage (id optimizer) STEPPED ;;;
          ret retval
      | _ =>
          (if bool_decide (stage optimizer_state = READY)
           then unscale_ optimizer else ret tt) ;;;
          optimizer_state <- opt_state_of (id optimizer) ;;
          assert (0 <? length (found_inf_per_device optimizer_state))
                 no_checks_for_optimizer_message ;;;
          retval <- _maybe_opt_step optimizer optimizer_state args kw ;;
          set_stage (id optimizer) STEPPED ;;;
          ret retval
      end.

(** ** Scale update *)

(** [self._scale *= factor]: in place, in the buffer's format. *)
Definition scale_imul (factor : pyfloat) : M unit :=
  s <- self ;;
  match _scale s with
  | None => raise (TypeError "unsupported operand type(s) for *=: 'NoneType' and 'float'")
  | Some l =>
      let* (d, v) := read_float l in
      write_cell l (FloatCell d (Float.mul Float.binary32 v
                                           (Float.round Float.binary32 factor)))
  end.

Definition in_int64 (z : Z) : bool := ((- 2 ^ 63 <=? z) && (z <? 2 ^ 63))%Z.

(** [successful == self._growth_interval]. An int32 tensor is compared
    with a Python integer in the element type of the tensor, to which the
    integer is converted with wrap-around; an integer that does not fit 64
    bits never reaches the comparison, which is outside the embedding.
    Two Python integers are compared as they are. *)
Definition reached_interval (successful : tracker_ref * Z) (growth_interval : Z)
  : M bool :=
  match fst successful with
  | TrackerTensor _ =>
      if in_int64 growth_interval
      then ret (snd successful =? wrap32 growth_interval)%Z
      else unmodelled "integer beyond 64 bits"
  | _ => ret (snd successful =? growth_interval)%Z
  end.

Definition _amp_update_scale_cpu_ (found_inf : loc) : M unit :=
  let* (_, fi) := read_float found_inf in
  s <- self ;;
  if Float.eqb fi Float.pinf || Float.eqb fi Float.ninf then
    scale_imul (_backoff_factor s) ;;;
    set_self (set_growth_tracker (TrackerInt 0))
  else
    (* [successful = self._growth_tracker + 1]: a new tensor when the
       tracker is a tensor, an integer when it is an integer *)
    successful <-
      match _growth_tracker s with
      | TrackerTensor l =>
          let* (d, v) := read_int l in
          l' <- alloc_cell (IntCell d (wrap32 (v + 1))) ;;
          ret (TrackerTensor l', wrap32 (v + 1))
      | TrackerInt z => ret (TrackerInt (z + 1), (z + 1)%Z)
      | TrackerNone =>
          raise (TypeError "unsupported operand type(s) for +: 'NoneType' and 'int'")
      end ;;
    reached <- reached_interval successful (_growth_interval s) ;;
    if reached : bool then
      scale_imul (_growth_factor s) ;;;
      set_self (set_growth_tracker (TrackerInt 0))
    else
      set_self (set_growth_tracker (fst successful)).

(** Modelled from the spec: [torch._amp_update_scale_], the fused update of
    the tensor library, working in place on the scale and growth-tracker
    buffers: a non-zero flag multiplies the scale by the backoff factor and
    resets the tracker to 0; otherwise the tracker is incremented, and when
    it reaches the growth interval the scale is multiplied by the growth
    factor and the tracker reset to 0. *)
Definition _amp_update_scale_ (scale_loc : loc) (growth_tracker : tracker_ref)
    (found_inf : loc) (growth_factor backoff_factor : pyfloat)
    (growth_interval : Z) : M unit :=
  match growth_tracker with
  | TrackerTensor t =>
      let* (_, fi) := read_float found_inf in
      let* (d, v) := read_float scale_loc in
      let* (dt, n) := read_int t in
      if Float.truthy fi then
        write_cell scale_loc
          (FloatCell d (Float.mul Float.binary32 v
                                  (Float.round Float.binary32 backoff_factor))) ;;;
        write_cell t (IntCell dt 0)
      else
        let successful := wrap32 (n + 1) in
        if (successful =? growth_interval)%Z then
          write_cell scale_loc
            (FloatCell d (Float.mul Float.binary32 v
                                    (Float.round Float.binary32 growth_factor))) ;;;
          write_cell t (IntCell dt 0)
        else write_cell t (IntCell dt successful)
  | _ => raise (TypeError "_amp_update_scale_(): argument 'growth_tracker' must be Tensor")
  end.

(** The argument of [update]. *)
Inductive new_scale_arg :=
| NewScaleNone
| NewScaleFloat (x : pyfloat)
| NewScaleTensor (t : loc) (requires_grad : bool)
| NewScaleOther (o : pyobj).     (* any other object, a Python int included *)

Definition numel (d : tdata) : nat := length (tdata_elems d).

Definition no_checks_message : string :=
  "No inf checks were recorded prior to update.".

Definition new_scale_reason : string :=
  "new_scale should be a float or a 1-element torch.cuda.FloatTensor with requires_grad=False.".

(** The list comprehension of [update]: every flag of every optimizer,
    brought to the device of the scale. *)
Definition gather_found_infs (dev : device) : M (list loc) :=
  s <- self ;;
  for_each (dict_values (_per_optimizer_states s)) [] (fun state acc =>
    for_each (dict_values (found_inf_per_device state)) acc (fun found_inf acc =>
      l <- cell_to found_inf dev ;;
      ret (acc ++ [l]))).

(** [found_inf_combined += found_infs[i]], in place on the first flag. *)
Definition combine_found_infs (found_inf_combined : loc) (rest : list loc) : M unit :=
  for_each rest tt (fun fi _ =>
    let* (d, x) := read_float found_inf_combined in
    let* (_, y) := read_float fi in
    write_cell found_inf_combined (FloatCell d (Float.add Float.binary32 x y))).

Definition print (line : string) : M unit :=
  modify (fun w => set_stdout (line :: stdout w) w).

Definition update (new_scale : new_scale_arg) : M unit :=
  s <- self ;;
  if negb (_enabled s) then ret tt
  else
    let* (scale_loc, growth_tracker) := _check_scale_growth_tracker "update" in
    let* (dev, _) := read_float scale_loc in
    match new_scale with
    | NewScaleFloat x =>
        v <- to_float32 x ;;
        write_cell scale_loc (FloatCell dev v)
    | NewScaleTensor t requires_grad =>
        x <- read_tensor t ;;
        assert (bool_decide (dev_type (t_device x) = cuda)
                && bool_decide (t_dtype x = float32)) new_scale_reason ;;;
        assert (numel (t_data x) =? 1) new_scale_reason ;;;
        assert (negb requires_grad) new_scale_reason ;;;
        write_cell scale_loc
          (FloatCell dev (default Float.zero (head (tdata_elems (t_data x)))))
    | NewScaleOther _ => raise (AssertionError new_scale_reason)
    | NewScaleNone =>
        found_infs <- gather_found_infs dev ;;
        match found_infs with
        | [] => raise (AssertionError no_checks_message)
        | found_inf_combined :: rest =>
            combine_found_infs found_inf_combined rest ;;;
            if bool_decide (dev_type dev = cpu) then
              print "using cpu" ;;;
              _amp_update_scale_cpu_ found_inf_combined
            else
              print "using gpu" ;;;
              s <- self ;;
              _amp_update_scale_ scale_loc (_growth_tracker s) found_inf_combined
                (_growth_factor s) (_backoff_factor s) (_growth_interval s)
        end
    end ;;;
    (* a fresh, empty defaultdict *)
    set_self (set_per_optimizer_states []).

(** ** Reading the state, persistence *)

Definition get_scale : M pyfloat :=
  s <- self ;;
  if _enabled s then
    match _scale s with
    | None => ret (_init_scale s)
    | Some l => let* (_, v) := read_float l in ret (Float.round Float.binary64 v)
    end
  else ret (Float.one Float.binary64).

Definition _get_growth_tracker : M Z :=
  s <- self ;;
  if _enabled s then
    match _growth_tracker s with
    | TrackerNone => ret (_init_growth_tracker s)
    | TrackerTensor l => let* (_, v) := read_int l in ret v
    | TrackerInt _ => raise (AttributeError "'int' object has no attribute 'item'")
    end
  else ret 0%Z.

Definition get_growth_factor : M pyfloat :=
  attr "_growth_factor" ;;; s <- self ;; ret (_growth_factor s).
Definition get_backoff_factor : M pyfloat :=
  attr "_backoff_factor" ;;; s <- self ;; ret (_backoff_factor s).
Definition get_growth_interval : M Z :=
  attr "_growth_interval" ;;; s <- self ;; ret (_growth_interval s).
Definition is_enabled : M bool := s <- self ;; ret (_enabled s).

(** The setters assign the attribute and check nothing. *)
Definition set_growth_factor (new_factor : pyfloat) : M unit :=
  set_self (fun s =>
    {| _enabled := _enabled s; _init_scale := _init_scale s; _scale := _scale s;
       _growth_factor := new_factor; _backoff_factor := _backoff_factor s;
       _growth_interval := _growth_interval s;
       _init_growth_tracker := _init_growth_tracker s;
       _growth_tracker := _growth_tracker s;
       _per_optimizer_states := _per_optimizer_states s;
       display_warning := display_warning s;
       lacks := given "_growth_factor" s |}).

Definition set_backoff_factor (new_factor : pyfloat) : M unit :=
  set_self (fun s =>
    {| _enabled := _enabled s; _init_scale := _init_scale s; _scale := _scale s;
       _growth_factor := _growth_factor s; _backoff_factor := new_factor;
       _growth_interval := _growth_interval s;
       _init_growth_tracker := _init_growth_tracker s;
       _growth_tracker := _growth_tracker s;
       _per_optimizer_states := _per_optimizer_states s;
       display_warning := display_warning s;
       lacks := given "_backoff_factor" s |}).

Definition set_growth_interval (new_interval : Z) : M unit :=
  set_self (fun s =>
    {| _enabled := _enabled s; _init_scale := _init_scale s; _scale := _scale s;
       _growth_factor := _growth_factor s; _backoff_factor := _backoff_factor s;
       _growth_interval := new_interval;
       _init_growth_tracker := _init_growth_tracker s;
       _growth_tracker := _growth_tracker s;
       _per_optimizer_states := _per_optimizer_states s;
       display_warning := display_warning s;
       lacks := given "_growth_interval" s |}).

Definition blob := list (string * pyval).

Definition state_dict : M blob :=
  s <- self ;;
  if _enabled s then
    sc <- get_scale ;;
    gt <- _get_growth_tracker ;;
    ret [("scale", PyFloat sc);
         ("growth_factor", PyFloat (_growth_factor s));
         ("backoff_factor", PyFloat (_backoff_factor s));
         ("growth_interval", PyInt (_growth_interval s));
         ("_growth_tracker", PyInt gt)]
  else ret [].

Definition item (key : string) (d : blob) : M pyval :=
  match dict_get key d with
  | Some v => ret v
  | None => raise (KeyError key)
  end.

(** The entries are documented as Python floats and Python ints; a blob
    with another type under one of the keys is outside the embedding. *)
Definition float_item (key : string) (d : blob) : M pyfloat :=
  v <- item key d ;;
  match v with PyFloat x => ret x | PyInt _ => unmodelled key end.

Definition int_item (key : string) (d : blob) : M Z :=
  v <- item key d ;;
  match v with PyInt z => ret z | PyFloat _ => unmodelled key end.

Definition empty_blob_message : string :=
  "The source state dict is empty, possibly because it was saved from a disabled instance of GradScaler.".

Definition load_state_dict (d : blob) : M unit :=
  s <- self ;;
  if negb (_enabled s) then ret tt
  else if length d =? 0 then
    raise (RuntimeError empty_blob_message)
  else
    sc <- float_item "scale" d ;;
    (match _scale s with
     | Some l => let* (dev, _) := read_float l in
                 v <- to_float32 sc ;;
                 write_cell l (FloatCell dev v)
     | None => ret tt
     end) ;;;
    gf <- float_item "growth_factor" d ;;
    bf <- float_item "backoff_factor" d ;;
    gi <- int_item "growth_interval" d ;;
    gt <- int_item "_growth_tracker" d ;;
    (match _growth_tracker s with
     | TrackerNone => ret tt
     | TrackerTensor l =>
         let* (dev, _) := read_int l in
         if in_int32 gt then write_cell l (IntCell dev gt)
         else raise (RuntimeError int32_overflow_message)
     | TrackerInt _ => raise (AttributeError "'int' object has no attribute 'fill_'")
     end) ;;;
    set_self (fun s =>
      {| _enabled := _enabled s; _init_scale := sc; _scale := _scale s;
         _growth_factor := gf; _backoff_factor := bf; _growth_interval := gi;
         _init_growth_tracker := gt; _growth_tracker := _growth_tracker s;
         _per_optimizer_states := _per_optimizer_states s;
         display_warning := display_warning s; lacks := lacks s |}).

Definition pickle_message : string :=
  "A GradScaler instance may only be pickled at the beginning of an iteration, or at the end after scaler.update().".

(** [__getstate__]: the attribute dictionary handed to pickle. *)
Definition __getstate__ : M ShardedGradScaler :=
  s <- self ;;
  if _enabled s then
    assert (length (_per_optimizer_states s) =? 0) pickle_message ;;;
    sc <- get_scale ;;
    gt <- _get_growth_tracker ;;
    ret {| _enabled := _enabled s; _init_scale := sc; _scale := None;
           _growth_factor := _growth_factor s; _backoff_factor := _backoff_factor s;
           _growth_interval := _growth_interval s;
           _init_growth_tracker := gt; _growth_tracker := TrackerNone;
           _per_optimizer_states := _per_optimizer_states s;
           display_warning := display_warning s; lacks := lacks s |}
  else ret s.

(** [self.__dict__.update(state)]: the attributes that [state] holds
    replace those of the instance, the others stay as they are. *)
Definition updated {A} (name : string) (f : ShardedGradScaler -> A)
    (state s : ShardedGradScaler) : A :=
  if has_attr name state then f state else f s.

Definition __setstate__ (state : ShardedGradScaler) : M unit :=
  set_self (fun s =>
    {| _enabled := _enabled state;
       _init_scale := updated "_init_scale" _init_scale state s;
       _scale := updated "_scale" _scale state s;
       _growth_factor := updated "_growth_factor" _growth_factor state s;
       _backoff_factor := updated "_backoff_factor" _backoff_factor state s;
       _growth_interval := updated "_growth_interval" _growth_interval state s;
       _init_growth_tracker :=
         updated "_init_growth_tracker" _init_growth_tracker state s;
       _growth_tracker := updated "_growth_tracker" _growth_tracker state s;
       _per_optimizer_states :=
         updated "_per_optimizer_states" _per_optimizer_states state s;
       display_warning := updated "display_warning" display_warning state s;
       lacks := List.filter (fun n => negb (has_attr n state)) (missing s) |}).

Definition _check_inf_per_device (optimizer : Optimizer) : M (list (device * loc)) :=
  let* (scale_loc, _) := _check_scale_growth_tracker "_check_inf_per_device" in
  let* (dev, _) := read_float scale_loc in
  dummy_inv_scale <- alloc_cell (FloatCell dev (Float.one Float.binary32)) ;;
  found_inf <- alloc_cell (FloatCell dev Float.zero) ;;
  flags <- _unscale_grads_ optimizer dummy_inv_scale found_inf true ;;
  attr "_per_optimizer_states" ;;;
  set_found_inf_per_device (id optimizer) flags ;;;
  st <- opt_state_of (id optimizer) ;;
  ret (found_inf_per_device st).

Definition _found_inf_per_device (optimizer : Optimizer) : M (list (device * loc)) :=
  attr "_per_optimizer_states" ;;;
  st <- opt_state_of (id optimizer) ;;
  ret (found_inf_per_device st).

(** * Vocabulary of the properties *)

(** ** Observations *)

(** The number held by the scale buffer, and the count held by whatever
    [_growth_tracker] is bound to. *)
Definition scale_value (w : world) : option spec_float :=
  match _scale (scaler w) with
  | Some l => match cells w !! l with Some (FloatCell _ v) => Some v | _ => None end
  | None => None
  end.

Definition tracker_value (w : world) : option Z :=
  match _growth_tracker (scaler w) with
  | TrackerTensor l =>
      match cells w !! l with Some (IntCell _ v) => Some v | _ => None end
  | TrackerInt z => Some z
  | TrackerNone => None
  end.

Definition scale_device (w : world) : option device :=
  match _scale (scaler w) with
  | Some l => cell_device <$> cells w !! l
  | None => None
  end.

(** The configuration and the identity of the scale buffer. *)
Definition settings (w : world)
  : bool * option nat * pyfloat * pyfloat * Z :=
  (_enabled (scaler w), _scale (scaler w), _growth_factor (scaler w),
   _backoff_factor (scaler w), _growth_interval (scaler w)).

(** What [scale], [unscale_] and [step] never rebind: every attribute but
    the per-optimizer map and the warning switch. *)
Record attributes := Attributes {
  a_enabled : bool;
  a_scale : option nat;
  a_growth_tracker : tracker_ref;
  a_growth_factor : pyfloat;
  a_backoff_factor : pyfloat;
  a_growth_interval : Z;
  a_init_scale : pyfloat;
  a_init_growth_tracker : Z
}.

Definition core (w : world) : attributes :=
  {| a_enabled := _enabled (scaler w);
     a_scale := _scale (scaler w);
     a_growth_tracker := _growth_tracker (scaler w);
     a_growth_factor := _growth_factor (scaler w);
     a_backoff_factor := _backoff_factor (scaler w);
     a_growth_interval := _growth_interval (scaler w);
     a_init_scale := _init_scale (scaler w);
     a_init_growth_tracker := _init_growth_tracker (scaler w) |}.

Definition stage_of (k : nat) (w : world) : option OptState :=
  stage <$> dict_get k (_per_optimizer_states (scaler w)).

(** The flags recorded for optimizer [k], as buffers. *)
Definition recorded_flags (k : nat) (w : world) : list (option cell) :=
  match dict_get k (_per_optimizer_states (scaler w)) with
  | Some st => map (fun l => cells w !! l) (dict_values (found_inf_per_device st))
  | None => []
  end.

(** Every flag recorded this iteration, in the order [update] visits
    them. *)
Definition flag_locs (w : world) : list nat :=
  concat (map (fun st => dict_values (found_inf_per_device st))
              (dict_values (_per_optimizer_states (scaler w)))).

Definition zero_at (w : world) (a : nat) : Prop :=
  exists d s, cells w !! a = Some (FloatCell d (S754_zero s)).

(** An iteration without overflow: at least one flag has been recorded,
    every recorded flag is a zero, and none of them is the scale buffer. *)
Definition overflow_free (w : world) : Prop :=
  flag_locs w <> [] /\
  Forall (fun a => Some a <> _scale (scaler w) /\ zero_at w a) (flag_locs w).

(** The same, as a test. *)
Definition overflow_freeb (w : world) : bool :=
  negb (bool_decide (flag_locs w = [])) &&
  forallb (fun a =>
             negb (bool_decide (Some a = _scale (scaler w))) &&
             match cells w !! a with
             | Some (FloatCell _ (S754_zero _)) => true
             | _ => false
             end) (flag_locs w).

(** No parameter of the optimizer carries a gradient. *)
Definition no_gradients (o : Optimizer) (w : world) : Prop :=
  Forall (Forall (fun p => params w !! p = Some None)) (param_groups o).

(** The buffers [get_scale] and [_get_growth_tracker] read are there. *)
Definition buffers_readable (w : world) : Prop :=
  (_scale (scaler w) = None \/ exists v, scale_value w = Some v) /\
  (_growth_tracker (scaler w) = TrackerNone \/
   exists l v, _growth_tracker (scaler w) = TrackerTensor l /\ tracker_value w = Some v).

(** The fused update needs the tracker to be a tensor; the CPU update
    takes an integer as well. *)
Definition tracker_fits_device (w : world) : Prop :=
  (exists d, scale_device w = Some d /\ dev_type d = cpu) \/
  exists t, _growth_tracker (scaler w) = TrackerTensor t.

(** The scale [v] multiplied, in its buffer, by a Python float. *)
Definition grown_scale (v : spec_float) (factor : pyfloat) : spec_float :=
  Float.mul Float.binary32 v (Float.round Float.binary32 factor).

(** The world [update] leaves behind when told to use the scale [x]: the
    buffer at [l] refilled, the per-optimizer map fresh, all else as it
    was. *)
Definition with_scale (l : nat) (d : device) (x : spec_float) (w : world) : world :=
  set_scaler (set_per_optimizer_states [] (scaler w))
             (set_cells (<[l := FloatCell d x]> (cells w)) w).

Definition is_cuda_float_tensor (x : tensor) : bool :=
  bool_decide (dev_type (t_device x) = cuda) && bool_decide (t_dtype x = float32).

(** ** Framing

    [framed c0 pre w]: the attributes are [c0] and the buffers [pre] are
    still in place, with whatever was allocated after them. *)
Definition framed (c0 : attributes) (pre : list cell) (w : world) : Prop :=
  core w = c0 /\ exists ext, cells w = pre ++ ext.

Definition triple {A} (P : world -> Prop) (m : M A) (Q : A -> world -> Prop) : Prop :=
  forall w a w', P w -> m w = Return a w' -> Q a w'.

(** The operation keeps the frame. *)
Definition stable_at {A} (c0 : attributes) (pre : list cell) (m : M A) : Prop :=
  triple (framed c0 pre) m (fun _ => framed c0 pre).

(** A buffer allocated after [pre]. *)
Definition fresh (pre : list cell) (l : nat) : Prop := length pre <= l.

Definition fresh_flags (pre : list cell) (flags : list (device * nat)) : Prop :=
  Forall (fun p => fresh pre (snd p)) flags.

(** The flags recorded for optimizer [k] were allocated after [pre]. *)
Definition state_flags_fresh (pre : list cell) (k : nat) (w : world) : Prop :=
  match dict_get k (_per_optimizer_states (scaler w)) with
  | Some st => fresh_flags pre (found_inf_per_device st)
  | None => True
  end.

(** ** Runs of clean iterations *)

(** What the rest of an iteration, up to its [update], leaves alone: the
    configuration, the number in the scale buffer and the count. *)
Definition same_controller (w w' : world) : Prop :=
  settings w' = settings w /\
  scale_value w' = scale_value w /\
  tracker_value w' = tracker_value w.

(** The calls a training loop makes in an iteration before [update]. *)
Inductive call :=
| CallScale (outs : outputs)
| CallUnscale (optimizer : Optimizer)
| CallStep (optimizer : Optimizer) (args : list pyobj) (kw : kwargs).

Definition perform (c : call) : M unit :=
  match c with
  | CallScale outs => scale outs ;;; ret tt
  | CallUnscale optimizer => unscale_ optimizer
  | CallStep optimizer args kw => step optimizer args kw ;;; ret tt
  end.

(** [performs cs w w']: the calls [cs], made in turn from [w], all return
    and leave [w']. *)
Inductive performs : list call -> world -> world -> Prop :=
| performs_nil (w : world) : performs [] w w
| performs_cons (c : call) (cs : list call) (w w1 w2 : world) :
    perform c w = Return tt w1 ->
    performs cs w1 w2 ->
    performs (c :: cs) w w2.

(** [clean_run n w w']: [n] iterations lead from [w] to [w'], each made of
    calls of [scale], [unscale_] and [step] that return and leave only
    zero flags recorded, followed by an [update()] that returns. *)
Inductive clean_run : nat -> world -> world -> Prop :=
| clean_run_O (w : world) : clean_run 0 w w
| clean_run_S (n : nat) (cs : list call) (w w1 w2 w3 : world) :
    clean_run n w w1 ->
    performs cs w1 w2 ->
    overflow_free w2 ->
    update NewScaleNone w2 = Return tt w3 ->
    clean_run (S n) w w3.

(** What gathering the flags may do to the stores: append buffers. *)
Definition grown (w0 w : world) : Prop :=
  scaler w = scaler w0 /\ exists zs, cells w = cells w0 ++ zs.

(** A gathered flag: a zero that is not the scale buffer [l], and either a
    new buffer or one that was a zero flag before. *)
Definition gathered (w0 w : world) (l a : nat) : Prop :=
  a <> l /\ zero_at w a /\ (length (cells w0) <= a \/ zero_at w0 a).

(** ** Concrete processes

    The scenario of the specification: initial scale 1024, growth factor
    2, backoff factor 0.5, growth interval 3. Tensor 0 is the loss, the
    tensors after it are the gradients of parameters 0, 1, ... *)

(** The world an operation leaves behind (the initial one if it raises). *)
Definition after {A} (m : M A) (w : world) : world :=
  match m w with Return _ w' => w' | Raise _ => w end.

Definition f32 (m e : Z) : spec_float := Float.of_pow2 Float.binary32 m e.

(** A new object: no attribute yet. *)
Definition blank : ShardedGradScaler :=
  {| _enabled := false; _init_scale := Float.zero; _scale := None;
     _growth_factor := Float.zero; _backoff_factor := Float.zero;
     _growth_interval := 0; _init_growth_tracker := 0;
     _growth_tracker := TrackerNone; _per_optimizer_states := [];
     display_warning := false; lacks := attribute_names |}.

(** A process before the scaler is constructed, with the given tensors,
    parameters and peer contributions. *)
Definition boot (ts : list tensor) (ps : list (option grad_ref))
    (pe : list (list spec_float)) : world :=
  {| scaler := blank; cells := []; tensors := ts; params := ps; peers := pe;
     calls := []; log := []; stdout := [] |}.

Definition init_1024 (enabled : bool) : M unit :=
  __init__ false (py 1024 0) (py 2 0) (py 1 (-1)) 3 enabled.

Definition plain_optimizer (k : nat) (groups : list (list nat)) : Optimizer :=
  {| id := k; is_OSS := true; _step_supports_amp_scaling := None;
     param_groups := groups; step_result := fun _ _ => PyObj k |}.

Definition on_device (d : device) (rows : list (list spec_float)) : tensor :=
  {| t_device := d; t_dtype := float32; t_data := Rows rows |}.

Definition dense_params (n : nat) : list (option grad_ref) :=
  map (fun i => Some (DenseGrad (S i))) (seq 0 n).

(** A loss and one gradient per parameter, all holding [x], on [d]. *)
Definition one_gradient (d : device) (x : spec_float) : world :=
  boot [on_device d [[f32 1 0]]; on_device d [[x]]] (dense_params 1) [].

(** One iteration up to and including [step]: scale the loss, step the
    optimizer. *)
Definition forward_and_step (optimizer : Optimizer) : M pyobj :=
  scale (OTensor 0) ;;;
  step optimizer [] [].

Definition clean_iteration (optimizer : Optimizer) : M unit :=
  forward_and_step optimizer ;;;
  update NewScaleNone.

Definition five_entries (sc gf bf : pyfloat) (gi gt : Z) : blob :=
  [("scale", PyFloat sc); ("growth_factor", PyFloat gf);
   ("backoff_factor", PyFloat bf); ("growth_interval", PyInt gi);
   ("_growth_tracker", PyInt gt)].

Definition disabled_world : world :=
  after (init_1024 false) (one_gradient cpu_device (f32 1 0)).

(** Buffers materialized on [d], nothing recorded yet. *)
Definition materialized (d : device) : world :=
  after (init_1024 true ;;; scale (OTensor 0)) (one_gradient d (f32 1 0)).

(** In the middle of the first iteration: the optimizer has been
    stepped. *)
Definition stepped (d : device) : world :=
  after (step (plain_optimizer 7 [[0]]) [] []) (materialized d).

(** The state after [n] whole clean iterations. *)
Fixpoint iterated (d : device) (n : nat) : world :=
  match n with
  | 0 => materialized d
  | S n' => after (update NewScaleNone)
                  (after (forward_and_step (plain_optimizer 7 [[0]])) (iterated d n'))
  end.

(** After that [step], [unscale_] is called for the same optimizer, and
    then [step] once more, with no [update] in between. *)
Definition unscaled_after_step (d : device) : world :=
  after (unscale_ (plain_optimizer 7 [[0]])) (stepped d).

Definition stepped_again (d : device) : world :=
  after (step (plain_optimizer 7 [[0]]) [] []) (unscaled_after_step d).

(** After the first clean iteration on the CPU the scale is set to 512 by
    hand: the scale buffer holds 512 and the tracker buffer 1, where the
    instance was constructed with 1024 and 0. *)
Definition rescaled : world :=
  after (update (NewScaleFloat (py 512 0))) (iterated cpu_device 1).

(** An overflow on this rank. *)
Definition overflow_before_update (d : device) : world :=
  after (init_1024 true ;;; forward_and_step (plain_optimizer 7 [[0]]))
        (one_gradient d Float.pinf).

Definition overflow_after_update (d : device) : world :=
  after (update NewScaleNone) (overflow_before_update d).

(** This rank's only gradient is finite; another rank contributes the
    flag 1 to the reduction. *)
Definition peer_overflow_boot (d : device) : world :=
  boot [on_device d [[f32 1 0]]; on_device d [[f32 1 0]]] (dense_params 1)
       [[f32 1 0]].

Definition peer_overflow_unscaled (d : device) : world :=
  after (init_1024 true ;;; scale (OTensor 0) ;;; unscale_ (plain_optimizer 7 [[0]]))
        (peer_overflow_boot d).

(** Three gradients of one optimizer: 1, an infinity, 2. *)
Definition three_gradients (d : device) : world :=
  boot [on_device d [[f32 1 0]]; on_device d [[f32 1 0]];
        on_device d [[Float.pinf]]; on_device d [[f32 2 0]]]
       (dense_params 3) [].

Definition three_gradients_stepped (d : device) : world :=
  after (init_1024 true ;;; forward_and_step (plain_optimizer 7 [[0; 1; 2]]))
        (three_gradients d).

Definition three_clean_iterations (d : device) : world :=
  after (init_1024 true ;;;
         clean_iteration (plain_optimizer 7 [[0]]) ;;;
         clean_iteration (plain_optimizer 7 [[0]]) ;;;
         clean_iteration (plain_optimizer 7 [[0]]))
        (one_gradient d (f32 1 0)).

(** ** Vocabulary of the further properties *)

(** The operation leaves the observation [f] of the world as it was. *)
Definition keeps {A X} (f : world -> X) (m : M A) : Prop :=
  forall w a w', m w = Return a w' -> f w' = f w.

(** What [scale] returns, as references: the structure of its argument,
    every tensor met replaced by the next newly allocated one, counting
    from [n]; an iterable that is neither list nor tuple comes back as the
    unevaluated map over it. *)
Fixpoint relabel (val : outputs) (n : nat) : outputs * nat :=
  let each :=
    fix each (l : list outputs) (n : nat) : list outputs * nat :=
      match l with
      | [] => ([], n)
      | v :: l' =>
          let (v', n1) := relabel v n in
          let (l'', n2) := each l' n1 in
          (v' :: l'', n2)
      end in
  match val with
  | OTensor _ => (OTensor n, S n)
  | OList l => let (l', n') := each l n in (OList l', n')
  | OTuple l => let (l', n') := each l n in (OTuple l', n')
  | OIter _ | OLazy _ => (OLazy val, n)
  | OOther _ => (val, n)
  end.

(** The same, along a list or tuple. *)
Definition relabel_each : list outputs -> nat -> list outputs * nat :=
  fix each (l : list outputs) (n : nat) : list outputs * nat :=
    match l with
    | [] => ([], n)
    | v :: l' =>
        let (v', n1) := relabel v n in
        let (l'', n2) := each l' n1 in
        (v' :: l'', n2)
    end.

(** A slice that stops the CPU scan, and the number of slices before the
    first of them. *)
Definition bad_row (r : list spec_float) : bool :=
  existsb Float.isinf r || existsb Float.isnan r.

Fixpoint clean_prefix (rs : list (list spec_float)) : nat :=
  match rs with
  | [] => 0
  | r :: rs' => if bad_row r then 0 else S (clean_prefix rs')
  end.

(** The warning [unscale_] gives for an optimizer that is not sharded. *)
Definition not_sharded_warning : string :=
  "ShardedGradScaler is to be used in combination with a sharded optimizer, this could not be checked".

Definition cuda_unavailable_warning : string :=
  "torch.cuda.amp.GradScaler is enabled, but CUDA is not available.  Disabling.".

(** The message of [_check_scale_growth_tracker] when [scale] has not been
    called yet. *)
Definition scale_is_none_message (funcname : string) : string :=
  String.append "Attempted "
    (String.append funcname (String.append " but _scale is None.  " fix_hint)).

(** The attribute dictionary of an instance that came out of [__init__]
    enabled. *)
Definition constructed (init_scale growth_factor backoff_factor : pyfloat)
    (growth_interval : Z) : ShardedGradScaler :=
  {| _enabled := true; _init_scale := init_scale; _scale := None;
     _growth_factor := growth_factor; _backoff_factor := backoff_factor;
     _growth_interval := growth_interval; _init_growth_tracker := 0;
     _growth_tracker := TrackerNone; _per_optimizer_states := [];
     display_warning := true; lacks := [] |}.


(** An optimizer that is not sharded. *)
Definition torch_optimizer (k : nat) (groups : list (list nat)) : Optimizer :=
  {| id := k; is_OSS := false; _step_supports_amp_scaling := None;
     param_groups := groups; step_result := fun _ _ => PyObj k |}.

(** The line [update] prints for a scale buffer on [d]. *)
Definition update_line (d : device) : string :=
  if bool_decide (dev_type d = cpu) then "using cpu" else "using gpu".

(** Two clean iterations (count 2), then the growth interval is set to
    [g]; and one more clean iteration after that. *)
Definition interval_reset (d : device) (g : Z) : world :=
  after (set_growth_interval g) (iterated d 2).

Definition interval_reset_next (d : device) (g : Z) : world :=
  after (update NewScaleNone)
        (after (forward_and_step (plain_optimizer 7 [[0]])) (interval_reset d g)).

(** The state [__getstate__] hands to pickle (the attributes as they are
    if it raises). *)
Definition after_getstate (w : world) : ShardedGradScaler :=
  match __getstate__ w with Return state _ => state | Raise _ => scaler w end.

(** The keys [load_state_dict] looks up, in the order it does. *)
Definition blob_keys : list string :=
  ["scale"; "growth_factor"; "backoff_factor"; "growth_interval"; "_growth_tracker"].

(** The first of them that the blob lacks. *)
Definition missing_key (d : blob) : option string :=
  List.find (fun k => match dict_get k d with None => true | Some _ => false end)
            blob_keys.

(** The entries that are present have the documented types: floats under
    the first three keys, integers under the last two. *)
Definition typed_entry (d : blob) (k : string) (float : bool) : bool :=
  match dict_get k d with
  | None => true
  | Some (PyFloat _) => float
  | Some (PyInt _) => negb float
  end.

Definition documented_types (d : blob) : bool :=
  typed_entry d "scale" true && typed_entry d "growth_factor" true &&
  typed_entry d "backoff_factor" true && typed_entry d "growth_interval" false &&
  typed_entry d "_growth_tracker" false.

(** Every parameter of the optimizer is known, and so is the tensor of
    each gradient. *)
Definition readable_gradients (o : Optimizer) (w : world) : Prop :=
  Forall (fun p =>
            exists g, params w !! p = Some g /\
              forall r, g = Some r -> exists t, tensors w !! grad_values r = Some t)
         (concat (param_groups o)).

(** A process with one half-precision gradient after a single-precision
    one. *)
Definition half_precision_boot : world :=
  boot [on_device cpu_device [[f32 1 0]];
        on_device cpu_device [[f32 1 0]];
        {| t_device := cpu_device; t_dtype := float16; t_data := Rows [[f32 1 0]] |}]
       (dense_params 2) [].

Definition fp16_message : string := "Attempting to unscale FP16 gradients.".

(** The device of the gradient of parameter [p], if it has one. *)
Definition grad_device (w : world) (p : nat) : option device :=
  match params w !! p with
  | Some (Some g) => t_device <$> tensors w !! grad_values g
  | _ => None
  end.

(** The parameter is known, and so is the tensor of its gradient. *)
Definition readable_gradient (w : world) (p : nat) : Prop :=
  exists g, params w !! p = Some g /\
    forall r, g = Some r -> exists t, tensors w !! grad_values r = Some t.

(** Gradients on two devices, a reciprocal scale in cell 0 and a flag in
    cell 1. *)
Definition two_devices_boot : world :=
  set_cells [FloatCell current_cuda_device (f32 1 0);
             FloatCell current_cuda_device Float.zero]
    (boot [on_device cpu_device [[f32 1 0]];
           on_device cpu_device [[f32 1 0]];
           on_device current_cuda_device [[f32 1 0]];
           on_device cpu_device [[f32 2 0]]]
          (dense_params 3) []).

(** The groups the first loop of [_unscale_grads_] builds: no device
    twice, and at least one dtype under every device. *)
Definition groups_ok (G : grad_groups) : Prop :=
  List.NoDup (map fst G) /\ Forall (fun dg => snd dg <> []) G.

(** The two replicators of [_unscale_grads_] (of the reciprocal scale and
    of the flag), and the devices the second holds a copy for. *)
Definition replicators : Type :=
  (_GeneralMultiDeviceReplicator * _GeneralMultiDeviceReplicator)%type.

Definition copies_on (reps : replicators) : list device :=
  map fst (_per_device_tensors (snd reps)).

(** * Properties *)

(** ** Running the monad symbolically *)

#[global] Arguments Float.round : simpl never.
#[global] Arguments Float.mul : simpl never.
#[global] Arguments Float.add : simpl never.
#[global] Arguments Float.div : simpl never.
#[global] Arguments Float.of_Z : simpl never.
#[global] Arguments Float.of_pow2 : simpl never.
#[global] Arguments Float.one : simpl never.
#[global] Arguments Float.eqb : simpl never.
#[global] Arguments wrap32 : simpl never.
#[global] Arguments in_int32 : simpl never.
#[global] Arguments in_int64 : simpl never.
#[global] Arguments reached_interval : simpl never.
#[global] Arguments attr : simpl never.
#[global] Arguments has_attr : simpl never.
#[global] Arguments overflows_float32 : simpl never.
#[global] Arguments String.append : simpl never.
#[global] Arguments bind {A B} m k w /.
#[global] Arguments ret {A} a w /.
#[global] Arguments raise {A} e w /.
#[global] Arguments gets {A} f w /.
#[global] Arguments modify f w /.
#[global] Arguments self w /.
#[global] Arguments get_world w /.
#[global] Arguments set_self f w /.
#[global] Arguments unmodelled {A} what w /.
#[global] Arguments _check_scale_growth_tracker : simpl never.
#[global] Arguments opt_state_of : simpl never.
#[global] Arguments unscale_ : simpl never.
#[global] Arguments super_unscale_ : simpl never.
#[global] Arguments _unscale_grads_ : simpl never.
#[global] Arguments gather_found_infs : simpl never.
#[global] Arguments combine_found_infs : simpl never.
#[global] Arguments _amp_update_scale_cpu_ : simpl never.
#[global] Arguments _amp_update_scale_ : simpl never.
#[global] Arguments _maybe_opt_step : simpl never.
#[global] Arguments set_stage : simpl never.
#[global] Arguments get_scale : simpl never.
#[global] Arguments _get_growth_tracker : simpl never.

Lemma bind_inv {A B} (m : M A) (k : A -> M B) (w w'' : world) (b : B) :
  bind m k w = Return b w'' ->
  exists a w', m w = Return a w' /\ k a w' = Return b w''.
Proof.
  unfold bind. destruct (m w) as [e|a w']; [discriminate | eauto].
Qed.

(** Rewrite with the equations at hand and reduce, until nothing moves. *)
Ltac use_eqs :=
  repeat match goal with
         | H : ?x = _ |- context [?x] => rewrite H
         end.
Ltac run := repeat (progress (cbn; use_eqs)).

Lemma for_each_app {A S} (l1 l2 : list A) (s : S) (body : A -> S -> M S) (w : world) :
  for_each (l1 ++ l2) s body w =
  bind (for_each l1 s body) (fun s' => for_each l2 s' body) w.
Proof.
  revert s w. induction l1 as [|a l1 IH]; intros s w; cbn; [reflexivity |].
  destruct (body a s w) as [e|s' w']; [reflexivity |]. apply IH.
Qed.

Lemma for_each_concat {A B S} (f : A -> list B) (l : list A) (s : S)
    (body : B -> S -> M S) (w : world) :
  for_each l s (fun a s => for_each (f a) s body) w =
  for_each (concat (map f l)) s body w.
Proof.
  revert s w. induction l as [|a l IH]; intros s w; cbn; [reflexivity |].
  rewrite for_each_app. cbn.
  destruct (for_each (f a) s body w) as [e|s' w']; [reflexivity |]. apply IH.
Qed.

Lemma dict_get_set_eq {K V} `{EqDecision K} (k : K) (v : V) (d : list (K * V)) :
  dict_get k (dict_set k v d) = Some v.
Proof.
  induction d as [|[k' v'] d IH]; cbn.
  - destruct (decide (k = k)); congruence.
  - destruct (decide (k = k')) as [->|Hne]; cbn.
    + destruct (decide (k' = k')); congruence.
    + destruct (decide (k = k')); congruence.
Qed.

Lemma wrap32_small (z : Z) : (- 2 ^ 31 <= z < 2 ^ 31)%Z -> wrap32 z = z.
Proof.
  intros H. unfold wrap32.
  rewrite Z.mod_small by lia. lia.
Qed.

(** An interval within int32 is compared as it is. *)
Lemma reached_interval_tensor (l : nat) (x k : Z) (w : world) :
  (- 2 ^ 31 <= k < 2 ^ 31)%Z ->
  reached_interval (TrackerTensor l, x) k w = Return (x =? k)%Z w.
Proof.
  intros H. unfold reached_interval. cbn [fst snd].
  assert (H64 : in_int64 k = true).
  { unfold in_int64. apply andb_true_intro. split; [apply Z.leb_le | apply Z.ltb_lt]; lia. }
  rewrite H64, wrap32_small by exact H. reflexivity.
Qed.

Lemma reached_interval_inv (s : tracker_ref * Z) (k : Z) (w w' : world) (b : bool) :
  reached_interval s k w = Return b w' -> w' = w.
Proof.
  unfold reached_interval.
  destruct (fst s); [| destruct (in_int64 k) |]; cbn; intros H;
    first [discriminate | injection H as _ <-; reflexivity].
Qed.

Lemma reached_interval_int (z x k : Z) (w : world) :
  reached_interval (TrackerInt z, x) k w = Return (x =? k)%Z w.
Proof. reflexivity. Qed.

Lemma zero_is_not_inf (s b : bool) : Float.eqb (S754_zero s) (S754_infinity b) = false.
Proof. destruct b; reflexivity. Qed.

Lemma add_zeros (s1 s2 : bool) :
  exists s, Float.add Float.binary32 (S754_zero s1) (S754_zero s2) = S754_zero s.
Proof. destruct s1, s2; eexists; reflexivity. Qed.

(** An enabled instance has every attribute. *)
Lemma has_attr_enabled (name : string) (s : ShardedGradScaler) :
  _enabled s = true -> has_attr name s = true.
Proof. intros He. unfold has_attr, missing. rewrite He. reflexivity. Qed.

Lemma attr_enabled (name : string) (w : world) :
  _enabled (scaler w) = true -> attr name w = Return tt w.
Proof.
  intros He. unfold attr. cbn. rewrite (has_attr_enabled _ _ He). reflexivity.
Qed.

Lemma attr_inv (name : string) (w w' : world) (u : unit) :
  attr name w = Return u w' -> w' = w /\ has_attr name (scaler w) = true.
Proof.
  unfold attr. cbn. destruct (has_attr name (scaler w)); [| discriminate].
  intros H. injection H as <-. auto.
Qed.

Lemma attr_missing (name : string) (w : world) :
  has_attr name (scaler w) = false ->
  attr name w = Raise (AttributeError (no_attribute name)).
Proof. intros H. unfold attr. cbn. rewrite H. reflexivity. Qed.

Lemma check_returns (fn : string) (w w' : world) (a : nat * tracker_ref) :
  _check_scale_growth_tracker fn w = Return a w' ->
  w' = w /\ _scale (scaler w) = Some (fst a) /\
  _growth_tracker (scaler w) = snd a /\ snd a <> TrackerNone.
Proof.
  unfold _check_scale_growth_tracker. intros H.
  apply bind_inv in H as (u & w1 & Ha & H). apply attr_inv in Ha as [-> _].
  cbn in H. destruct (_scale (scaler w)); [|discriminate].
  apply bind_inv in H as (u2 & w2 & Ha & H). apply attr_inv in Ha as [-> _].
  destruct (_growth_tracker (scaler w)); cbn in H; try discriminate;
    injection H as <- <-; cbn; repeat split; congruence.
Qed.

Lemma check_passes (fn : string) (w : world) (l : nat) :
  _enabled (scaler w) = true ->
  _scale (scaler w) = Some l -> _growth_tracker (scaler w) <> TrackerNone ->
  _check_scale_growth_tracker fn w = Return (l, _growth_tracker (scaler w)) w.
Proof.
  intros He Hsc Htr. unfold _check_scale_growth_tracker. cbn.
  rewrite (attr_enabled _ _ He). cbn. rewrite Hsc. cbn.
  rewrite (attr_enabled _ _ He). cbn.
  destruct (_growth_tracker (scaler w)); [congruence | reflexivity ..].
Qed.

(** ** What an iteration leaves in place before [update]

    [scale], [unscale_] and [step] rebind no attribute but the
    per-optimizer map and the warning switch, and every buffer they write
    is one they allocated. *)

Lemma triple_bind {A B} (P : world -> Prop) (Q : A -> world -> Prop)
    (R : B -> world -> Prop) (m : M A) (k : A -> M B) :
  triple P m Q -> (forall a, triple (Q a) (k a) R) -> triple P (bind m k) R.
Proof.
  intros Hm Hk w b w'' HP H. apply bind_inv in H as (a & w' & H1 & H2).
  eapply Hk; [|exact H2]. eapply Hm; eauto.
Qed.

Lemma triple_ret {A} (P : world -> Prop) (Q : A -> world -> Prop) (a : A) :
  (forall w, P w -> Q a w) -> triple P (ret a) Q.
Proof. intros H w a' w' HP [= <- <-]. auto. Qed.

Lemma triple_raise {A} (P : world -> Prop) (Q : A -> world -> Prop) (e : exn) :
  triple P (raise e) Q.
Proof. intros w a' w' _ [=]. Qed.

Lemma triple_weaken {A} (P P' : world -> Prop) (Q Q' : A -> world -> Prop) (m : M A) :
  triple P m Q -> (forall w, P' w -> P w) -> (forall a w, Q a w -> Q' a w) ->
  triple P' m Q'.
Proof. intros H HP HQ w a w' HP' Hm. eapply HQ, H; eauto. Qed.

Lemma triple_for_each {A S} (I : S -> world -> Prop) (l : list A)
    (body : A -> S -> M S) :
  (forall a s, In a l -> triple (I s) (body a s) I) ->
  forall s, triple (I s) (for_each l s body) I.
Proof.
  induction l as [|a l IH]; intros Hb s; cbn [for_each].
  - apply triple_ret. auto.
  - eapply triple_bind; [apply Hb; left; reflexivity |].
    intros s'. apply IH. intros a' s'' Hin. apply Hb. right. exact Hin.
Qed.


Lemma outputs_nested_ind (P : outputs -> Prop) :
  (forall t, P (OTensor t)) ->
  (forall l, Forall P l -> P (OList l)) ->
  (forall l, Forall P l -> P (OTuple l)) ->
  (forall l, P (OIter l)) ->
  (forall src, P (OLazy src)) ->
  (forall o, P (OOther o)) ->
  forall v, P v.
Proof.
  intros Ht Hl Htu Hi Hz Ho.
  fix ind 1. intros [t|l|l|l|src|o].
  - apply Ht.
  - apply Hl. induction l as [|v l IH]; constructor; [apply ind | exact IH].
  - apply Htu. induction l as [|v l IH]; constructor; [apply ind | exact IH].
  - apply Hi.
  - apply Hz.
  - apply Ho.
Qed.

Section Frame.

Variable c0 : attributes.
Variable pre : list cell.

Lemma stable_ret {A} (a : A) : stable_at c0 pre (ret a).
Proof. apply triple_ret. auto. Qed.

Lemma stable_raise {A} (e : exn) : stable_at c0 pre (@raise A e).
Proof. apply triple_raise. Qed.

Lemma stable_unmodelled {A} (what : string) : stable_at c0 pre (@unmodelled A what).
Proof. apply triple_raise. Qed.

Lemma stable_bind {A B} (m : M A) (k : A -> M B) :
  stable_at c0 pre m -> (forall a, stable_at c0 pre (k a)) -> stable_at c0 pre (bind m k).
Proof. intros Hm Hk. eapply triple_bind; [apply Hm |]. intros a. apply Hk. Qed.

Lemma stable_for_each {A S} (l : list A) (body : A -> S -> M S) :
  (forall a s, stable_at c0 pre (body a s)) ->
  forall s, stable_at c0 pre (for_each l s body).
Proof.
  intros Hb s.
  apply (triple_for_each (fun _ => framed c0 pre)). intros a s' _. apply Hb.
Qed.

Lemma stable_gets {A} (f : world -> A) : stable_at c0 pre (gets f).
Proof. intros w a w' HP [= _ <-]. exact HP. Qed.

(** A change of the world that keeps the attributes and only appends
    buffers. *)
Lemma stable_modify (f : world -> world) :
  (forall w, core (f w) = core w /\ exists ext, cells (f w) = cells w ++ ext) ->
  stable_at c0 pre (modify f).
Proof.
  intros Hf w a w' [Hc [ext He]] [= _ <-].
  destruct (Hf w) as [Hc' [ext' He']]. split; [congruence |].
  exists (ext ++ ext'). rewrite He', He, app_assoc. reflexivity.
Qed.

Create HintDb stable.
#[local] Hint Resolve stable_ret stable_raise stable_unmodelled stable_gets : stable.

Ltac same_buffers :=
  intros ?; split; [reflexivity | exists []; cbn; rewrite app_nil_r; reflexivity].

Ltac stable :=
  repeat first
    [ solve [auto with stable]
    | apply stable_bind; [| intros ?]
    | apply stable_for_each; intros ? ?
    | apply stable_modify; same_buffers
    | match goal with
      | |- stable_at _ _ (match ?x with _ => _ end) => destruct x
      | |- stable_at _ _ (if ?b then _ else _) => destruct b
      end ].

Lemma stable_alloc_cell c : stable_at c0 pre (alloc_cell c).
Proof.
  intros w a w' [Hc [ext He]] [= _ <-]. split; [exact Hc |].
  exists (ext ++ [c]). cbn. rewrite He, app_assoc. reflexivity.
Qed.
Lemma stable_read_cell l : stable_at c0 pre (read_cell l).
Proof.
  intros w a w' HP. unfold read_cell.
  destruct (cells w !! l); intros [= _ <-]. exact HP.
Qed.
#[local] Hint Resolve stable_alloc_cell stable_read_cell : stable.
Lemma stable_read_float l : stable_at c0 pre (read_float l).
Proof. unfold read_float. stable. Qed.
Lemma stable_read_int l : stable_at c0 pre (read_int l).
Proof. unfold read_int. stable. Qed.
#[local] Hint Resolve stable_read_float stable_read_int : stable.
Lemma stable_alloc_tensor t : stable_at c0 pre (alloc_tensor t).
Proof.
  intros w a w' HP [= _ <-]. exact HP.
Qed.
Lemma stable_read_tensor l : stable_at c0 pre (read_tensor l).
Proof.
  intros w a w' HP. unfold read_tensor.
  destruct (tensors w !! l); intros [= _ <-]. exact HP.
Qed.
Lemma stable_write_tensor l t : stable_at c0 pre (write_tensor l t).
Proof. unfold write_tensor. stable. Qed.
Lemma stable_read_param l : stable_at c0 pre (read_param l).
Proof.
  intros w a w' HP. unfold read_param.
  destruct (params w !! l); intros [= _ <-]. exact HP.
Qed.
Lemma stable_write_param l g : stable_at c0 pre (write_param l g).
Proof. unfold write_param. stable. Qed.
#[local] Hint Resolve stable_alloc_tensor stable_read_tensor stable_write_tensor
  stable_read_param stable_write_param : stable.
Lemma stable_cell_to l d : stable_at c0 pre (cell_to l d).
Proof. unfold cell_to. stable. Qed.
Lemma stable_assert b msg : stable_at c0 pre (assert b msg).
Proof. unfold assert. stable. Qed.
Lemma stable_log_warning msg : stable_at c0 pre (log_warning msg).
Proof. unfold log_warning. stable. Qed.
Lemma stable_self : stable_at c0 pre self.
Proof. unfold self. stable. Qed.
Lemma stable_get_world : stable_at c0 pre get_world.
Proof. intros w a w' HP [= _ <-]. exact HP. Qed.
#[local] Hint Resolve stable_cell_to stable_assert stable_log_warning stable_self
  stable_get_world : stable.
Lemma stable_attr name : stable_at c0 pre (attr name).
Proof. unfold attr. stable. Qed.
#[local] Hint Resolve stable_attr : stable.
Lemma stable_check fn : stable_at c0 pre (_check_scale_growth_tracker fn).
Proof. unfold _check_scale_growth_tracker. stable. Qed.
Lemma stable_opt_state_of k : stable_at c0 pre (opt_state_of k).
Proof. unfold opt_state_of. stable. Qed.
#[local] Hint Resolve stable_check stable_opt_state_of : stable.
Lemma stable_set_opt_state k f : stable_at c0 pre (set_opt_state k f).
Proof. unfold set_opt_state. stable. Qed.
#[local] Hint Resolve stable_set_opt_state : stable.
Lemma stable_set_stage k v : stable_at c0 pre (set_stage k v).
Proof. unfold set_stage. stable. Qed.
Lemma stable_set_found k v : stable_at c0 pre (set_found_inf_per_device k v).
Proof. unfold set_found_inf_per_device. stable. Qed.
#[local] Hint Resolve stable_set_stage stable_set_found : stable.
Lemma stable_coalesce g : stable_at c0 pre (coalesce g).
Proof. unfold coalesce. stable. Qed.
#[local] Hint Resolve stable_coalesce : stable.
Lemma stable_collect_param a p g : stable_at c0 pre (collect_param a p g).
Proof. unfold collect_param. stable. Qed.
#[local] Hint Resolve stable_collect_param : stable.
Lemma stable_call_optimizer_step o a k : stable_at c0 pre (call_optimizer_step o a k).
Proof. unfold call_optimizer_step. stable. Qed.
Lemma stable_sum_items l : stable_at c0 pre (sum_items l).
Proof. unfold sum_items. stable. Qed.
#[local] Hint Resolve stable_call_optimizer_step stable_sum_items : stable.
Lemma stable_maybe_opt_step o st a k : stable_at c0 pre (_maybe_opt_step o st a k).
Proof. unfold _maybe_opt_step. stable. Qed.
Lemma stable_get r d : stable_at c0 pre (get r d).
Proof. unfold get. stable. Qed.
Lemma stable_tensor_mul_cell t c : stable_at c0 pre (tensor_mul_cell t c).
Proof. unfold tensor_mul_cell. stable. Qed.
#[local] Hint Resolve stable_maybe_opt_step stable_get stable_tensor_mul_cell : stable.

(** Writing a buffer allocated after [pre]. *)
Lemma stable_write_cell (l : nat) (c : cell) :
  fresh pre l -> stable_at c0 pre (write_cell l c).
Proof.
  intros Hl w a w' [Hc [ext He]] [= _ <-]. split; [exact Hc |].
  exists (<[l - length pre := c]> ext). cbn. rewrite He.
  apply insert_app_r_alt. exact Hl.
Qed.

Lemma dict_get_fresh (d : device) (flags : list (device * nat)) (l : nat) :
  fresh_flags pre flags -> dict_get d flags = Some l -> fresh pre l.
Proof.
  induction 1 as [|[d' l'] flags Hp _ IH]; cbn; [discriminate |].
  destruct (decide (d = d')); [intros [= <-]; exact Hp | exact IH].
Qed.

Lemma dict_set_fresh (d : device) (l : nat) (flags : list (device * nat)) :
  fresh pre l -> fresh_flags pre flags -> fresh_flags pre (dict_set d l flags).
Proof.
  intros Hl. induction 1 as [|[d' l'] flags Hp Hrest IH]; cbn.
  - repeat constructor. exact Hl.
  - destruct (decide (d = d')); constructor; auto.
Qed.

(** A replicator whose copies are all new hands out new copies. *)
Lemma triple_get (r : _GeneralMultiDeviceReplicator) (d : device) :
  fresh_flags pre (_per_device_tensors r) ->
  triple (framed c0 pre) (get r d)
    (fun lr w => framed c0 pre w /\ fresh pre (fst lr) /\
                 fresh_flags pre (_per_device_tensors (snd lr))).
Proof.
  intros Hr w [l r'] w' HP. unfold get.
  destruct (dict_get d (_per_device_tensors r)) as [l0|] eqn:Hget.
  - intros [= <- <- <-]. cbn. eauto using dict_get_fresh.
  - cbn. unfold read_float, read_cell. cbn.
    destruct (cells w !! master r) as [[dm vm|dm vm]|]; cbn; try discriminate.
    intros [= <- <- <-]. cbn.
    destruct HP as [Hc [ext He]].
    assert (Hfresh : fresh pre (length (cells w))).
    { unfold fresh. rewrite He, length_app. lia. }
    repeat split; auto.
    + exists (ext ++ [FloatCell d vm]). rewrite He, app_assoc. reflexivity.
    + apply dict_set_fresh; assumption.
Qed.

Lemma stable_cpu_scan (grads : list nat) (fi inv : nat) :
  fresh pre fi ->
  stable_at c0 pre (_foreach_non_finite_check_and_unscale_cpu_ grads fi inv).
Proof.
  intros Hfi. unfold _foreach_non_finite_check_and_unscale_cpu_.
  pose proof (stable_write_cell fi) as Hw. stable.
Qed.

Lemma stable_amp_scan (grads : list nat) (fi inv : nat) :
  fresh pre fi ->
  stable_at c0 pre (_amp_foreach_non_finite_check_and_unscale_ grads fi inv).
Proof.
  intros Hfi. unfold _amp_foreach_non_finite_check_and_unscale_.
  pose proof (stable_write_cell fi) as Hw. stable.
Qed.

Lemma stable_all_reduce (v : nat) : fresh pre v -> stable_at c0 pre (all_reduce v).
Proof.
  intros Hv. unfold all_reduce. pose proof (stable_write_cell v) as Hw. stable.
Qed.

(** The overflow scan writes new flags only, and returns them. *)
Lemma triple_unscale_grads (o : Optimizer) (inv fi : nat) (a : bool) :
  triple (framed c0 pre) (_unscale_grads_ o inv fi a)
    (fun flags w => framed c0 pre w /\ fresh_flags pre flags).
Proof.
  set (I := fun (reps : _GeneralMultiDeviceReplicator * _GeneralMultiDeviceReplicator)
                (w : world) =>
              framed c0 pre w /\ fresh_flags pre (_per_device_tensors (snd reps))).
  unfold _unscale_grads_.
  eapply triple_bind.
  { apply stable_for_each. intros g s. apply stable_for_each. intros p s'.
    apply stable_collect_param. }
  intros groups. cbn beta.
  eapply triple_bind with (Q := I).
  - eapply triple_weaken with (P := I (new_replicator inv, new_replicator fi)) (Q := I).
    + apply (triple_for_each I). intros dg reps _.
      apply (triple_for_each I). intros grads [rinv rfound] _.
      intros w reps' w' [HP Hfr] H. cbn [snd] in Hfr.
      apply bind_inv in H as ([l1 rfound'] & w1 & Hg1 & H).
      destruct (triple_get rfound (fst dg) Hfr _ _ _ HP Hg1) as (HP1 & Hl1 & Hfr1).
      cbn [fst snd] in *.
      apply bind_inv in H as ([l2 rinv'] & w2 & Hg2 & H).
      pose proof (stable_get rinv (fst dg) _ _ _ HP1 Hg2) as HP2. cbn beta in HP2.
      apply bind_inv in H as (g0 & w3 & Hg0 & H).
      assert (HP3 : framed c0 pre w3).
      { destruct grads; cbn in Hg0; [discriminate |].
        exact (stable_read_tensor _ _ _ _ HP2 Hg0). }
      apply bind_inv in H as (u & w4 & Hscan & H).
      cbn in H. injection H as <- <-. split; [| exact Hfr1].
      destruct (bool_decide (dev_type (t_device g0) = cpu)).
      * eapply stable_cpu_scan; eauto.
      * eapply stable_amp_scan; eauto.
    + intros w HP. split; [exact HP | constructor].
    + auto.
  - intros [rinv rfound]. apply triple_ret. unfold I. cbn. auto.
Qed.

Lemma set_opt_state_get (k : nat) (f : opt_state -> opt_state) (w w' : world) (u : unit) :
  set_opt_state k f w = Return u w' ->
  exists st, dict_get k (_per_optimizer_states (scaler w')) = Some (f st) /\
    (dict_get k (_per_optimizer_states (scaler w)) = Some st \/
     st = _refresh_per_optimizer_state).
Proof.
  unfold set_opt_state, opt_state_of. cbn.
  destruct (dict_get k (_per_optimizer_states (scaler w))) as [st|] eqn:Hget; cbn;
    rewrite ?dict_get_set_eq; cbn; intros H; injection H; intros; subst.
  - exists st. split; [apply dict_get_set_eq | auto].
  - exists _refresh_per_optimizer_state. split; [apply dict_get_set_eq | auto].
Qed.

Lemma triple_super_unscale (o : Optimizer) :
  a_enabled c0 = true ->
  triple (framed c0 pre) (super_unscale_ o)
    (fun _ w => framed c0 pre w /\ state_flags_fresh pre (id o) w).
Proof.
  intros He w u w' HP H. unfold super_unscale_ in H. cbn in H.
  assert (Hen : _enabled (scaler w) = true).
  { destruct HP as [Hc _]. rewrite <- Hc in He. exact He. }
  rewrite Hen in H. cbn in H.
  apply bind_inv in H as ([l t] & w1 & Hck & H).
  pose proof (stable_check _ _ _ _ HP Hck) as HP1. cbn beta in HP1.
  apply bind_inv in H as (st & w2 & Hos & H).
  pose proof (stable_opt_state_of _ _ _ _ HP1 Hos) as HP2. cbn beta in HP2.
  destruct (stage st); try discriminate.
  all: apply bind_inv in H as ([dev v] & w3 & Hrd & H).
  all: pose proof (stable_read_float _ _ _ _ HP2 Hrd) as HP3.
  all: cbn beta in HP3.
  all: apply bind_inv in H as (inv & w4 & Hal1 & H).
  all: pose proof (stable_alloc_cell _ _ _ _ HP3 Hal1) as HP4.
  all: cbn beta in HP4.
  all: apply bind_inv in H as (fi & w5 & Hal2 & H).
  all: pose proof (stable_alloc_cell _ _ _ _ HP4 Hal2) as HP5.
  all: cbn beta in HP5.
  all: apply bind_inv in H as (flags & w6 & Hug & H).
  all: destruct (triple_unscale_grads _ _ _ _ _ _ _ HP5 Hug) as [HP6 Hfl].
  all: apply bind_inv in H as (u1 & w7 & Hsf & H).
  all: pose proof (stable_set_found _ _ _ _ _ HP6 Hsf) as HP7.
  all: cbn beta in HP7.
  all: pose proof (stable_set_stage _ _ _ _ _ HP7 H) as HP8.
  all: cbn beta in HP8.
  all: split; [exact HP8 |].
  all: unfold set_found_inf_per_device in Hsf; unfold set_stage in H.
  all: apply set_opt_state_get in Hsf as (st1 & Hget1 & _).
  all: apply set_opt_state_get in H as (st2 & Hget2 & [Hprev | ->]).
  all: unfold state_flags_fresh; rewrite Hget2; cbn.
  all: try (rewrite Hget1 in Hprev; injection Hprev as <-; cbn; exact Hfl).
  all: constructor.
Qed.

Lemma stable_unscale (o : Optimizer) :
  a_enabled c0 = true -> stable_at c0 pre (unscale_ o).
Proof.
  intros He w u w' HP H. unfold unscale_ in H.
  apply bind_inv in H as (u0 & w0 & Ha & H). apply attr_inv in Ha as [-> _].
  apply bind_inv in H as (s & w0 & Hself & H). cbn in Hself.
  injection Hself as <- <-.
  apply bind_inv in H as (u1 & w1 & Hlog & H).
  assert (HP1 : framed c0 pre w1).
  { destruct (display_warning (scaler w) && negb (is_OSS o)).
    - exact (stable_log_warning _ _ _ _ HP Hlog).
    - cbn in Hlog. injection Hlog as _ <-. exact HP. }
  apply bind_inv in H as (u2 & w2 & Hdw & H).
  assert (HP2 : framed c0 pre w2).
  { cbn in Hdw. injection Hdw as _ <-. destruct HP1 as [Hc He1]. split; assumption. }
  apply bind_inv in H as (u3 & w3 & Hsu & H).
  destruct (triple_super_unscale o He _ _ _ HP2 Hsu) as [HP3 Hfl].
  apply bind_inv in H as (u5 & w5 & Ha & H). apply attr_inv in Ha as [-> _].
  apply bind_inv in H as (st & w4 & Hos & H).
  pose proof (stable_opt_state_of _ _ _ _ HP3 Hos) as HP4. cbn beta in HP4.
  assert (Hst : fresh_flags pre (found_inf_per_device st)).
  { unfold state_flags_fresh in Hfl. unfold opt_state_of in Hos. cbn in Hos.
    destruct (dict_get (id o) (_per_optimizer_states (scaler w3))) as [st3|];
      cbn in Hos; injection Hos as <- _; [exact Hfl | constructor]. }
  revert H HP4. generalize tt at 1 as s0. generalize w4.
  unfold dict_values.
  induction Hst as [|[d v] flags Hv _ IH]; intros w50 s0 H HP5;
    cbn [for_each map snd] in H.
  - cbn in H. injection H as _ <-. exact HP5.
  - apply bind_inv in H as (s1 & w6 & Hbody & H).
    eapply IH; [exact H |].
    apply bind_inv in Hbody as ([dv xv] & w7 & Hrd & Hbody).
    pose proof (stable_read_float _ _ _ _ HP5 Hrd) as HP7. cbn beta in HP7.
    lazy beta iota in Hbody.
    destruct (bool_decide (dev_type dv = cpu)).
    + apply bind_inv in Hbody as (vc & w8 & Hal & Hbody).
      pose proof (stable_alloc_cell _ _ _ _ HP7 Hal) as HP8. cbn beta in HP8.
      assert (Hvc : fresh pre vc).
      { revert Hal. unfold alloc_cell. intros [= <- _].
        destruct HP7 as [_ [ext He7]]. unfold fresh. rewrite He7, length_app. lia. }
      apply bind_inv in Hbody as (u4 & w9 & Har & Hbody).
      pose proof (stable_all_reduce vc Hvc _ _ _ HP8 Har) as HP9. cbn beta in HP9.
      apply bind_inv in Hbody as ([dy y] & w10 & Hrd2 & Hbody).
      pose proof (stable_read_float _ _ _ _ HP9 Hrd2) as HP10. cbn beta in HP10.
      lazy beta iota in Hbody.
      apply bind_inv in Hbody as (l11 & w11 & Hal2 & Hbody).
      pose proof (stable_alloc_cell _ _ _ _ HP10 Hal2) as HP11. cbn beta in HP11.
      cbn in Hbody. injection Hbody as _ <-. exact HP11.
    + exact (stable_all_reduce v Hv _ _ _ HP7 Hbody).
Qed.

Lemma stable_step (o : Optimizer) (args : list pyobj) (kw : kwargs) :
  stable_at c0 pre (step o args kw).
Proof.
  destruct (a_enabled c0) eqn:He.
  - unfold step.
    pose proof (fun o => stable_unscale o He) as Hun.
    stable.
  - intros w r w' HP H. unfold step in H. cbn in H.
    assert (Hen : _enabled (scaler w) = false).
    { destruct HP as [Hc _]. rewrite <- Hc in He. exact He. }
    rewrite Hen in H. cbn [negb] in H.
    exact (stable_call_optimizer_step o args kw w r w' HP H).
Qed.

(** With the buffers materialized, scaling allocates copies and products
    and nothing else. *)
Lemma stable_ensure_scale (d : device) :
  a_scale c0 <> None -> stable_at c0 pre (ensure_scale d).
Proof.
  intros Hsc w l w' HP H. unfold ensure_scale in H.
  apply bind_inv in H as (s & w0 & Hself & H). cbn in Hself.
  injection Hself as <- <-.
  assert (Hs : _scale (scaler w) <> None).
  { destruct HP as [Hc _]. rewrite <- Hc in Hsc. exact Hsc. }
  destruct (_scale (scaler w)) as [l0|] eqn:Hl0; [|congruence].
  cbn in H. rewrite Hl0 in H. cbn in H. injection H as _ <-. exact HP.
Qed.

Lemma stable_apply_scale (val : outputs) :
  a_scale c0 <> None ->
  forall stash, stable_at c0 pre (apply_scale val stash).
Proof.
  intros Hsc. pose proof (fun d => stable_ensure_scale d Hsc) as Hen.
  induction val as [t|l IH|l IH|l|src|o] using outputs_nested_ind; intros stash.
  - cbn [apply_scale]. stable.
  - cbn [apply_scale]. apply stable_bind; [| intros [l' st']; stable].
    revert stash. induction IH as [|v l Hv _ IHl]; intros stash.
    + stable.
    + apply stable_bind; [apply Hv |]. intros [v' st1].
      apply stable_bind; [apply IHl |]. intros [l'' st2]. stable.
  - cbn [apply_scale]. apply stable_bind; [| intros [l' st']; stable].
    revert stash. induction IH as [|v l Hv _ IHl]; intros stash.
    + stable.
    + apply stable_bind; [apply Hv |]. intros [v' st1].
      apply stable_bind; [apply IHl |]. intros [l'' st2]. stable.
  - cbn [apply_scale]. stable.
  - cbn [apply_scale]. stable.
  - cbn [apply_scale]. stable.
Qed.

Lemma stable_scale (outs : outputs) :
  a_scale c0 <> None -> stable_at c0 pre (scale outs).
Proof.
  intros Hsc. pose proof (fun d => stable_ensure_scale d Hsc) as Hen.
  pose proof (fun v => stable_apply_scale v Hsc) as Hap.
  unfold scale. stable.
Qed.

End Frame.

Lemma framed_refl (w : world) : framed (core w) (cells w) w.
Proof. split; [reflexivity |]. exists []. symmetry. apply app_nil_r. Qed.


(** ** Sequencing of [step] and [update] *)

Lemma set_stage_stage k v w a w' :
  set_stage k v w = Return a w' -> stage_of k w' = Some v.
Proof.
  unfold set_stage, set_opt_state, opt_state_of, stage_of.
  cbn. destruct (dict_get k (_per_optimizer_states (scaler w))); cbn;
    intros [= _ <-]; cbn; rewrite dict_get_set_eq; reflexivity.
Qed.

Lemma step_marks_stepped o args kw w r w' :
  _enabled (scaler w) = true ->
  step o args kw w = Return r w' ->
  core w' = core w /\ stage_of (id o) w' = Some STEPPED /\
  exists l, _scale (scaler w) = Some l /\ _growth_tracker (scaler w) <> TrackerNone.
Proof.
  intros He H. split; [exact (proj1 (stable_step _ _ o args kw w r w' (framed_refl w) H)) |].
  unfold step in H. cbn in H. rewrite He in H. cbn in H.
  destruct (has_key "closure" kw); [discriminate |].
  apply bind_inv in H as ([l t] & w1 & Hck & H).
  apply check_returns in Hck as (-> & Hsc & Htr & Hne). cbn in *.
  split; [| exists l; split; congruence].
  apply bind_inv in H as (st & w2 & _ & H).
  destruct (bool_decide (stage st = STEPPED)); [discriminate |].
  destruct (_step_supports_amp_scaling o) as [[|]|].
  - apply bind_inv in H as (? & ? & _ & H).
    apply bind_inv in H as (? & ? & Hs & H). cbn in H. injection H as _ <-.
    eapply set_stage_stage; eauto.
  - apply bind_inv in H as (? & ? & _ & H). apply bind_inv in H as (? & ? & _ & H).
    apply bind_inv in H as (? & ? & _ & H). apply bind_inv in H as (? & ? & _ & H).
    apply bind_inv in H as (? & ? & Hs & H). cbn in H. injection H as _ <-.
    eapply set_stage_stage; eauto.
  - apply bind_inv in H as (? & ? & _ & H). apply bind_inv in H as (? & ? & _ & H).
    apply bind_inv in H as (? & ? & _ & H). apply bind_inv in H as (? & ? & _ & H).
    apply bind_inv in H as (? & ? & Hs & H). cbn in H. injection H as _ <-.
    eapply set_stage_stage; eauto.
Qed.

Lemma step_twice_raises o args kw w r w' args' kw' :
  _enabled (scaler w) = true ->
  step o args kw w = Return r w' ->
  has_key "closure" kw' = false ->
  step o args' kw' w' = Raise (RuntimeError stepped_twice_message).
Proof.
  intros He H Hkw.
  destruct (step_marks_stepped _ _ _ _ _ _ He H) as (Hcore & Hst & l & Hsc & Htr).
  unfold core in Hcore. injection Hcore as He' Hsc' Htr' _ _ _ _ _.
  unfold stage_of in Hst.
  destruct (dict_get (id o) (_per_optimizer_states (scaler w'))) as [st|] eqn:Hget;
    [|discriminate].
  injection Hst as Hst.
  unfold step. cbn. rewrite He', He, Hkw. cbn.
  rewrite (check_passes "step" w' l) by congruence. cbn.
  unfold opt_state_of. cbn. rewrite Hget. cbn. rewrite Hst. reflexivity.
Qed.

Lemma gather_nothing (dev : device) (states : list opt_state) (acc : list nat) (w : world) :
  Forall (fun st => found_inf_per_device st = []) states ->
  for_each states acc (fun state acc =>
    for_each (dict_values (found_inf_per_device state)) acc (fun found_inf acc =>
      l <- cell_to found_inf dev ;; ret (acc ++ [l]))) w
  = Return acc w.
Proof.
  induction 1 as [|st states Hst _ IH]; cbn; [reflexivity |].
  rewrite Hst. cbn. exact IH.
Qed.

Lemma update_without_checks w l d v :
  _enabled (scaler w) = true ->
  _scale (scaler w) = Some l ->
  cells w !! l = Some (FloatCell d v) ->
  _growth_tracker (scaler w) <> TrackerNone ->
  Forall (fun st => found_inf_per_device st = [])
         (dict_values (_per_optimizer_states (scaler w))) ->
  update NewScaleNone w = Raise (AssertionError no_checks_message).
Proof.
  intros He Hsc Hl Htr Hall.
  unfold update. cbn. rewrite He. cbn.
  rewrite (check_passes "update" w l) by assumption. cbn.
  unfold read_float, read_cell. cbn. rewrite Hl. cbn.
  unfold gather_found_infs. cbn.
  rewrite gather_nothing by assumption. reflexivity.
Qed.

Lemma collect_nothing (a : bool) (group : list nat) (groups : grad_groups) (w : world) :
  Forall (fun p => params w !! p = Some None) group ->
  for_each group groups (collect_param a) w = Return groups w.
Proof.
  induction 1 as [|p group Hp _ IH]; cbn; [reflexivity |].
  unfold collect_param at 1, read_param. cbn. rewrite Hp. cbn. exact IH.
Qed.

Lemma unscale_grads_nothing (o : Optimizer) (inv fi : nat) (a : bool) (w : world) :
  no_gradients o w ->
  _unscale_grads_ o inv fi a w = Return [] w.
Proof.
  intros Hno. unfold _unscale_grads_. 
  assert (H : for_each (param_groups o) ([] : grad_groups)
                (fun group groups => for_each group groups (collect_param a)) w
              = Return [] w).
  { generalize ([] : grad_groups). induction Hno as [|g gs Hg _ IH]; intros acc; cbn.
    - reflexivity.
    - rewrite collect_nothing by assumption. apply IH. }
  cbn. rewrite H. reflexivity.
Qed.

Lemma no_gradients_frame o w w' : params w' = params w -> no_gradients o w -> no_gradients o w'.
Proof. unfold no_gradients. intros ->. auto. Qed.

Lemma unscale_without_gradients o w l d v :
  _enabled (scaler w) = true ->
  _scale (scaler w) = Some l ->
  cells w !! l = Some (FloatCell d v) ->
  _growth_tracker (scaler w) <> TrackerNone ->
  (stage_of (id o) w = None \/ stage_of (id o) w = Some READY) ->
  no_gradients o w ->
  exists w', unscale_ o w = Return tt w' /\
    (found_inf_per_device <$> dict_get (id o) (_per_optimizer_states (scaler w'))) = Some [].
Proof.
  intros He Hsc Hl Htr Hst Hno.
  unfold unscale_, super_unscale_. cbn. rewrite (attr_enabled _ _ He). cbn.
  destruct (display_warning (scaler w) && negb (is_OSS o)); cbn; rewrite He; cbn.
  all: rewrite check_passes with (l := l) by (cbn; assumption); cbn.
  all: unfold stage_of in Hst; unfold opt_state_of; cbn.
  all: destruct (dict_get (id o) (_per_optimizer_states (scaler w))) as [st|] eqn:Hget; cbn.
  all: try (destruct Hst as [Hst|Hst]; [discriminate | injection Hst as Hst]; rewrite Hst; cbn).
  all: unfold read_float, read_cell; cbn; rewrite Hl; cbn.
  all: rewrite unscale_grads_nothing by (eapply no_gradients_frame; [|eassumption]; reflexivity).
  all: cbn; unfold set_found_inf_per_device, set_stage, set_opt_state, opt_state_of; cbn.
  all: rewrite ?Hget, ?dict_get_set_eq; cbn.
  all: rewrite ?Hget, ?dict_get_set_eq; cbn.
  all: rewrite ?Hget, ?dict_get_set_eq; cbn.
  all: rewrite attr_enabled by (cbn; exact He); cbn.
  all: rewrite ?Hget, ?dict_get_set_eq; cbn.
  all: eexists; split; [reflexivity |]; cbn; rewrite ?dict_get_set_eq; reflexivity.
Qed.

Lemma step_without_gradients o args kw w l d v :
  _enabled (scaler w) = true ->
  has_key "closure" kw = false ->
  _scale (scaler w) = Some l ->
  cells w !! l = Some (FloatCell d v) ->
  _growth_tracker (scaler w) <> TrackerNone ->
  _step_supports_amp_scaling o <> Some true ->
  (stage_of (id o) w = None \/ stage_of (id o) w = Some READY) ->
  no_gradients o w ->
  step o args kw w = Raise (AssertionError no_checks_for_optimizer_message).
Proof.
  intros He Hkw Hsc Hl Htr Hamp Hst Hno.
  unfold step. cbn. rewrite He, Hkw. cbn.
  rewrite check_passes with (l := l) by assumption. cbn.
  destruct (opt_state_of (id o) w) as [e|st w1] eqn:Hos.
  { unfold opt_state_of in Hos. cbn in Hos.
    destruct (dict_get (id o) (_per_optimizer_states (scaler w))); discriminate. }
  assert (Hw1 : stage st = READY /\ _enabled (scaler w1) = true /\
                _scale (scaler w1) = Some l /\ cells w1 !! l = Some (FloatCell d v) /\
                _growth_tracker (scaler w1) <> TrackerNone /\
                stage_of (id o) w1 = Some READY /\ no_gradients o w1).
  { unfold opt_state_of, stage_of in *. cbn in Hos.
    destruct (dict_get (id o) (_per_optimizer_states (scaler w))) as [st0|] eqn:Hget;
      cbn in Hos; injection Hos as <- <-; cbn.
    - destruct Hst as [Hst|Hst]; [discriminate | injection Hst as Hst].
      rewrite Hget. cbn. rewrite Hst. auto 10.
    - rewrite dict_get_set_eq. auto 10. }
  destruct Hw1 as (Hready & He1 & Hsc1 & Hl1 & Htr1 & Hst1 & Hno1).
  rewrite Hready. cbn.
  assert (Hamp' : match _step_supports_amp_scaling o with
                  | Some true => False | _ => True end)
    by (destruct (_step_supports_amp_scaling o) as [[|]|]; first [exact I | congruence]).
  destruct (unscale_without_gradients o w1 l d v He1 Hsc1 Hl1 Htr1 (or_intror Hst1) Hno1)
    as (w2 & Hun & Hflags).
  destruct (dict_get (id o) (_per_optimizer_states (scaler w2))) as [st2|] eqn:Hget2;
    [|discriminate].
  injection Hflags as Hflags.
  destruct (_step_supports_amp_scaling o) as [[|]|]; [contradiction | |];
    cbn.
  all: rewrite (bool_decide_eq_false_2 (READY = STEPPED)) by discriminate.
  all: rewrite (bool_decide_eq_true_2 (READY = READY)) by reflexivity.
  all: cbn; rewrite Hun; cbn; unfold opt_state_of; cbn; rewrite Hget2; cbn;
    rewrite Hflags; reflexivity.
Qed.

Lemma step_unscaled_without_flags o args kw w l st :
  _enabled (scaler w) = true ->
  has_key "closure" kw = false ->
  _scale (scaler w) = Some l ->
  _growth_tracker (scaler w) <> TrackerNone ->
  _step_supports_amp_scaling o <> Some true ->
  dict_get (id o) (_per_optimizer_states (scaler w)) = Some st ->
  stage st = UNSCALED ->
  found_inf_per_device st = [] ->
  step o args kw w = Raise (AssertionError no_checks_for_optimizer_message).
Proof.
  intros He Hkw Hsc Htr Hamp Hget Hst Hfl.
  unfold step. cbn. rewrite He, Hkw. cbn.
  rewrite check_passes with (l := l) by assumption. cbn.
  unfold opt_state_of. cbn. rewrite Hget. cbn. rewrite Hst.
  rewrite (bool_decide_eq_false_2 (UNSCALED = STEPPED)) by discriminate.
  rewrite (bool_decide_eq_false_2 (UNSCALED = READY)) by discriminate.
  destruct (_step_supports_amp_scaling o) as [[|]|]; [congruence | |];
    cbn; rewrite Hget; cbn; rewrite Hfl; reflexivity.
Qed.

(** ** The update after an iteration without overflow *)

Lemma gather_flat dev w :
  gather_found_infs dev w =
  for_each (flag_locs w) [] (fun found_inf acc =>
     l <- cell_to found_inf dev ;; ret (acc ++ [l])) w.
Proof. unfold gather_found_infs, flag_locs. cbn. apply for_each_concat. Qed.

Lemma zero_at_grown w0 w a : grown w0 w -> zero_at w0 a -> zero_at w a.
Proof.
  intros [_ [zs Hz]] (d & s & H). exists d, s. rewrite Hz.
  apply lookup_app_l_Some. exact H.
Qed.

Lemma gathered_step w0 w w' l a :
  (exists c, cells w' = cells w ++ c) -> gathered w0 w l a -> gathered w0 w' l a.
Proof.
  intros [c Hc] (Hne & (d & s & Hz) & Hor). repeat split; auto.
  exists d, s. rewrite Hc. apply lookup_app_l_Some. exact Hz.
Qed.

Lemma gather_spec (dev : device) (l : nat) (w0 : world) :
  l < length (cells w0) ->
  forall (flags acc : list nat) (w : world),
    grown w0 w ->
    Forall (fun a => a <> l /\ zero_at w0 a) flags ->
    Forall (gathered w0 w l) acc ->
    exists acc' w',
      for_each flags acc (fun found_inf acc =>
        c <- cell_to found_inf dev ;; ret (acc ++ [c])) w = Return acc' w' /\
      grown w0 w' /\ Forall (gathered w0 w' l) acc' /\
      length acc' = length acc + length flags.
Proof.
  intros Hl flags. induction flags as [|a flags IH]; intros acc w Hg Hfl Hacc; cbn.
  - exists acc, w. repeat split; auto; apply Hg.
  - apply Forall_cons in Hfl as [[Hne Hz0] Hfl].
    destruct (zero_at_grown _ _ _ Hg Hz0) as (d & s & Hz).
    unfold cell_to at 1, read_float, read_cell. cbn. rewrite Hz. cbn.
    destruct (decide (d = dev)) as [->|Hd]; cbn.
    + destruct (IH (acc ++ [a]) w Hg Hfl) as (acc' & w' & Hrun & Hg' & Hacc' & Hlen).
      { apply Forall_app. split; [exact Hacc |]. constructor; [|constructor].
        repeat split; auto. exists dev, s. exact Hz. }
      exists acc', w'. repeat split; auto; try apply Hg'.
      rewrite Hlen, length_app. cbn. lia.
    + set (w1 := set_cells (cells w ++ [FloatCell dev (S754_zero s)]) w).
      assert (Hg1 : grown w0 w1).
      { destruct Hg as [Hs [zs Hzs]]. split; [exact Hs |].
        exists (zs ++ [FloatCell dev (S754_zero s)]). cbn. rewrite Hzs, app_assoc. reflexivity. }
      destruct (IH (acc ++ [length (cells w)]) w1 Hg1 Hfl) as (acc' & w' & Hrun & Hg' & Hacc' & Hlen).
      { apply Forall_app. split.
        - eapply Forall_impl; [exact Hacc |]. intros x Hx.
          eapply gathered_step; [|exact Hx]. eexists. reflexivity.
        - constructor; [|constructor]. destruct Hg as [_ [zs Hzs]].
          assert (length (cells w0) <= length (cells w)) by (rewrite Hzs, length_app; lia).
          repeat split.
          + lia.
          + exists dev, s. cbn. apply list_lookup_middle. reflexivity.
          + left. assumption. }
      exists acc', w'. repeat split; auto; try apply Hg'.
      rewrite Hlen, length_app. cbn. lia.
Qed.

Lemma combine_spec (c : nat) (rest : list nat) :
  forall w : world,
    zero_at w c -> Forall (zero_at w) rest ->
    exists w',
      combine_found_infs c rest w = Return tt w' /\
      scaler w' = scaler w /\ zero_at w' c /\
      length (cells w') = length (cells w) /\
      (forall i, i <> c -> cells w' !! i = cells w !! i).
Proof.
  unfold combine_found_infs.
  induction rest as [|a rest IH]; intros w Hc Hrest; cbn.
  - exists w. auto.
  - apply Forall_cons in Hrest as [Ha Hrest].
    destruct Hc as (d & s1 & Hc). destruct Ha as (d2 & s2 & Ha).
    unfold read_float, read_cell, write_cell. cbn. rewrite Hc. cbn. rewrite Ha. cbn.
    destruct (add_zeros s1 s2) as [s Hs]. rewrite Hs.
    assert (Hlt : c < length (cells w)) by (eapply lookup_lt_Some; eauto).
    set (w1 := set_cells (<[c := FloatCell d (S754_zero s)]> (cells w)) w).
    assert (Hc1 : zero_at w1 c).
    { exists d, s. cbn. apply list_lookup_insert_eq. exact Hlt. }
    destruct (IH w1 Hc1) as (w' & Hrun & Hsc & Hz & Hlen & Hother).
    { eapply Forall_impl; [exact Hrest |]. intros x (dx & sx & Hx).
      destruct (decide (x = c)) as [->|Hne]; [exact Hc1 |].
      exists dx, sx. cbn. rewrite list_lookup_insert_ne by congruence. exact Hx. }
    exists w'. split; [exact Hrun |]. split; [rewrite Hsc; reflexivity |].
    split; [exact Hz |]. split.
    + rewrite Hlen. cbn. apply length_insert.
    + intros i Hi. rewrite Hother by exact Hi. cbn.
      apply list_lookup_insert_ne. congruence.
Qed.

(** The common part of [update]: the flags are gathered and summed into
    the first of them, which ends up holding a zero; the buffers that were
    there before and are not flags keep their contents. *)
Lemma gather_combine (w : world) (l : nat) (dev : device) :
  _scale (scaler w) = Some l ->
  l < length (cells w) ->
  overflow_free w ->
  exists c rest w1 w2,
    gather_found_infs dev w = Return (c :: rest) w1 /\
    combine_found_infs c rest w1 = Return tt w2 /\
    scaler w2 = scaler w /\
    zero_at w2 c /\
    length (cells w) <= length (cells w2) /\
    cells w2 !! l = cells w !! l /\
    (forall t d n, cells w !! t = Some (IntCell d n) -> cells w2 !! t = Some (IntCell d n)).
Proof.
  intros Hsc Hl [Hne Hall].
  rewrite gather_flat.
  destruct (gather_spec dev l w Hl (flag_locs w) [] w) as (acc & w1 & Hrun & Hg & Hacc & Hlen).
  { split; [reflexivity |]. exists []. symmetry. apply app_nil_r. }
  { eapply Forall_impl; [exact Hall |]. intros a [Ha Hz]. split; [| exact Hz].
    intros ->. apply Ha. symmetry. exact Hsc. }
  { constructor. }
  destruct acc as [|c rest].
  { destruct (flag_locs w); [congruence | discriminate]. }
  apply Forall_cons in Hacc as [(Hcl & Hcz & Hcor) Hrest].
  destruct (combine_spec c rest w1 Hcz) as (w2 & Hrun2 & Hs2 & Hz2 & Hlen2 & Hother).
  { eapply Forall_impl; [exact Hrest |]. intros x (_ & Hx & _). exact Hx. }
  destruct Hg as [Hs1 [zs Hzs]].
  exists c, rest, w1, w2. repeat split; auto.
  - congruence.
  - rewrite Hlen2, Hzs, length_app. lia.
  - rewrite Hother by congruence. rewrite Hzs. apply lookup_app_l. exact Hl.
  - intros t d n Ht.
    assert (t < length (cells w)) by (eapply lookup_lt_Some; eauto).
    assert (t <> c).
    { intros ->. destruct Hcor as [Hge | (d' & s' & Hz)]; [lia | congruence]. }
    rewrite Hother by assumption. rewrite Hzs. rewrite lookup_app_l by assumption. exact Ht.
Qed.

Lemma clean_update (w : world) (v : spec_float) (n : Z) :
  _enabled (scaler w) = true ->
  scale_value w = Some v ->
  tracker_value w = Some n ->
  (0 <= n < 2 ^ 31 - 1)%Z ->
  (- 2 ^ 31 <= _growth_interval (scaler w) < 2 ^ 31)%Z ->
  overflow_free w ->
  tracker_fits_device w ->
  exists w',
    update NewScaleNone w = Return tt w' /\
    settings w' = settings w /\
    scale_device w' = scale_device w /\
    tracker_fits_device w' /\
    _per_optimizer_states (scaler w') = [] /\
    if (n + 1 =? _growth_interval (scaler w))%Z
    then scale_value w' = Some (grown_scale v (_growth_factor (scaler w))) /\
         tracker_value w' = Some 0%Z
    else scale_value w' = Some v /\ tracker_value w' = Some (n + 1)%Z.
Proof.
  intros He Hv Hn Hrange Hgi Hclean Hfit.
  unfold scale_value in Hv.
  destruct (_scale (scaler w)) as [l|] eqn:Hsc; [|discriminate].
  destruct (cells w !! l) as [[dev v0|? ?]|] eqn:Hl; try discriminate.
  injection Hv as ->.
  assert (Hlt : l < length (cells w)) by (eapply lookup_lt_Some; eauto).
  destruct (gather_combine w l dev Hsc Hlt Hclean)
    as (c & rest & w1 & w2 & Hg & Hc & Hs2 & (dc & sc & Hz2) & Hlen2 & Hl2 & Hint2).
  assert (Hlt2 : l < length (cells w2)) by lia.
  rewrite Hl in Hl2.
  assert (Htr : _growth_tracker (scaler w) <> TrackerNone).
  { unfold tracker_value in Hn. destruct (_growth_tracker (scaler w)); congruence. }
  unfold update. cbn. rewrite He. cbn.
  rewrite check_passes with (l := l) by assumption. cbn.
  unfold read_float at 1, read_cell. cbn. rewrite Hl. cbn.
  rewrite Hg. cbn. rewrite Hc. cbn.
  unfold tracker_value in Hn.
  destruct (bool_decide (dev_type dev = cpu)) eqn:Hcpu; cbn.
  - unfold _amp_update_scale_cpu_, read_float, read_cell. cbn. rewrite Hz2. cbn.
    unfold Float.pinf, Float.ninf. rewrite !zero_is_not_inf. cbn. rewrite Hs2.
    destruct (_growth_tracker (scaler w)) as [|t|z] eqn:Htk; [congruence | |].
    + destruct (cells w !! t) as [[? ?|dt n0]|] eqn:Ht; try discriminate.
      injection Hn as ->.
      unfold read_int, read_cell. cbn. rewrite (Hint2 _ _ _ Ht). cbn.
      rewrite wrap32_small by lia.
      rewrite reached_interval_tensor by exact Hgi.
      destruct (n + 1 =? _growth_interval (scaler w))%Z eqn:Heq; cbn.
      * unfold scale_imul, read_float, read_cell, write_cell. cbn. rewrite ?Hs2, ?Hsc. cbn.
        rewrite lookup_app_l by assumption. rewrite Hl2. cbn.
        eexists. split; [reflexivity |].
        unfold tracker_fits_device, settings, scale_device, scale_value, tracker_value. cbn.
        rewrite ?Hs2, ?Hsc, ?Hl. cbn.
        rewrite list_lookup_insert_eq by (rewrite length_app; lia). cbn.
        repeat split; auto.
        left. apply bool_decide_eq_true_1 in Hcpu. eauto.
      * eexists. split; [reflexivity |].
        unfold tracker_fits_device, settings, scale_device, scale_value, tracker_value. cbn.
        rewrite ?Hs2, ?Hsc, ?Hl. cbn.
        rewrite (lookup_app_l _ _ l) by assumption. rewrite Hl2. cbn.
        rewrite list_lookup_middle by reflexivity.
        repeat split; auto.
        left. apply bool_decide_eq_true_1 in Hcpu. eauto.
    + injection Hn as ->. cbn. rewrite ?Hs2.
      rewrite reached_interval_int.
      destruct (n + 1 =? _growth_interval (scaler w))%Z eqn:Heq; cbn.
      * unfold scale_imul, read_float, read_cell, write_cell. cbn. rewrite ?Hs2, ?Hsc. cbn.
        rewrite Hl2. cbn.
        eexists. split; [reflexivity |].
        unfold tracker_fits_device, settings, scale_device, scale_value, tracker_value. cbn.
        rewrite ?Hs2, ?Hsc, ?Hl. cbn.
        rewrite list_lookup_insert_eq by assumption. cbn.
        repeat split; auto.
        left. apply bool_decide_eq_true_1 in Hcpu. eauto.
      * eexists. split; [reflexivity |].
        unfold tracker_fits_device, settings, scale_device, scale_value, tracker_value. cbn.
        rewrite ?Hs2, ?Hsc, ?Hl. cbn. rewrite Hl2. cbn.
        repeat split; auto.
        left. apply bool_decide_eq_true_1 in Hcpu. eauto.
  - destruct Hfit as [(d0 & Hd0 & Hd0cpu) | [t Htk]].
    { unfold scale_device in Hd0. rewrite Hsc, Hl in Hd0. cbn in Hd0.
      injection Hd0 as <-. apply bool_decide_eq_false_1 in Hcpu. contradiction. }
    rewrite Htk in Hn.
    destruct (cells w !! t) as [[? ?|dt n0]|] eqn:Ht; try discriminate.
    injection Hn as ->.
    assert (Htl : t <> l) by (intros ->; congruence).
    assert (Htlt : t < length (cells w2)).
    { eapply lookup_lt_Some. eapply Hint2. exact Ht. }
    rewrite Hs2, Htk.
    unfold _amp_update_scale_, read_float, read_int, read_cell, write_cell. cbn.
    rewrite Hz2. cbn. rewrite Hl2. cbn. rewrite (Hint2 _ _ _ Ht). cbn.
    rewrite wrap32_small by lia.
    destruct (n + 1 =? _growth_interval (scaler w))%Z eqn:Heq; cbn.
    + eexists. split; [reflexivity |].
      unfold tracker_fits_device, settings, scale_device, scale_value, tracker_value. cbn.
      rewrite ?Hs2, ?Hsc, ?Hl, ?Htk. cbn.
      rewrite list_lookup_insert_ne by congruence.
      rewrite list_lookup_insert_eq by assumption. cbn.
      rewrite list_lookup_insert_eq by (rewrite length_insert; assumption).
      repeat split; eauto.
    + eexists. split; [reflexivity |].
      unfold tracker_fits_device, settings, scale_device, scale_value, tracker_value. cbn.
      rewrite ?Hs2, ?Hsc, ?Hl, ?Htk. cbn.
      rewrite list_lookup_insert_ne by congruence. rewrite Hl2. cbn.
      rewrite list_lookup_insert_eq by assumption.
      repeat split; eauto.
Qed.

Lemma fused_update_needs_tensor (w : world) (v : spec_float) (z : Z) (d : device) :
  _enabled (scaler w) = true ->
  scale_value w = Some v ->
  _growth_tracker (scaler w) = TrackerInt z ->
  scale_device w = Some d -> dev_type d <> cpu ->
  overflow_free w ->
  exists e, update NewScaleNone w = Raise e.
Proof.
  intros He Hv Htk Hd Hcpu Hclean.
  unfold scale_value in Hv. unfold scale_device in Hd.
  destruct (_scale (scaler w)) as [l|] eqn:Hsc; [|discriminate].
  destruct (cells w !! l) as [[dev v0|? ?]|] eqn:Hl; try discriminate.
  injection Hv as ->. cbn in Hd. injection Hd as <-.
  assert (Hlt : l < length (cells w)) by (eapply lookup_lt_Some; eauto).
  destruct (gather_combine w l dev Hsc Hlt Hclean)
    as (c & rest & w1 & w2 & Hg & Hc & Hs2 & (dc & sc & Hz2) & Hlen2 & Hl2 & Hint2).
  unfold update. cbn. rewrite He. cbn.
  rewrite check_passes with (l := l) by congruence. cbn.
  unfold read_float at 1, read_cell. cbn. rewrite Hl. cbn.
  rewrite Hg. cbn. rewrite Hc. cbn.
  rewrite bool_decide_eq_false_2 by assumption. cbn.
  rewrite Hs2, Htk. unfold _amp_update_scale_. cbn. eauto.
Qed.

Lemma clean_update_result (w w' : world) (v : spec_float) (n : Z) :
  _enabled (scaler w) = true ->
  scale_value w = Some v ->
  tracker_value w = Some n ->
  (0 <= n < 2 ^ 31 - 1)%Z ->
  (- 2 ^ 31 <= _growth_interval (scaler w) < 2 ^ 31)%Z ->
  overflow_free w ->
  update NewScaleNone w = Return tt w' ->
  settings w' = settings w /\
  tracker_fits_device w' /\
  if (n + 1 =? _growth_interval (scaler w))%Z
  then scale_value w' = Some (grown_scale v (_growth_factor (scaler w))) /\
       tracker_value w' = Some 0%Z
  else scale_value w' = Some v /\ tracker_value w' = Some (n + 1)%Z.
Proof.
  intros He Hv Hn Hrange Hgi Hclean Hup.
  assert (Hfit : tracker_fits_device w).
  { destruct (_growth_tracker (scaler w)) as [|t|z] eqn:Htk.
    - unfold tracker_value in Hn. rewrite Htk in Hn. discriminate.
    - right. eauto.
    - destruct (scale_device w) as [d|] eqn:Hd.
      + destruct (decide (dev_type d = cpu)) as [Hc|Hc]; [left; eauto |].
        destruct (fused_update_needs_tensor w v z d He Hv Htk Hd Hc Hclean) as [e Hr].
        congruence.
      + unfold scale_value in Hv. unfold scale_device in Hd.
        destruct (_scale (scaler w)); [|discriminate].
        destruct (cells w !! n0); discriminate. }
  destruct (clean_update w v n He Hv Hn Hrange Hgi Hclean Hfit)
    as (w'' & Hup' & Hset & _ & Hfit' & _ & Hres).
  rewrite Hup in Hup'. injection Hup' as ->. auto.
Qed.

Lemma settings_enabled w w' :
  settings w' = settings w -> _enabled (scaler w') = _enabled (scaler w) /\
  _growth_interval (scaler w') = _growth_interval (scaler w) /\
  _growth_factor (scaler w') = _growth_factor (scaler w).
Proof. unfold settings. intros [= -> _ -> _ ->]. auto. Qed.

Lemma stable_perform (c0 : attributes) (pre : list cell) (c : call) :
  a_enabled c0 = true -> a_scale c0 <> None -> stable_at c0 pre (perform c).
Proof.
  intros He Hsc. destruct c as [outs|o|o args kw]; cbn [perform].
  - apply stable_bind; [apply stable_scale; exact Hsc | intros ?; apply stable_ret].
  - apply stable_unscale. exact He.
  - apply stable_bind; [apply stable_step | intros ?; apply stable_ret].
Qed.

Lemma performs_framed (cs : list call) (w w' : world) (c0 : attributes)
    (pre : list cell) :
  a_enabled c0 = true -> a_scale c0 <> None ->
  performs cs w w' -> framed c0 pre w -> framed c0 pre w'.
Proof.
  intros He Hsc. induction 1 as [w|c cs w w1 w2 Hc _ IH]; intros Hf; [exact Hf |].
  apply IH. exact (stable_perform c0 pre c He Hsc _ _ _ Hf Hc).
Qed.

Lemma framed_same_controller (w w' : world) (v : spec_float) (n : Z) :
  scale_value w = Some v ->
  tracker_value w = Some n ->
  framed (core w) (cells w) w' ->
  same_controller w w' /\ (tracker_fits_device w -> tracker_fits_device w').
Proof.
  intros Hv Hn [Hc [ext He]].
  unfold core in Hc. injection Hc as Hen Hsc Htr Hgf Hbf Hgi _ _.
  assert (Hs : scale_value w' = scale_value w /\ scale_device w' = scale_device w).
  { unfold scale_value, scale_device in *. rewrite Hsc.
    destruct (_scale (scaler w)) as [l|]; [|discriminate].
    destruct (cells w !! l) as [c|] eqn:Hl; [|discriminate].
    rewrite He, (lookup_app_l_Some _ _ _ _ Hl). auto. }
  assert (Ht : tracker_value w' = tracker_value w).
  { unfold tracker_value in *. rewrite Htr.
    destruct (_growth_tracker (scaler w)) as [|t|z]; try reflexivity.
    destruct (cells w !! t) as [c|] eqn:Hl; [|discriminate].
    rewrite He, (lookup_app_l_Some _ _ _ _ Hl). reflexivity. }
  destruct Hs as [Hs Hd]. split.
  - unfold same_controller, settings. repeat split; congruence.
  - unfold tracker_fits_device. rewrite Hd, Htr. auto.
Qed.

(** Calls of [scale], [unscale_] and [step] on an instance with
    materialized buffers leave the controller alone. *)
Lemma performs_same_controller (cs : list call) (w w' : world) (v : spec_float)
    (n : Z) :
  _enabled (scaler w) = true ->
  scale_value w = Some v ->
  tracker_value w = Some n ->
  performs cs w w' ->
  same_controller w w' /\ (tracker_fits_device w -> tracker_fits_device w').
Proof.
  intros He Hv Hn Hp. apply (framed_same_controller w w' v n Hv Hn).
  apply (performs_framed cs w w'); [exact He | | exact Hp | apply framed_refl].
  unfold scale_value in Hv. cbn. destruct (_scale (scaler w)); [discriminate | discriminate].
Qed.

Lemma clean_run_below (N : nat) (w w' : world) (s0 : spec_float) :
  clean_run N w w' ->
  _enabled (scaler w) = true ->
  scale_value w = Some s0 ->
  tracker_value w = Some 0%Z ->
  (_growth_interval (scaler w) < 2 ^ 31)%Z ->
  (Z.of_nat N < _growth_interval (scaler w))%Z ->
  settings w' = settings w /\
  scale_value w' = Some s0 /\ tracker_value w' = Some (Z.of_nat N) /\
  (tracker_fits_device w -> tracker_fits_device w').
Proof.
  intros Hrun He Hs Ht Hmax.
  induction Hrun as [w|n cs w w1 w2 w3 Hrun IH Hcalls Hclean Hup]; intros HN.
  - auto.
  - destruct IH as (Hset1 & Hs1 & Ht1 & Hfit1); try assumption; [lia |].
    assert (He1 : _enabled (scaler w1) = true)
      by (rewrite (proj1 (settings_enabled _ _ Hset1)); exact He).
    destruct (performs_same_controller cs w1 w2 _ _ He1 Hs1 Ht1 Hcalls)
      as [(Hset2 & Hs2 & Ht2) _].
    assert (Hset12 : settings w2 = settings w) by congruence.
    destruct (settings_enabled _ _ Hset12) as (He2 & Hgi2 & Hgf2).
    destruct (clean_update_result w2 w3 s0 (Z.of_nat n)) as (Hset3 & Hfit3 & Hres);
      try congruence; [lia | rewrite Hgi2; lia |].
    rewrite Hgi2 in Hres.
    destruct (Z.of_nat n + 1 =? _growth_interval (scaler w))%Z eqn:Heq; [lia |].
    destruct Hres as [Hs3 Ht3]. repeat split; try congruence.
    rewrite Ht3. f_equal. lia.
Qed.

(** ** Backoff after an overflow *)

(** C1 (fails on the code). The scale buffer is on the CPU and the only
    gradient holds an infinity: [step] records the flag 1 and skips the
    optimizer, yet [update] leaves the scale at 1024 and counts the
    iteration as a clean one (tracker 1), where a backoff to 512 with the
    tracker at 0 is due. *)
Theorem cpu_update_ignores_overflow :
  (init_1024 true ;;; forward_and_step (plain_optimizer 7 [[0]]))
    (one_gradient cpu_device Float.pinf)
  = Return PyNone (overflow_before_update cpu_device) /\
  calls (overflow_before_update cpu_device) = [] /\
  recorded_flags 7 (overflow_before_update cpu_device)
  = [Some (FloatCell cpu_device (f32 1 0))] /\
  scale_value (overflow_before_update cpu_device) = Some (f32 1024 0) /\
  tracker_value (overflow_before_update cpu_device) = Some 0%Z /\
  update NewScaleNone (overflow_before_update cpu_device)
  = Return tt (overflow_after_update cpu_device) /\
  scale_value (overflow_after_update cpu_device) = Some (f32 1024 0) /\
  tracker_value (overflow_after_update cpu_device) = Some 1%Z /\
  grown_scale (f32 1024 0) (_backoff_factor (scaler (overflow_before_update cpu_device)))
  = f32 512 0.
Proof. vm_compute. repeat split; reflexivity. Qed.

(** The same iteration with every tensor on an accelerator goes through
    the fused update and backs off. *)
Example accelerator_update_backs_off :
  recorded_flags 7 (overflow_before_update current_cuda_device)
  = [Some (FloatCell current_cuda_device (f32 1 0))] /\
  scale_value (overflow_after_update current_cuda_device) = Some (f32 512 0) /\
  tracker_value (overflow_after_update current_cuda_device) = Some 0%Z.
Proof. vm_compute. repeat split; reflexivity. Qed.

(** ** Agreement across ranks *)

(** C2 (fails on the code). After [unscale_] returns, the flag recorded
    for the CPU device still holds this rank's own 0: the sum 1 of the
    reduction went into the copy made on the accelerator (buffer 6), which
    nothing refers to. [step] then runs the optimizer on this rank although
    another rank saw an overflow. *)
Theorem cpu_flag_misses_reduction :
  (init_1024 true ;;; scale (OTensor 0) ;;; unscale_ (plain_optimizer 7 [[0]]))
    (peer_overflow_boot cpu_device)
  = Return tt (peer_overflow_unscaled cpu_device) /\
  peers (peer_overflow_unscaled cpu_device) = [] /\
  recorded_flags 7 (peer_overflow_unscaled cpu_device)
  = [Some (FloatCell cpu_device Float.zero)] /\
  cells (peer_overflow_unscaled cpu_device) !! 6
  = Some (FloatCell current_cuda_device (f32 1 0)) /\
  step (plain_optimizer 7 [[0]]) [] [] (peer_overflow_unscaled cpu_device)
  = Return (PyObj 7)
      (after (step (plain_optimizer 7 [[0]]) [] []) (peer_overflow_unscaled cpu_device)) /\
  calls (after (step (plain_optimizer 7 [[0]]) [] []) (peer_overflow_unscaled cpu_device))
  = [(7, [], [])].
Proof. vm_compute. repeat split; reflexivity. Qed.

(** With the gradient on an accelerator the recorded flag itself is
    reduced, and the step is skipped. *)
Example accelerator_flag_is_reduced :
  recorded_flags 7 (peer_overflow_unscaled current_cuda_device)
  = [Some (FloatCell current_cuda_device (f32 1 0))] /\
  step (plain_optimizer 7 [[0]]) [] [] (peer_overflow_unscaled current_cuda_device)
  = Return PyNone
      (after (step (plain_optimizer 7 [[0]]) [] [])
             (peer_overflow_unscaled current_cuda_device)) /\
  calls (after (step (plain_optimizer 7 [[0]]) [] [])
               (peer_overflow_unscaled current_cuda_device))
  = [].
Proof. vm_compute. repeat split; reflexivity. Qed.

(** ** The element-by-element scan *)

(** C3 (fails on the code). On the CPU the scan walks the slices of the
    first gradient of the group only: the first gradient is multiplied by
    1/1024, the infinity in the second one goes unnoticed (the flag stays
    0 and the optimizer is stepped), and the third gradient is not
    multiplied. *)
Theorem cpu_scan_reads_first_gradient_only :
  (init_1024 true ;;; forward_and_step (plain_optimizer 7 [[0; 1; 2]]))
    (three_gradients cpu_device)
  = Return (PyObj 7) (three_gradients_stepped cpu_device) /\
  recorded_flags 7 (three_gradients_stepped cpu_device)
  = [Some (FloatCell cpu_device Float.zero)] /\
  tensors (three_gradients_stepped cpu_device) !! 1
  = Some (on_device cpu_device [[f32 1 (-10)]]) /\
  tensors (three_gradients_stepped cpu_device) !! 2
  = Some (on_device cpu_device [[Float.pinf]]) /\
  tensors (three_gradients_stepped cpu_device) !! 3
  = Some (on_device cpu_device [[f32 2 0]]) /\
  calls (three_gradients_stepped cpu_device) = [(7, [], [])].
Proof. vm_compute. repeat split; reflexivity. Qed.

(** The vectorized primitive, on an accelerator, sees the infinity and
    multiplies every gradient. *)
Example accelerator_scan_reads_every_gradient :
  recorded_flags 7 (three_gradients_stepped current_cuda_device)
  = [Some (FloatCell current_cuda_device (f32 1 0))] /\
  tensors (three_gradients_stepped current_cuda_device) !! 1
  = Some (on_device current_cuda_device [[f32 1 (-10)]]) /\
  tensors (three_gradients_stepped current_cuda_device) !! 3
  = Some (on_device current_cuda_device [[f32 2 (-10)]]) /\
  calls (three_gradients_stepped current_cuda_device) = [].
Proof. vm_compute. repeat split; reflexivity. Qed.

(** Within the first gradient the scan stops at the first slice that holds
    a non-finite element: the slices before it are multiplied, the others
    are left alone, and the flag is raised. *)
Example cpu_scan_stops_early :
  scan_rows Float.binary32 (py 1 (-1)) [[f32 2 0]; [Float.pinf]; [f32 4 0]]
  = ([[f32 1 0]; [Float.pinf]; [f32 4 0]], true).
Proof. vm_compute. reflexivity. Qed.

(** ** Checkpointing *)

(** C6 (fails on the code). Three clean iterations on the CPU reach the
    growth interval: the scale grows to 2048 and [_growth_tracker] is
    rebound to the Python integer 0. From then on [state_dict] raises
    instead of producing the five entries, and [load_state_dict] of a
    well-formed blob raises as well. *)
Theorem cpu_state_dict_raises_after_growth :
  (init_1024 true ;;;
   clean_iteration (plain_optimizer 7 [[0]]) ;;;
   clean_iteration (plain_optimizer 7 [[0]]) ;;;
   clean_iteration (plain_optimizer 7 [[0]]))
    (one_gradient cpu_device (f32 1 0))
  = Return tt (three_clean_iterations cpu_device) /\
  scale_value (three_clean_iterations cpu_device) = Some (f32 2048 0) /\
  _growth_tracker (scaler (three_clean_iterations cpu_device)) = TrackerInt 0 /\
  state_dict (three_clean_iterations cpu_device)
  = Raise (AttributeError "'int' object has no attribute 'item'") /\
  load_state_dict (five_entries (py 2048 0) (py 2 0) (py 1 (-1)) 3 0)
                  (three_clean_iterations cpu_device)
  = Raise (AttributeError "'int' object has no attribute 'fill_'").
Proof. vm_compute. repeat split; reflexivity. Qed.

(** On an accelerator the tracker buffer is reset in place, the blob has
    its five entries, and a fresh instance that loads it reports the same
    state. *)
Example accelerator_round_trip :
  state_dict (three_clean_iterations current_cuda_device)
  = Return (five_entries (py 2048 0) (py 2 0) (py 1 (-1)) 3 0)
           (three_clean_iterations current_cuda_device) /\
  state_dict
    (after (init_1024 true ;;;
            load_state_dict (five_entries (py 2048 0) (py 2 0) (py 1 (-1)) 3 0))
           (boot [] [] []))
  = Return (five_entries (py 2048 0) (py 2 0) (py 1 (-1)) 3 0)
      (after (init_1024 true ;;;
              load_state_dict (five_entries (py 2048 0) (py 2 0) (py 1 (-1)) 3 0))
             (boot [] [] [])).
Proof. vm_compute. repeat split; reflexivity. Qed.

(** ** Disabled instances *)

(** C7. On a disabled instance [scale] returns its argument, [get_scale]
    returns 1.0, [step] calls [optimizer.step] with the arguments it was
    given and returns its result, [update] changes nothing and
    [state_dict] is the empty mapping. *)
Theorem disabled_instance_is_transparent (w : world) (outs : outputs)
    (optimizer : Optimizer) (args : list pyobj) (kw : kwargs)
    (new_scale : new_scale_arg) :
  _enabled (scaler w) = false ->
  scale outs w = Return outs w /\
  get_scale w = Return (py 1 0) w /\
  step optimizer args kw w =
    Return (step_result optimizer args kw)
           (set_calls ((id optimizer, args, kw) :: calls w) w) /\
  update new_scale w = Return tt w /\
  state_dict w = Return [] w.
Proof.
  intros H.
  unfold scale, get_scale, step, update, state_dict, call_optimizer_step,
    bind, self, gets.
  rewrite H. simpl. repeat split; reflexivity.
Qed.


Lemma disabled_instance_is_transparent_witness :
  _enabled (scaler disabled_world) = false /\
  scale (OTensor 0) disabled_world = Return (OTensor 0) disabled_world /\
  get_scale disabled_world = Return (py 1 0) disabled_world /\
  step (plain_optimizer 7 []) [PyObj 1] [] disabled_world =
    Return (PyObj 7) (set_calls [(7, [PyObj 1], [])] disabled_world) /\
  update NewScaleNone disabled_world = Return tt disabled_world /\
  state_dict disabled_world = Return [] disabled_world.
Proof.
  split; [reflexivity |].
  apply (disabled_instance_is_transparent disabled_world (OTensor 0)
           (plain_optimizer 7 []) [PyObj 1] [] NewScaleNone).
  reflexivity.
Defined.


(** ** Pickling *)

(** C9. On an enabled instance [__getstate__] raises while any
    per-optimizer state is recorded. When it returns, the map was empty
    and nothing changed; the state it hands out has both buffers unset
    and carries, as plain numbers in [_init_scale] and
    [_init_growth_tracker], the number the scale buffer holds and the
    count the tracker buffer holds (the initial values where the buffers
    were never created), which are what [get_scale] and
    [_get_growth_tracker] return; the other attributes are as they are.
    At an iteration boundary with readable buffers it does return. *)
Theorem getstate_only_at_iteration_boundary (w : world) :
  _enabled (scaler w) = true ->
  (_per_optimizer_states (scaler w) <> [] ->
     __getstate__ w = Raise (AssertionError pickle_message)) /\
  (forall state w', __getstate__ w = Return state w' ->
     _per_optimizer_states (scaler w) = [] /\ w' = w /\
     _scale state = None /\ _growth_tracker state = TrackerNone /\
     get_scale w = Return (_init_scale state) w /\
     _get_growth_tracker w = Return (_init_growth_tracker state) w /\
     (forall v, scale_value w = Some v ->
        _init_scale state = Float.round Float.binary64 v) /\
     (_scale (scaler w) = None -> _init_scale state = _init_scale (scaler w)) /\
     (forall n, tracker_value w = Some n -> _init_growth_tracker state = n) /\
     (_growth_tracker (scaler w) = TrackerNone ->
        _init_growth_tracker state = _init_growth_tracker (scaler w)) /\
     _enabled state = true /\
     _growth_factor state = _growth_factor (scaler w) /\
     _backoff_factor state = _backoff_factor (scaler w) /\
     _growth_interval state = _growth_interval (scaler w)) /\
  (_per_optimizer_states (scaler w) = [] -> buffers_readable w ->
     exists state, __getstate__ w = Return state w).
Proof.
  intros He.
  unfold buffers_readable, scale_value, tracker_value.
  destruct (_per_optimizer_states (scaler w)) as [|p ps] eqn:Hs;
    destruct (_scale (scaler w)) as [l|] eqn:Hsc;
    destruct (_growth_tracker (scaler w)) as [|t|z] eqn:Htr;
    try (destruct (cells w !! l) as [[d v|d v]|] eqn:Hl);
    try (destruct (cells w !! t) as [[d' v'|d' v']|] eqn:Ht);
    unfold __getstate__, get_scale, _get_growth_tracker, read_float, read_int,
      read_cell, assert, unmodelled;
    run; unfold get_scale, _get_growth_tracker, read_float, read_int, read_cell;
    run.
  all: split; [congruence |].
  all: split.
  all: try (intros state w' Heq;
             first [discriminate
                   | injection Heq as <- <-; cbn;
                     repeat split; intros; congruence]).
  all: intros Hnil; try discriminate Hnil.
  all: intros [[? | [? ?]] [? | (? & ? & ? & ?)]]; try discriminate; eauto.
Qed.

Lemma getstate_only_at_iteration_boundary_witness :
  (_enabled (scaler (stepped cpu_device)) = true /\
   _per_optimizer_states (scaler (stepped cpu_device)) <> [] /\
   __getstate__ (stepped cpu_device) = Raise (AssertionError pickle_message)) /\
  (_enabled (scaler rescaled) = true /\
   _per_optimizer_states (scaler rescaled) = [] /\
   buffers_readable rescaled /\
   _init_scale (scaler rescaled) = py 1024 0 /\
   _init_growth_tracker (scaler rescaled) = 0%Z /\
   scale_value rescaled = Some (f32 512 0) /\
   tracker_value rescaled = Some 1%Z /\
   exists state,
     __getstate__ rescaled = Return state rescaled /\
     _init_scale state = py 512 0 /\ _init_growth_tracker state = 1%Z /\
     _scale state = None /\ _growth_tracker state = TrackerNone).
Proof.
  split.
  - split; [reflexivity |]. split; [vm_compute; discriminate |].
    apply (proj1 (getstate_only_at_iteration_boundary (stepped cpu_device) eq_refl)).
    vm_compute. discriminate.
  - assert (Hv : scale_value rescaled = Some (f32 512 0)) by (vm_compute; reflexivity).
    assert (Hn : tracker_value rescaled = Some 1%Z) by (vm_compute; reflexivity).
    assert (Hr : buffers_readable rescaled).
    { split; right.
      - exists (f32 512 0). exact Hv.
      - exists 8, 1%Z. split; [vm_compute; reflexivity | exact Hn]. }
    split; [reflexivity |]. split; [reflexivity |]. split; [exact Hr |].
    split; [reflexivity |]. split; [reflexivity |].
    split; [exact Hv |]. split; [exact Hn |].
    destruct (getstate_only_at_iteration_boundary rescaled eq_refl)
      as (_ & Hshape & Hreturns).
    destruct (Hreturns eq_refl Hr) as [state Hstate].
    exists state. split; [exact Hstate |].
    destruct (Hshape state _ Hstate)
      as (_ & _ & Hsc & Htr & _ & _ & Hscale & _ & Hcount & _).
    split; [| split; [| split; assumption]].
    + rewrite (Hscale _ Hv). vm_compute. reflexivity.
    + exact (Hcount _ Hn).
Defined.

(** ** Explicit new scale *)

Lemma with_scale_observed (w : world) (l : nat) (d : device) (v x : spec_float) :
  _scale (scaler w) = Some l ->
  cells w !! l = Some (FloatCell d v) ->
  scale_value (with_scale l d x w) = Some x /\
  _growth_tracker (scaler (with_scale l d x w)) = _growth_tracker (scaler w) /\
  tracker_value (with_scale l d x w) = tracker_value w /\
  _per_optimizer_states (scaler (with_scale l d x w)) = [].
Proof.
  intros Hsc Hl.
  assert (Hlt : l < length (cells w)) by (eapply lookup_lt_Some; eauto).
  unfold scale_value, tracker_value, with_scale. cbn. rewrite Hsc.
  rewrite list_lookup_insert_eq by assumption.
  repeat split.
  destruct (_growth_tracker (scaler w)) as [|t|z]; try reflexivity.
  destruct (decide (t = l)) as [-> | Hne].
  - rewrite list_lookup_insert_eq by assumption. rewrite Hl. reflexivity.
  - rewrite list_lookup_insert_ne by congruence. reflexivity.
Qed.

(** C10. With materialized buffers, [update(new_scale)] with an explicit
    value returns whatever the per-optimizer map holds (nothing included):
    a float that fits float32 is written into the scale buffer (one beyond
    its range is refused by the buffer); a tensor is accepted exactly
    when it is a one-element CUDA float tensor with [requires_grad] false,
    and then its element is written; any other object is refused. The
    growth tracker keeps its binding and its count, and the per-optimizer
    map is replaced by an empty one. Without a new scale the same call
    raises when no check was recorded. *)
Theorem update_with_explicit_scale (w : world) (l : nat) (d : device)
    (v : spec_float) :
  _enabled (scaler w) = true ->
  _scale (scaler w) = Some l ->
  cells w !! l = Some (FloatCell d v) ->
  _growth_tracker (scaler w) <> TrackerNone ->
  (forall x : pyfloat,
     update (NewScaleFloat x) w =
       if overflows_float32 x then Raise (RuntimeError float32_overflow_message)
       else Return tt (with_scale l d (Float.round Float.binary32 x) w)) /\
  (forall (t : nat) (requires_grad : bool) (x : tensor),
     tensors w !! t = Some x ->
     update (NewScaleTensor t requires_grad) w =
       if is_cuda_float_tensor x && (numel (t_data x) =? 1) && negb requires_grad
       then Return tt
              (with_scale l d (default Float.zero (head (tdata_elems (t_data x)))) w)
       else Raise (AssertionError new_scale_reason)) /\
  (forall o : pyobj,
     update (NewScaleOther o) w = Raise (AssertionError new_scale_reason)) /\
  (forall x : spec_float,
     scale_value (with_scale l d x w) = Some x /\
     _growth_tracker (scaler (with_scale l d x w)) = _growth_tracker (scaler w) /\
     tracker_value (with_scale l d x w) = tracker_value w /\
     _per_optimizer_states (scaler (with_scale l d x w)) = []) /\
  (Forall (fun st => found_inf_per_device st = [])
          (dict_values (_per_optimizer_states (scaler w))) ->
   update NewScaleNone w = Raise (AssertionError no_checks_message)).
Proof.
  intros He Hsc Hl Htr.
  assert (Hck : _check_scale_growth_tracker "update" w
                = Return (l, _growth_tracker (scaler w)) w).
  { apply check_passes; assumption. }
  split; [| split; [| split; [| split]]];
    try (intros x; eapply with_scale_observed; eassumption);
    try (eapply update_without_checks; eassumption).
  - intros x. unfold update, read_float, read_cell, write_cell, to_float32. run.
    destruct (overflows_float32 x); reflexivity.
  - intros t rg x Ht.
    unfold update, read_float, read_cell, read_tensor, write_cell, assert,
      is_cuda_float_tensor.
    run.
    destruct (bool_decide (dev_type (t_device x) = cuda)
              && bool_decide (t_dtype x = float32)); [|reflexivity].
    cbn. destruct (numel (t_data x) =? 1); [|reflexivity].
    cbn. destruct rg; reflexivity.
  - intros o. unfold update, read_float, read_cell. run. reflexivity.
Qed.


Lemma update_with_explicit_scale_witness :
  _enabled (scaler (materialized cpu_device)) = true /\
  _scale (scaler (materialized cpu_device)) = Some 0 /\
  cells (materialized cpu_device) !! 0 = Some (FloatCell cpu_device (f32 1024 0)) /\
  _growth_tracker (scaler (materialized cpu_device)) <> TrackerNone /\
  _per_optimizer_states (scaler (materialized cpu_device)) = [] /\
  update (NewScaleFloat (py 3 0)) (materialized cpu_device)
  = Return tt (with_scale 0 cpu_device (f32 3 0) (materialized cpu_device)) /\
  update NewScaleNone (materialized cpu_device)
  = Raise (AssertionError no_checks_message).
Proof.
  assert (Htr : _growth_tracker (scaler (materialized cpu_device)) <> TrackerNone)
    by (vm_compute; discriminate).
  destruct (update_with_explicit_scale (materialized cpu_device) 0 cpu_device
              (f32 1024 0) eq_refl eq_refl eq_refl Htr)
    as (Hfloat & _ & _ & _ & Hnone).
  split; [reflexivity |]. split; [reflexivity |]. split; [reflexivity |].
  split; [exact Htr |]. split; [reflexivity |]. split.
  - exact (Hfloat (py 3 0)).
  - apply Hnone. constructor.
Defined.

(** ** Loading a state blob *)

(** C8. [load_state_dict] leaves a disabled instance as it is, whatever
    the blob; on an enabled instance an empty blob raises the "source
    state dict is empty" error, and a blob with the five documented
    entries (numbers the buffers can hold), loaded while both buffers are
    materialized, is written into those same buffers: the instance still refers to the buffers it
    referred to, they hold the loaded scale and count on the device they
    were on, and no other buffer is touched or created. *)
Theorem load_state_dict_cases (w : world) (d : blob) :
  (_enabled (scaler w) = false -> load_state_dict d w = Return tt w) /\
  (_enabled (scaler w) = true ->
     load_state_dict [] w = Raise (RuntimeError empty_blob_message)) /\
  (forall (l t : nat) (dev dev' : device) (v : spec_float) (n : Z)
          (sc gf bf : pyfloat) (gi gt : Z),
     _enabled (scaler w) = true ->
     _scale (scaler w) = Some l ->
     _growth_tracker (scaler w) = TrackerTensor t ->
     cells w !! l = Some (FloatCell dev v) ->
     cells w !! t = Some (IntCell dev' n) ->
     dict_get "scale" d = Some (PyFloat sc) ->
     dict_get "growth_factor" d = Some (PyFloat gf) ->
     dict_get "backoff_factor" d = Some (PyFloat bf) ->
     dict_get "growth_interval" d = Some (PyInt gi) ->
     dict_get "_growth_tracker" d = Some (PyInt gt) ->
     overflows_float32 sc = false ->
     in_int32 gt = true ->
     exists w',
       load_state_dict d w = Return tt w' /\
       _scale (scaler w') = Some l /\
       _growth_tracker (scaler w') = TrackerTensor t /\
       cells w' !! l = Some (FloatCell dev (Float.round Float.binary32 sc)) /\
       cells w' !! t = Some (IntCell dev' gt) /\
       length (cells w') = length (cells w) /\
       (forall i, i <> l -> i <> t -> cells w' !! i = cells w !! i) /\
       _init_scale (scaler w') = sc /\
       _growth_factor (scaler w') = gf /\
       _backoff_factor (scaler w') = bf /\
       _growth_interval (scaler w') = gi /\
       _init_growth_tracker (scaler w') = gt).
Proof.
  split; [| split].
  - intros He. unfold load_state_dict. run. reflexivity.
  - intros He. unfold load_state_dict. run. reflexivity.
  - intros l t dev dev' v n sc gf bf gi gt He Hsc Htr Hl Ht Hd1 Hd2 Hd3 Hd4 Hd5 Hfit Hin.
    assert (Hlen : (length d =? 0) = false) by (destruct d; [discriminate | reflexivity]).
    assert (Hne : t <> l) by (intros ->; congruence).
    assert (Hl' : l < length (cells w)) by (eapply lookup_lt_Some; eauto).
    assert (Ht' : t < length (cells w)) by (eapply lookup_lt_Some; eauto).
    assert (Ht2 : <[l := FloatCell dev (Float.round Float.binary32 sc)]> (cells w) !! t
                  = Some (IntCell dev' n))
      by (rewrite list_lookup_insert_ne by congruence; exact Ht).
    eexists. split.
    + unfold load_state_dict, float_item, int_item, item, read_float, read_int,
        read_cell, write_cell, to_float32.
      run. reflexivity.
    + cbn. repeat split; try reflexivity.
      * rewrite list_lookup_insert_ne by congruence.
        apply list_lookup_insert_eq. assumption.
      * apply list_lookup_insert_eq. rewrite length_insert. assumption.
      * rewrite !length_insert. reflexivity.
      * intros i Hil Hit. rewrite !list_lookup_insert_ne by congruence. reflexivity.
Qed.


Lemma load_state_dict_cases_witness :
  (_enabled (scaler disabled_world) = false /\
   load_state_dict (five_entries (py 2048 0) (py 2 0) (py 1 (-1)) 3 0) disabled_world
   = Return tt disabled_world) /\
  (_enabled (scaler (materialized current_cuda_device)) = true /\
   load_state_dict [] (materialized current_cuda_device)
   = Raise (RuntimeError empty_blob_message)) /\
  exists w',
    load_state_dict (five_entries (py 2048 0) (py 2 0) (py 1 (-1)) 3 2)
                    (materialized current_cuda_device)
    = Return tt w' /\
    _scale (scaler w') = Some 0 /\ _growth_tracker (scaler w') = TrackerTensor 1 /\
    cells w' !! 0 = Some (FloatCell current_cuda_device (f32 2048 0)) /\
    cells w' !! 1 = Some (IntCell current_cuda_device 2) /\
    length (cells w') = length (cells (materialized current_cuda_device)).
Proof.
  split; [| split].
  - split; [reflexivity |].
    apply (proj1 (load_state_dict_cases disabled_world _)). reflexivity.
  - split; [reflexivity |].
    apply (proj1 (proj2 (load_state_dict_cases (materialized current_cuda_device) []))).
    reflexivity.
  - destruct (proj2 (proj2 (load_state_dict_cases (materialized current_cuda_device)
                (five_entries (py 2048 0) (py 2 0) (py 1 (-1)) 3 2)))
              0 1 current_cuda_device current_cuda_device (f32 1024 0) 0%Z
              (py 2048 0) (py 2 0) (py 1 (-1)) 3%Z 2%Z
              eq_refl eq_refl eq_refl eq_refl eq_refl eq_refl eq_refl eq_refl
              eq_refl eq_refl eq_refl eq_refl)
      as (w' & Hload & Hsc & Htr & Hl & Ht & Hlen & _).
    exists w'. repeat split; assumption.
Defined.

(** ** Sequencing errors *)

(** X27. The sequencing errors of [step] and [update]. On an enabled
    instance, whenever [step] has returned for an optimizer, it is marked
    STEPPED and a [step] for it made right then (without the closure
    argument, which is refused beforehand) raises the error that step()
    has already been called; [update] without a new scale raises when no
    optimizer recorded a flag; and [step], for an optimizer that leaves
    the unscaling to the scaler, raises when the unscaling it triggers
    finds no gradient, or when an earlier unscaling recorded no flag. *)
Theorem sequencing_errors (w : world) (optimizer : Optimizer)
    (args : list pyobj) (kw : kwargs) :
  _enabled (scaler w) = true ->
  has_key "closure" kw = false ->
  (forall (args0 : list pyobj) (kw0 : kwargs) (r : pyobj) (w1 : world),
     step optimizer args0 kw0 w = Return r w1 ->
     stage_of (id optimizer) w1 = Some STEPPED /\
     step optimizer args kw w1 = Raise (RuntimeError stepped_twice_message)) /\
  (forall (l : nat) (d : device) (v : spec_float),
     _scale (scaler w) = Some l ->
     cells w !! l = Some (FloatCell d v) ->
     _growth_tracker (scaler w) <> TrackerNone ->
     Forall (fun st => found_inf_per_device st = [])
            (dict_values (_per_optimizer_states (scaler w))) ->
     update NewScaleNone w = Raise (AssertionError no_checks_message)) /\
  (forall (l : nat) (d : device) (v : spec_float),
     _scale (scaler w) = Some l ->
     cells w !! l = Some (FloatCell d v) ->
     _growth_tracker (scaler w) <> TrackerNone ->
     _step_supports_amp_scaling optimizer <> Some true ->
     ((stage_of (id optimizer) w = None \/ stage_of (id optimizer) w = Some READY) ->
      no_gradients optimizer w ->
      step optimizer args kw w
      = Raise (AssertionError no_checks_for_optimizer_message)) /\
     (forall st : opt_state,
        dict_get (id optimizer) (_per_optimizer_states (scaler w)) = Some st ->
        stage st = UNSCALED ->
        found_inf_per_device st = [] ->
        step optimizer args kw w
        = Raise (AssertionError no_checks_for_optimizer_message))).
Proof.
  intros He Hkw. split; [| split].
  - intros args0 kw0 r w1 Hstep. split.
    + eapply step_marks_stepped; eauto.
    + eapply step_twice_raises; eauto.
  - intros l d v Hsc Hl Htr Hnone. eapply update_without_checks; eauto.
  - intros l d v Hsc Hl Htr Hamp. split.
    + intros Hst Hno. eapply step_without_gradients; eauto.
    + intros st Hget Hst Hfl. eapply step_unscaled_without_flags; eauto.
Qed.

Lemma sequencing_errors_witness :
  _enabled (scaler (materialized cpu_device)) = true /\
  (step (plain_optimizer 7 [[0]]) [] [] (materialized cpu_device)
   = Return (PyObj 7) (stepped cpu_device) /\
   step (plain_optimizer 7 [[0]]) [PyObj 1] [] (stepped cpu_device)
   = Raise (RuntimeError stepped_twice_message)) /\
  update NewScaleNone (materialized cpu_device)
  = Raise (AssertionError no_checks_message) /\
  (no_gradients (plain_optimizer 8 [[]]) (materialized cpu_device) /\
   step (plain_optimizer 8 [[]]) [PyObj 1] [] (materialized cpu_device)
   = Raise (AssertionError no_checks_for_optimizer_message)).
Proof.
  assert (Htr : _growth_tracker (scaler (materialized cpu_device)) <> TrackerNone)
    by (vm_compute; discriminate).
  assert (Hfirst : step (plain_optimizer 7 [[0]]) [] [] (materialized cpu_device)
                   = Return (PyObj 7) (stepped cpu_device))
    by (vm_compute; reflexivity).
  assert (Hno : no_gradients (plain_optimizer 8 [[]]) (materialized cpu_device))
    by (repeat constructor).
  split; [reflexivity |]. split; [| split].
  - split; [exact Hfirst |].
    destruct (sequencing_errors (materialized cpu_device) (plain_optimizer 7 [[0]])
                [PyObj 1] [] eq_refl eq_refl) as (Htwice & _ & _).
    exact (proj2 (Htwice [] [] (PyObj 7) (stepped cpu_device) Hfirst)).
  - destruct (sequencing_errors (materialized cpu_device) (plain_optimizer 7 [[0]])
                [] [] eq_refl eq_refl) as (_ & Hupdate & _).
    apply (Hupdate 0 cpu_device (f32 1024 0) eq_refl eq_refl Htr). constructor.
  - split; [exact Hno |].
    destruct (sequencing_errors (materialized cpu_device) (plain_optimizer 8 [[]])
                [PyObj 1] [] eq_refl eq_refl) as (_ & _ & Hstep).
    assert (Hamp : _step_supports_amp_scaling (plain_optimizer 8 [[]]) <> Some true)
      by discriminate.
    apply (proj1 (Hstep 0 cpu_device (f32 1024 0) eq_refl eq_refl Htr Hamp)).
    + left. reflexivity.
    + exact Hno.
Defined.

(** C5 (fails on the code). A second [step] for the same optimizer before
    any [update] is not refused when [unscale_] is called in between.
    After the first [step] the optimizer is STEPPED; the guard of the
    inherited [unscale_] against a call after [step] does not match the
    stage this class stores, so [unscale_] returns, multiplies the
    gradient by the reciprocal of the scale a second time (2^-20 instead
    of 2^-10) and marks the optimizer UNSCALED; the second [step] then
    returns and [optimizer.step] has run twice in the iteration. *)
Theorem second_step_after_unscale_returns :
  (init_1024 true ;;; scale (OTensor 0)) (one_gradient cpu_device (f32 1 0))
  = Return (OTensor 2) (materialized cpu_device) /\
  step (plain_optimizer 7 [[0]]) [] [] (materialized cpu_device)
  = Return (PyObj 7) (stepped cpu_device) /\
  stage_of 7 (stepped cpu_device) = Some STEPPED /\
  tensors (stepped cpu_device) !! 1 = Some (on_device cpu_device [[f32 1 (-10)]]) /\
  unscale_ (plain_optimizer 7 [[0]]) (stepped cpu_device)
  = Return tt (unscaled_after_step cpu_device) /\
  stage_of 7 (unscaled_after_step cpu_device) = Some UNSCALED /\
  tensors (unscaled_after_step cpu_device) !! 1
  = Some (on_device cpu_device [[f32 1 (-20)]]) /\
  _per_optimizer_states (scaler (unscaled_after_step cpu_device)) <> [] /\
  step (plain_optimizer 7 [[0]]) [] [] (unscaled_after_step cpu_device)
  = Return (PyObj 7) (stepped_again cpu_device) /\
  calls (stepped_again cpu_device) = [(7, [], []); (7, [], [])].
Proof. vm_compute. repeat split; try reflexivity; discriminate. Qed.

(** Without the [unscale_] in between, the second [step] is refused; and
    the detour is the same with every tensor on an accelerator. *)
Example second_step_is_refused :
  step (plain_optimizer 7 [[0]]) [] [] (stepped cpu_device)
  = Raise (RuntimeError stepped_twice_message) /\
  step (plain_optimizer 7 [[0]]) [] [] (unscaled_after_step current_cuda_device)
  = Return (PyObj 7) (stepped_again current_cuda_device) /\
  calls (stepped_again current_cuda_device) = [(7, [], []); (7, [], [])].
Proof. vm_compute. repeat split; reflexivity. Qed.

(** ** Growth after clean iterations *)

(** C4. Start from an enabled instance whose growth tracker is at 0 and run
    N iterations without overflow: in each, calls of [scale], [unscale_]
    and [step] that leave only zero flags recorded, then an [update()].
    While N is below the growth interval the scale is the one the run
    started with and the tracker is at N; when N equals the growth
    interval the scale has been multiplied once by the growth factor and
    the tracker is back at 0. Below the interval the run can always be
    continued: the [update()] of one more such iteration returns. *)
Theorem growth_after_clean_run (N : nat) (w w' : world) (s0 : spec_float) :
  clean_run N w w' ->
  _enabled (scaler w) = true ->
  scale_value w = Some s0 ->
  tracker_value w = Some 0%Z ->
  (0 < _growth_interval (scaler w) < 2 ^ 31)%Z ->
  ((Z.of_nat N < _growth_interval (scaler w))%Z ->
     scale_value w' = Some s0 /\ tracker_value w' = Some (Z.of_nat N)) /\
  (Z.of_nat N = _growth_interval (scaler w) ->
     scale_value w' = Some (grown_scale s0 (_growth_factor (scaler w))) /\
     tracker_value w' = Some 0%Z) /\
  ((Z.of_nat N < _growth_interval (scaler w))%Z ->
   tracker_fits_device w ->
   forall (cs : list call) (w2 : world),
     performs cs w' w2 -> overflow_free w2 ->
     exists w3, update NewScaleNone w2 = Return tt w3 /\ clean_run (S N) w w3).
Proof.
  intros Hrun He Hs Ht [Hpos Hmax]. split; [| split].
  - intros HN.
    destruct (clean_run_below N w w' s0 Hrun He Hs Ht Hmax HN) as (_ & H1 & H2 & _).
    auto.
  - intros HN. destruct Hrun as [w|n cs w w1 w2 w3 Hrun Hcalls Hclean Hup]; [lia |].
    destruct (clean_run_below n w w1 s0 Hrun He Hs Ht Hmax)
      as (Hset1 & Hs1 & Ht1 & _); [lia |].
    assert (He1 : _enabled (scaler w1) = true)
      by (rewrite (proj1 (settings_enabled _ _ Hset1)); exact He).
    destruct (performs_same_controller cs w1 w2 _ _ He1 Hs1 Ht1 Hcalls)
      as [(Hset2 & Hs2 & Ht2) _].
    assert (Hset12 : settings w2 = settings w) by congruence.
    destruct (settings_enabled _ _ Hset12) as (He2 & Hgi2 & Hgf2).
    destruct (clean_update_result w2 w3 s0 (Z.of_nat n)) as (Hset3 & _ & Hres);
      try congruence; [lia | rewrite Hgi2; lia |].
    rewrite Hgi2, Hgf2 in Hres.
    destruct (Z.of_nat n + 1 =? _growth_interval (scaler w))%Z eqn:Heq; [exact Hres | lia].
  - intros HN Hfit cs w2 Hcalls Hclean.
    destruct (clean_run_below N w w' s0 Hrun He Hs Ht Hmax HN)
      as (Hset1 & Hs1 & Ht1 & Hfit1).
    assert (He1 : _enabled (scaler w') = true)
      by (rewrite (proj1 (settings_enabled _ _ Hset1)); exact He).
    destruct (performs_same_controller cs w' w2 _ _ He1 Hs1 Ht1 Hcalls)
      as [(Hset2 & Hs2 & Ht2) Hfit2].
    assert (Hset12 : settings w2 = settings w) by congruence.
    destruct (settings_enabled _ _ Hset12) as (He2 & Hgi2 & Hgf2).
    destruct (clean_update w2 s0 (Z.of_nat N)) as (w3 & Hup & _);
      try congruence; [lia | rewrite Hgi2; lia | auto |].
    exists w3. split; [exact Hup |]. econstructor; eauto.
Qed.

Lemma overflow_freeb_sound (w : world) : overflow_freeb w = true -> overflow_free w.
Proof.
  unfold overflow_freeb, overflow_free. intros H.
  apply andb_prop in H as [Hne Hall]. split.
  - apply negb_true_iff, bool_decide_eq_false_1 in Hne. exact Hne.
  - apply Forall_forall. intros a Ha.
    rewrite forallb_forall in Hall. apply list_elem_of_In in Ha.
    specialize (Hall a Ha). apply andb_prop in Hall as [Hsc Hz]. split.
    + apply negb_true_iff, bool_decide_eq_false_1 in Hsc. exact Hsc.
    + unfold zero_at. destruct (cells w !! a) as [[d [s| | |]|]|]; try discriminate. eauto.
Qed.

(** One more clean iteration of the concrete process on [d]. *)
Lemma iterated_clean_run (d : device) (n : nat) :
  clean_run n (materialized d) (iterated d n) ->
  perform (CallScale (OTensor 0)) (iterated d n)
  = Return tt (after (scale (OTensor 0)) (iterated d n)) ->
  perform (CallStep (plain_optimizer 7 [[0]]) [] [])
          (after (scale (OTensor 0)) (iterated d n))
  = Return tt (after (forward_and_step (plain_optimizer 7 [[0]])) (iterated d n)) ->
  overflow_freeb (after (forward_and_step (plain_optimizer 7 [[0]])) (iterated d n))
  = true ->
  update NewScaleNone (after (forward_and_step (plain_optimizer 7 [[0]])) (iterated d n))
  = Return tt (iterated d (S n)) ->
  clean_run (S n) (materialized d) (iterated d (S n)).
Proof.
  intros Hrun Hscale Hstep Hfree Hup.
  apply (clean_run_S n
           [CallScale (OTensor 0); CallStep (plain_optimizer 7 [[0]]) [] []]
           _ _ _ _ Hrun
           (performs_cons _ _ _ _ _ Hscale
              (performs_cons _ _ _ _ _ Hstep (performs_nil _)))
           (overflow_freeb_sound _ Hfree) Hup).
Qed.

Lemma growth_after_clean_run_witness :
  clean_run 2 (materialized cpu_device) (iterated cpu_device 2) /\
  clean_run 3 (materialized cpu_device) (iterated cpu_device 3) /\
  _enabled (scaler (materialized cpu_device)) = true /\
  scale_value (materialized cpu_device) = Some (f32 1024 0) /\
  tracker_value (materialized cpu_device) = Some 0%Z /\
  (0 < _growth_interval (scaler (materialized cpu_device)) < 2 ^ 31)%Z /\
  (scale_value (iterated cpu_device 2) = Some (f32 1024 0) /\
   tracker_value (iterated cpu_device 2) = Some 2%Z) /\
  (scale_value (iterated cpu_device 3) = Some (f32 2048 0) /\
   tracker_value (iterated cpu_device 3) = Some 0%Z).
Proof.
  assert (H1 : clean_run 1 (materialized cpu_device) (iterated cpu_device 1)).
  { apply (iterated_clean_run cpu_device 0 (clean_run_O _)).
    - vm_compute. reflexivity.
    - vm_compute. reflexivity.
    - vm_compute. reflexivity.
    - vm_compute. reflexivity. }
  assert (H2 : clean_run 2 (materialized cpu_device) (iterated cpu_device 2)).
  { apply (iterated_clean_run cpu_device 1 H1).
    - vm_compute. reflexivity.
    - vm_compute. reflexivity.
    - vm_compute. reflexivity.
    - vm_compute. reflexivity. }
  assert (H3 : clean_run 3 (materialized cpu_device) (iterated cpu_device 3)).
  { apply (iterated_clean_run cpu_device 2 H2).
    - vm_compute. reflexivity.
    - vm_compute. reflexivity.
    - vm_compute. reflexivity.
    - vm_compute. reflexivity. }
  assert (Hgi : (0 < _growth_interval (scaler (materialized cpu_device)) < 2 ^ 31)%Z)
    by (vm_compute; split; reflexivity).
  assert (He : _enabled (scaler (materialized cpu_device)) = true)
    by (vm_compute; reflexivity).
  assert (Hs : scale_value (materialized cpu_device) = Some (f32 1024 0))
    by (vm_compute; reflexivity).
  assert (Ht : tracker_value (materialized cpu_device) = Some 0%Z)
    by (vm_compute; reflexivity).
  split; [exact H2 |]. split; [exact H3 |].
  split; [exact He |]. split; [exact Hs |]. split; [exact Ht |].
  split; [exact Hgi |]. split.
  - apply (proj1 (growth_after_clean_run 2 _ _ (f32 1024 0) H2 He Hs Ht Hgi)).
    vm_compute. reflexivity.
  - pose proof (proj1 (proj2 (growth_after_clean_run 3 _ _ (f32 1024 0) H3 He Hs Ht Hgi)))
      as H.
    assert (H' : Z.of_nat 3 = _growth_interval (scaler (materialized cpu_device)))
      by (vm_compute; reflexivity).
    specialize (H H'). vm_compute in H. vm_compute. exact H.
Defined.

(** The same run on an accelerator, through the fused update. *)
Example accelerator_growth_after_three :
  scale_value (iterated current_cuda_device 2) = Some (f32 1024 0) /\
  tracker_value (iterated current_cuda_device 2) = Some 2%Z /\
  scale_value (iterated current_cuda_device 3) = Some (f32 2048 0) /\
  tracker_value (iterated current_cuda_device 3) = Some 0%Z /\
  _growth_tracker (scaler (iterated current_cuda_device 3)) = TrackerTensor 1.
Proof. vm_compute. repeat split; reflexivity. Qed.

(** * Further properties *)

(** ** What an operation leaves as it was *)

Lemma dict_get_set_ne {K V} `{EqDecision K} (k k' : K) (v : V) (d : list (K * V)) :
  k' <> k -> dict_get k' (dict_set k v d) = dict_get k' d.
Proof.
  intros Hne. induction d as [|[k0 v0] d IH]; cbn.
  - destruct (decide (k' = k)); congruence.
  - destruct (decide (k = k0)) as [->|Hk]; cbn.
    + destruct (decide (k' = k0)); congruence.
    + destruct (decide (k' = k0)); [reflexivity | exact IH].
Qed.

Section Keeps.

Context {X : Type}.
Variable f : world -> X.

Lemma keeps_ret {A} (a : A) : keeps f (ret a).
Proof. intros w a' w' [= _ <-]. reflexivity. Qed.

Lemma keeps_raise {A} (e : exn) : keeps f (@raise A e).
Proof. intros w a w' [=]. Qed.

Lemma keeps_bind {A B} (m : M A) (k : A -> M B) :
  keeps f m -> (forall a, keeps f (k a)) -> keeps f (bind m k).
Proof.
  intros Hm Hk w b w'' H. apply bind_inv in H as (a & w' & H1 & H2).
  rewrite (Hk _ _ _ _ H2). exact (Hm _ _ _ H1).
Qed.

Lemma keeps_for_each {A S} (l : list A) (body : A -> S -> M S) :
  (forall a s, keeps f (body a s)) -> forall s, keeps f (for_each l s body).
Proof.
  intros Hb. induction l as [|a l IH]; intros s; cbn [for_each].
  - apply keeps_ret.
  - apply keeps_bind; [apply Hb | intros s'; apply IH].
Qed.

Lemma keeps_gets {A} (g : world -> A) : keeps f (gets g).
Proof. intros w a w' [= _ <-]. reflexivity. Qed.

Lemma keeps_modify (g : world -> world) :
  (forall w, f (g w) = f w) -> keeps f (modify g).
Proof. intros Hg w a w' [= _ <-]. apply Hg. Qed.

Lemma keeps_read_cell (l : nat) : keeps f (read_cell l).
Proof. intros w a w'. unfold read_cell. destruct (cells w !! l); intros [= _ <-]. reflexivity. Qed.

Lemma keeps_read_tensor (l : nat) : keeps f (read_tensor l).
Proof.
  intros w a w'. unfold read_tensor. destruct (tensors w !! l); intros [= _ <-]. reflexivity.
Qed.

Lemma keeps_read_param (l : nat) : keeps f (read_param l).
Proof.
  intros w a w'. unfold read_param. destruct (params w !! l); intros [= _ <-]. reflexivity.
Qed.

Lemma keeps_get_world : keeps f get_world.
Proof. intros w a w' [= _ <-]. reflexivity. Qed.

Lemma keeps_alloc_cell (c : cell) :
  (forall w cs, f (set_cells cs w) = f w) -> keeps f (alloc_cell c).
Proof. intros Hf w a w' [= _ <-]. apply Hf. Qed.

Lemma keeps_alloc_tensor (t : tensor) :
  (forall w ts, f (set_tensors ts w) = f w) -> keeps f (alloc_tensor t).
Proof. intros Hf w a w' [= _ <-]. apply Hf. Qed.

End Keeps.

(** Breaks an operation into its primitives; the changes of the world met
    on the way must leave the observation alone by computation. *)
Ltac keeps_step :=
  first
    [ apply keeps_ret
    | apply keeps_raise
    | apply keeps_gets
    | apply keeps_get_world
    | apply keeps_read_cell
    | apply keeps_read_tensor
    | apply keeps_read_param
    | apply keeps_alloc_cell; intros ? ?; reflexivity
    | apply keeps_alloc_tensor; intros ? ?; reflexivity
    | apply keeps_modify; intros ?; reflexivity
    | apply keeps_bind; [| intros ?]
    | apply keeps_for_each; intros ? ?
    | match goal with
      | |- keeps _ (match ?x with _ => _ end) => destruct x
      | |- keeps _ (if ?b then _ else _) => destruct b
      end
    | progress unfold self, set_self, unmodelled, assert, log_warning, print,
        read_float, read_int, write_cell, write_tensor, write_param, cell_to,
        to_float32, full_int32, get ].

Ltac keeps := repeat keeps_step.

(** ** The per-device replicator *)

(** X1. [_GeneralMultiDeviceReplicator.get] caches per device: whatever a
    request returned, the same request on the replicator it leaves returns
    the same buffer and changes nothing. The first request for a device
    allocates a new buffer on that device holding the master's number (a
    copy even when the master already lives there); the master and the
    copies cached for other devices stay as they were. *)
Theorem replicator_get_caches (r r' : _GeneralMultiDeviceReplicator) (d : device)
    (w w' : world) (l : nat) :
  get r d w = Return (l, r') w' ->
  get r' d w' = Return (l, r') w' /\
  master r' = master r /\
  (forall d', d' <> d ->
     dict_get d' (_per_device_tensors r') = dict_get d' (_per_device_tensors r)) /\
  match dict_get d (_per_device_tensors r) with
  | Some l0 => l = l0 /\ r' = r /\ w' = w
  | None =>
      exists dm v,
        cells w !! master r = Some (FloatCell dm v) /\
        l = length (cells w) /\ l <> master r /\
        w' = set_cells (cells w ++ [FloatCell d v]) w
  end.
Proof.
  unfold get.
  destruct (dict_get d (_per_device_tensors r)) as [l0|] eqn:Hget.
  - intros [= <- <- <-]. rewrite Hget. repeat split; auto.
  - unfold read_float, read_cell. cbn.
    destruct (cells w !! master r) as [[dm v|dm v]|] eqn:Hm; cbn; try discriminate.
    intros [= <- <- <-]. cbn. rewrite dict_get_set_eq.
    repeat split; [intros d' Hd'; apply dict_get_set_ne; exact Hd' |].
    exists dm, v. repeat split.
    apply lookup_lt_Some in Hm. lia.
Qed.

Lemma replicator_get_caches_witness :
  get (new_replicator 0) current_cuda_device (materialized cpu_device)
  = Return (2, {| master := 0; _per_device_tensors := [(current_cuda_device, 2)] |})
      (set_cells (cells (materialized cpu_device)
                  ++ [FloatCell current_cuda_device (f32 1024 0)])
                 (materialized cpu_device)) /\
  get {| master := 0; _per_device_tensors := [(current_cuda_device, 2)] |}
      current_cuda_device
      (set_cells (cells (materialized cpu_device)
                  ++ [FloatCell current_cuda_device (f32 1024 0)])
                 (materialized cpu_device))
  = Return (2, {| master := 0; _per_device_tensors := [(current_cuda_device, 2)] |})
      (set_cells (cells (materialized cpu_device)
                  ++ [FloatCell current_cuda_device (f32 1024 0)])
                 (materialized cpu_device)).
Proof.
  assert (H : get (new_replicator 0) current_cuda_device (materialized cpu_device)
    = Return (2, {| master := 0; _per_device_tensors := [(current_cuda_device, 2)] |})
        (set_cells (cells (materialized cpu_device)
                    ++ [FloatCell current_cuda_device (f32 1024 0)])
                   (materialized cpu_device)))
    by (vm_compute; reflexivity).
  split; [exact H |].
  exact (proj1 (replicator_get_caches _ _ _ _ _ _ H)).
Defined.

(** ** Construction *)

(** X2. An instance that comes out of [__init__] enabled was asked to be
    enabled on a machine where CUDA is available, with a growth factor
    above 1 and a backoff factor below 1. It has no buffer yet, nothing
    else in the process changed, [get_scale] returns the initial scale as
    it was given and [state_dict] the constructor's arguments with a
    growth tracker of 0. *)
Theorem init_enabled_instance (amp_definitely_not_available enabled : bool)
    (init_scale growth_factor backoff_factor : pyfloat) (growth_interval : Z)
    (w w' : world) :
  __init__ amp_definitely_not_available init_scale growth_factor backoff_factor
           growth_interval enabled w = Return tt w' ->
  _enabled (scaler w') = true ->
  enabled = true /\ amp_definitely_not_available = false /\
  Float.ltb (Float.one Float.binary64) growth_factor = true /\
  Float.ltb backoff_factor (Float.one Float.binary64) = true /\
  w' = set_scaler (constructed init_scale growth_factor backoff_factor growth_interval) w /\
  get_scale w' = Return init_scale w' /\
  state_dict w'
  = Return (five_entries init_scale growth_factor backoff_factor growth_interval 0) w'.
Proof.
  unfold __init__. intros H He.
  apply bind_inv in H as (en' & w1 & Hen & H).
  destruct enabled, amp_definitely_not_available; cbn in Hen;
    injection Hen as <- <-; cbn in H.
  - injection H as <-. discriminate He.
  - unfold assert in H.
    destruct (Float.ltb (Float.one Float.binary64) growth_factor); [|discriminate].
    destruct (Float.ltb backoff_factor (Float.one Float.binary64)); [|discriminate].
    cbn in H. injection H as <-. repeat split.
  - injection H as <-. discriminate He.
  - injection H as <-. discriminate He.
Qed.

Lemma init_enabled_instance_witness :
  init_1024 true (boot [] [] [])
  = Return tt (set_scaler (constructed (py 1024 0) (py 2 0) (py 1 (-1)) 3) (boot [] [] [])) /\
  state_dict (set_scaler (constructed (py 1024 0) (py 2 0) (py 1 (-1)) 3) (boot [] [] []))
  = Return (five_entries (py 1024 0) (py 2 0) (py 1 (-1)) 3 0)
      (set_scaler (constructed (py 1024 0) (py 2 0) (py 1 (-1)) 3) (boot [] [] [])).
Proof.
  assert (H : init_1024 true (boot [] [] [])
    = Return tt (set_scaler (constructed (py 1024 0) (py 2 0) (py 1 (-1)) 3) (boot [] [] [])))
    by (vm_compute; reflexivity).
  split; [exact H |].
  destruct (init_enabled_instance false true (py 1024 0) (py 2 0) (py 1 (-1)) 3
              (boot [] [] []) _ H eq_refl) as (_ & _ & _ & _ & _ & _ & Hsd).
  exact Hsd.
Defined.

Lemma given_has_attr (name : string) (s s' : ShardedGradScaler) :
  missing s' = (if _enabled s then [] else given name s) ->
  has_attr name s' = true.
Proof.
  intros Hm. unfold has_attr. rewrite Hm. destruct (_enabled s); [reflexivity |].
  unfold given. induction (lacks s) as [|n l IH]; [reflexivity |].
  cbn [List.filter]. destruct (String.eqb n name) eqn:Hn; cbn [negb]; [exact IH |].
  cbn [existsb]. rewrite String.eqb_sym, Hn. exact IH.
Qed.

(** X3. When the instance is to be disabled, because that was asked for or
    because CUDA is not available, [__init__] returns whatever the factors
    are (they are not checked): it assigns [_enabled] and nothing else,
    after one warning in the second case, so the attributes that were
    missing are still missing. On a new object that is all of them: the
    three getters, [unscale_], [_check_inf_per_device] and
    [_found_inf_per_device] raise the AttributeError of the attribute
    they read first. A setter gives the instance its attribute, which the
    getter returns from then on. *)
Theorem init_disabled_instance (amp_definitely_not_available enabled : bool)
    (init_scale growth_factor backoff_factor : pyfloat) (growth_interval : Z)
    (w : world) (optimizer : Optimizer) :
  enabled && negb amp_definitely_not_available = false ->
  exists w',
    __init__ amp_definitely_not_available init_scale growth_factor backoff_factor
             growth_interval enabled w = Return tt w' /\
    _enabled (scaler w') = false /\
    missing (scaler w') = missing (scaler w) /\
    log w' = (if enabled then cuda_unavailable_warning :: log w else log w) /\
    cells w' = cells w /\ tensors w' = tensors w /\ params w' = params w /\
    calls w' = calls w /\
    (missing (scaler w) = attribute_names ->
       unscale_ optimizer w' = Raise (AttributeError (no_attribute "display_warning")) /\
       get_growth_factor w' = Raise (AttributeError (no_attribute "_growth_factor")) /\
       get_backoff_factor w' = Raise (AttributeError (no_attribute "_backoff_factor")) /\
       get_growth_interval w'
       = Raise (AttributeError (no_attribute "_growth_interval")) /\
       _check_inf_per_device optimizer w'
       = Raise (AttributeError (no_attribute "_scale")) /\
       _found_inf_per_device optimizer w'
       = Raise (AttributeError (no_attribute "_per_optimizer_states"))) /\
    (forall x : pyfloat, exists w'',
       set_growth_factor x w' = Return tt w'' /\
       get_growth_factor w'' = Return x w'' /\
       _enabled (scaler w'') = false).
Proof.
  intros Hdis.
  assert (Hinit : exists w',
    __init__ amp_definitely_not_available init_scale growth_factor backoff_factor
             growth_interval enabled w = Return tt w' /\
    _enabled (scaler w') = false /\
    missing (scaler w') = missing (scaler w) /\
    log w' = (if enabled then cuda_unavailable_warning :: log w else log w) /\
    cells w' = cells w /\ tensors w' = tensors w /\ params w' = params w /\
    calls w' = calls w).
  { unfold __init__.
    destruct enabled, amp_definitely_not_available; try discriminate Hdis; cbn;
      eexists; (split; [reflexivity |]); repeat split. }
  destruct Hinit as (w' & Hinit & He & Hm & Hrest).
  exists w'. split; [exact Hinit |]. split; [exact He |]. split; [exact Hm |].
  destruct Hrest as (Hlog & Hc & Ht & Hp & Hcalls).
  repeat (split; [assumption |]). split.
  - intros Hnew. rewrite Hnew in Hm.
    assert (Hno : forall name, In name attribute_names ->
                    attr name w' = Raise (AttributeError (no_attribute name))).
    { intros name Hin. apply attr_missing. unfold has_attr. rewrite Hm.
      cbn in Hin.
      repeat (destruct Hin as [<- | Hin]; [reflexivity |]). destruct Hin. }
    unfold unscale_, get_growth_factor, get_backoff_factor, get_growth_interval,
      _check_inf_per_device, _check_scale_growth_tracker, _found_inf_per_device.
    cbn. rewrite !Hno by (cbn; tauto). repeat split.
  - intros x. unfold set_growth_factor. cbn. eexists. split; [reflexivity |].
    split; [| exact He].
    unfold get_growth_factor. cbn.
    unfold attr. cbn.
    rewrite (given_has_attr "_growth_factor" (scaler w')) by (unfold missing; cbn; reflexivity).
    reflexivity.
Qed.

Lemma init_disabled_instance_witness :
  exists w',
    __init__ true (py 1024 0) (py 1 (-1)) (py 2 0) 3 true (boot [] [] []) = Return tt w' /\
    _enabled (scaler w') = false /\
    log w' = [cuda_unavailable_warning] /\
    unscale_ (plain_optimizer 7 []) w'
    = Raise (AttributeError (no_attribute "display_warning")) /\
    get_growth_factor w' = Raise (AttributeError (no_attribute "_growth_factor")).
Proof.
  destruct (init_disabled_instance true true (py 1024 0) (py 1 (-1)) (py 2 0) 3
              (boot [] [] []) (plain_optimizer 7 []) eq_refl)
    as (w' & Hinit & Hen & _ & Hlog & _ & _ & _ & _ & Hnew & _).
  destruct (Hnew eq_refl) as (Hun & Hgf & _).
  exists w'. repeat split; assumption.
Defined.

(** ** Before the first [scale] *)

(** X4. On an enabled instance whose scale buffer has not been created
    yet, [step], [update] (with or without a new scale) and
    [_check_inf_per_device] raise the assertion of
    [_check_scale_growth_tracker], each under its own name, while
    [get_scale] answers with the initial scale. A [step] that is given a
    closure is refused for that reason before the buffers are looked
    at. *)
Theorem before_first_scale (w : world) (optimizer : Optimizer)
    (args : list pyobj) (kw : kwargs) (new_scale : new_scale_arg) :
  _enabled (scaler w) = true ->
  _scale (scaler w) = None ->
  has_key "closure" kw = false ->
  step optimizer args kw w = Raise (AssertionError (scale_is_none_message "step")) /\
  update new_scale w = Raise (AssertionError (scale_is_none_message "update")) /\
  _check_inf_per_device optimizer w
  = Raise (AssertionError (scale_is_none_message "_check_inf_per_device")) /\
  get_scale w = Return (_init_scale (scaler w)) w /\
  (forall kw', has_key "closure" kw' = true ->
     step optimizer args kw' w
     = Raise (RuntimeError
                "Closure use is not currently supported if GradScaler is enabled.")).
Proof.
  intros He Hsc Hkw.
  assert (Hck : forall fn, _check_scale_growth_tracker fn w
                           = Raise (AssertionError (scale_is_none_message fn))).
  { intros fn. unfold _check_scale_growth_tracker. cbn.
    rewrite (attr_enabled _ _ He). cbn. rewrite Hsc. reflexivity. }
  repeat split.
  - unfold step. cbn. rewrite He, Hkw. cbn. rewrite Hck. reflexivity.
  - unfold update. cbn. rewrite He. cbn. rewrite Hck. reflexivity.
  - unfold _check_inf_per_device. cbn. rewrite Hck. reflexivity.
  - unfold get_scale. cbn. rewrite He, Hsc. reflexivity.
  - intros kw' Hkw'. unfold step. cbn. rewrite He, Hkw'. reflexivity.
Qed.

Lemma before_first_scale_witness :
  step (plain_optimizer 7 [[0]]) [] []
       (after (init_1024 true) (one_gradient cpu_device (f32 1 0)))
  = Raise (AssertionError (scale_is_none_message "step")) /\
  update (NewScaleFloat (py 2 0))
         (after (init_1024 true) (one_gradient cpu_device (f32 1 0)))
  = Raise (AssertionError (scale_is_none_message "update")).
Proof.
  destruct (before_first_scale
              (after (init_1024 true) (one_gradient cpu_device (f32 1 0)))
              (plain_optimizer 7 [[0]]) [] [] (NewScaleFloat (py 2 0))
              eq_refl eq_refl eq_refl) as (Hstep & Hup & _).
  split; assumption.
Defined.

(** ** [scale] *)

Lemma keeps_ensure_scale {X} (f : world -> X) (d : device) :
  (forall w cs, f (set_cells cs w) = f w) ->
  (forall w s, f (set_scaler s w) = f w) ->
  keeps f (ensure_scale d).
Proof.
  intros Hc Hs. unfold ensure_scale, _lazy_init_scale_growth_tracker.
  repeat first
    [ apply keeps_alloc_cell; exact Hc
    | apply keeps_modify; intros ?; apply Hs
    | keeps_step ].
Qed.

Lemma keeps_get {X} (f : world -> X) (r : _GeneralMultiDeviceReplicator) (d : device) :
  (forall w cs, f (set_cells cs w) = f w) -> keeps f (get r d).
Proof.
  intros Hc. unfold get.
  repeat first [ apply keeps_alloc_cell; exact Hc | keeps_step ].
Qed.

#[global] Arguments ensure_scale : simpl never.

(** The buffers [ensure_scale] creates when there is none yet. *)
Lemma ensure_scale_creates (w : world) (dev : device) :
  _scale (scaler w) = None ->
  _growth_tracker (scaler w) = TrackerNone ->
  overflows_float32 (_init_scale (scaler w)) = false ->
  in_int32 (_init_growth_tracker (scaler w)) = true ->
  ensure_scale dev w
  = Return (length (cells w))
      (set_scaler
         (set_growth_tracker (TrackerTensor (S (length (cells w))))
            (set_scale (Some (length (cells w))) (scaler w)))
         (set_cells
            (cells w ++
             [FloatCell dev (Float.round Float.binary32 (_init_scale (scaler w)));
              IntCell dev (_init_growth_tracker (scaler w))]) w)).
Proof.
  intros Hsc Htr Hfit Hint.
  unfold ensure_scale, _lazy_init_scale_growth_tracker. cbn.
  rewrite Hsc. cbn. rewrite Htr. cbn.
  unfold to_float32. rewrite Hfit. cbn.
  unfold full_int32. rewrite Hint. cbn.
  rewrite length_app. cbn. rewrite <- app_assoc. cbn.
  replace (length (cells w) + 1) with (S (length (cells w))) by lia.
  reflexivity.
Qed.

(** X5. The first [scale] of a tensor on an enabled instance creates the
    two buffers on the tensor's device, the scale holding the initial scale
    rounded to float32 and the tracker the initial count, and binds
    [_scale] and [_growth_tracker] to them, no other attribute changing; it
    returns a new tensor on that device and leaves the tensors that were
    there alone. From then on [get_scale] reports the rounded number. *)
Theorem first_scale_materializes (w : world) (t : nat) (x : tensor) :
  _enabled (scaler w) = true ->
  _scale (scaler w) = None ->
  _growth_tracker (scaler w) = TrackerNone ->
  tensors w !! t = Some x ->
  overflows_float32 (_init_scale (scaler w)) = false ->
  in_int32 (_init_growth_tracker (scaler w)) = true ->
  exists w' y,
    scale (OTensor t) w = Return (OTensor (length (tensors w))) w' /\
    _scale (scaler w') = Some (length (cells w)) /\
    _growth_tracker (scaler w') = TrackerTensor (S (length (cells w))) /\
    cells w' = cells w ++
      [FloatCell (t_device x) (Float.round Float.binary32 (_init_scale (scaler w)));
       IntCell (t_device x) (_init_growth_tracker (scaler w))] /\
    tensors w' = tensors w ++ [y] /\ t_device y = t_device x /\
    scaler w' = set_growth_tracker (TrackerTensor (S (length (cells w))))
                  (set_scale (Some (length (cells w))) (scaler w)) /\
    get_scale w'
    = Return (Float.round Float.binary64
                (Float.round Float.binary32 (_init_scale (scaler w)))) w'.
Proof.
  intros He Hsc Htr Ht Hfit Hint.
  unfold scale. cbn. rewrite He. cbn.
  unfold read_tensor. rewrite Ht. cbn.
  rewrite (ensure_scale_creates w (t_device x) Hsc Htr Hfit Hint). cbn.
  unfold cell_to, read_float, read_cell. cbn.
  rewrite list_lookup_middle by reflexivity. cbn.
  destruct (decide (t_device x = t_device x)) as [_|Hne]; [|congruence]. cbn.
  unfold tensor_mul_cell, read_tensor. cbn. rewrite Ht. cbn.
  unfold read_float, read_cell. cbn.
  rewrite list_lookup_middle by reflexivity. cbn.
  eexists. eexists. split; [reflexivity |]. cbn.
  repeat split.
  unfold get_scale. cbn. rewrite He. unfold read_float, read_cell. cbn.
  rewrite list_lookup_middle by reflexivity. reflexivity.
Qed.

Lemma first_scale_materializes_witness :
  exists w',
    scale (OTensor 0) (after (init_1024 true) (one_gradient current_cuda_device (f32 1 0)))
    = Return (OTensor 2) w' /\
    cells w' = [FloatCell current_cuda_device (f32 1024 0); IntCell current_cuda_device 0] /\
    get_scale w' = Return (py 1024 0) w'.
Proof.
  destruct (first_scale_materializes
              (after (init_1024 true) (one_gradient current_cuda_device (f32 1 0)))
              0 (on_device current_cuda_device [[f32 1 0]])
              eq_refl eq_refl eq_refl eq_refl eq_refl eq_refl)
    as (w' & y & Hrun & _ & _ & Hcells & _ & _ & _ & Hget).
  exists w'. split; [exact Hrun |]. split; [exact Hcells |]. exact Hget.
Defined.

Lemma tensor_mul_cell_allocates (t c : nat) (w w' : world) (y : nat) :
  tensor_mul_cell t c w = Return y w' ->
  y = length (tensors w) /\
  exists x x', tensors w !! t = Some x /\ t_device x' = t_device x /\
               tensors w' = tensors w ++ [x'].
Proof.
  unfold tensor_mul_cell, read_tensor, read_float, read_cell. cbn.
  destruct (tensors w !! t) as [x|]; cbn; [|discriminate].
  destruct (cells w !! c) as [[d v|d v]|]; cbn; try discriminate.
  intros [= <- <-]. cbn. split; [reflexivity |].
  exists x. eexists. split; [reflexivity |]. split; [| reflexivity]. reflexivity.
Qed.

Lemma relabel_list (l : list outputs) (n : nat) :
  relabel (OList l) n = (OList (fst (relabel_each l n)), snd (relabel_each l n)).
Proof.
  change (relabel (OList l) n)
    with (let (l', n') := relabel_each l n in (OList l', n')).
  destruct (relabel_each l n); reflexivity.
Qed.

Lemma relabel_tuple (l : list outputs) (n : nat) :
  relabel (OTuple l) n = (OTuple (fst (relabel_each l n)), snd (relabel_each l n)).
Proof.
  change (relabel (OTuple l) n)
    with (let (l', n') := relabel_each l n in (OTuple l', n')).
  destruct (relabel_each l n); reflexivity.
Qed.

Lemma relabel_each_cons (v : outputs) (l : list outputs) (n : nat) :
  relabel_each (v :: l) n =
  (fst (relabel v n) :: fst (relabel_each l (snd (relabel v n))),
   snd (relabel_each l (snd (relabel v n)))).
Proof.
  change (relabel_each (v :: l) n)
    with (let (v', n1) := relabel v n in
          let (l'', n2) := relabel_each l n1 in (v' :: l'', n2)).
  destruct (relabel v n) as [v' n1]. cbn [fst snd].
  destruct (relabel_each l n1); reflexivity.
Qed.

(** The references [apply_scale] returns are those of [relabel], and the
    tensors it allocates come after the ones that were there. *)
Lemma apply_scale_relabel (val : outputs) :
  forall stash w r stash' w',
    apply_scale val stash w = Return (r, stash') w' ->
    r = fst (relabel val (length (tensors w))) /\
    length (tensors w') = snd (relabel val (length (tensors w))) /\
    exists ext, tensors w' = tensors w ++ ext.
Proof.
  assert (Heach : forall l,
    Forall (fun val => forall stash w r stash' w',
      apply_scale val stash w = Return (r, stash') w' ->
      r = fst (relabel val (length (tensors w))) /\
      length (tensors w') = snd (relabel val (length (tensors w))) /\
      exists ext, tensors w' = tensors w ++ ext) l ->
    forall stash w l' stash' w',
      (fix each (l : list outputs) (stash : option _GeneralMultiDeviceReplicator)
         : M (list outputs * option _GeneralMultiDeviceReplicator) :=
         match l with
         | [] => ret ([], stash)
         | v :: l' =>
             let* (v', stash1) := apply_scale v stash in
             let* (l'', stash2) := each l' stash1 in
             ret (v' :: l'', stash2)
         end) l stash w = Return (l', stash') w' ->
      l' = fst (relabel_each l (length (tensors w))) /\
      length (tensors w') = snd (relabel_each l (length (tensors w))) /\
      exists ext, tensors w' = tensors w ++ ext).
  { induction 1 as [|v l Hv _ IHl]; intros stash w l' stash' w' H.
    - cbn in H. injection H as <- <- <-. cbn.
      repeat split. exists []. symmetry; apply app_nil_r.
    - apply bind_inv in H as ([v' st2] & w2 & Hv' & H).
      cbn beta iota in H.
      apply bind_inv in H as ([l'' st3] & w3 & Hl' & H).
      cbn in H. injection H as <- <- <-.
      apply Hv in Hv' as (-> & Hlen & [ext1 Hext1]).
      apply IHl in Hl' as (-> & Hlen' & [ext2 Hext2]).
      rewrite relabel_each_cons. cbn [fst snd].
      rewrite <- Hlen. repeat split; [exact Hlen' |].
      exists (ext1 ++ ext2). rewrite Hext2, Hext1, app_assoc. reflexivity. }
  induction val as [t|l IH|l IH|l|src|o] using outputs_nested_ind;
    intros stash w r stash' w' H.
  - cbn [apply_scale] in H.
    apply bind_inv in H as (x & w1 & Hrd & H).
    pose proof (keeps_read_tensor tensors _ _ _ _ Hrd) as E1.
    apply bind_inv in H as (rp & w2 & Hst & H).
    assert (E2 : tensors w2 = tensors w1).
    { destruct stash as [r0|].
      - cbn in Hst. injection Hst as _ <-. reflexivity.
      - apply bind_inv in Hst as (l0 & w0 & Hen & Hst). cbn in Hst.
        injection Hst as _ <-.
        apply (keeps_ensure_scale tensors (t_device x)) in Hen; auto. }
    apply bind_inv in H as ([c r'] & w3 & Hget & H).
    apply (keeps_get tensors) in Hget; [|auto].
    cbn beta iota in H.
    apply bind_inv in H as (y & w4 & Hmul & H).
    cbn in H. injection H as <- <- <-.
    apply tensor_mul_cell_allocates in Hmul as (-> & x0 & x' & _ & _ & Hts).
    cbn. rewrite Hts, length_app. cbn.
    rewrite Hget, E2, E1. repeat split; [lia | eauto].
  - cbn [apply_scale] in H. apply bind_inv in H as ([l' st1] & w1 & Hl & H).
    cbn in H. injection H as <- <- <-.
    apply (Heach l IH) in Hl as (-> & Hlen & Hext).
    rewrite relabel_list. auto.
  - cbn [apply_scale] in H. apply bind_inv in H as ([l' st1] & w1 & Hl & H).
    cbn in H. injection H as <- <- <-.
    apply (Heach l IH) in Hl as (-> & Hlen & Hext).
    rewrite relabel_tuple. auto.
  - cbn in H. injection H as <- <- <-. cbn. repeat split. exists []. symmetry; apply app_nil_r.
  - cbn in H. injection H as <- <- <-. cbn. repeat split. exists []. symmetry; apply app_nil_r.
  - cbn in H. discriminate.
Qed.

Lemma keeps_tensor_mul_cell {X} (f : world -> X) (t c : nat) :
  (forall w ts, f (set_tensors ts w) = f w) -> keeps f (tensor_mul_cell t c).
Proof.
  intros Ht. unfold tensor_mul_cell.
  repeat first [ apply keeps_alloc_tensor; exact Ht | keeps_step ].
Qed.

Lemma keeps_apply_scale {X} (f : world -> X) :
  (forall w cs, f (set_cells cs w) = f w) ->
  (forall w ts, f (set_tensors ts w) = f w) ->
  (forall w s, f (set_scaler s w) = f w) ->
  forall val stash, keeps f (apply_scale val stash).
Proof.
  intros Hc Ht Hs val.
  induction val as [t|l IH|l IH|l|src|o] using outputs_nested_ind; intros stash;
    cbn [apply_scale].
  - apply keeps_bind; [apply keeps_read_tensor | intros x].
    apply keeps_bind.
    { destruct stash; [apply keeps_ret |].
      apply keeps_bind; [apply keeps_ensure_scale; assumption | intros ?; apply keeps_ret]. }
    intros r. apply keeps_bind; [apply keeps_get; assumption | intros [c r']].
    apply keeps_bind; [apply keeps_tensor_mul_cell; assumption | intros ?; apply keeps_ret].
  - apply keeps_bind; [| intros [l' st']; apply keeps_ret].
    revert stash. induction IH as [|v l Hv _ IHl]; intros stash.
    + apply keeps_ret.
    + apply keeps_bind; [apply Hv | intros [v' st1]].
      apply keeps_bind; [apply IHl | intros [l'' st2]; apply keeps_ret].
  - apply keeps_bind; [| intros [l' st']; apply keeps_ret].
    revert stash. induction IH as [|v l Hv _ IHl]; intros stash.
    + apply keeps_ret.
    + apply keeps_bind; [apply Hv | intros [v' st1]].
      apply keeps_bind; [apply IHl | intros [l'' st2]; apply keeps_ret].
  - apply keeps_ret.
  - apply keeps_ret.
  - apply keeps_raise.
Qed.

Lemma keeps_scale {X} (f : world -> X) (outs : outputs) :
  (forall w cs, f (set_cells cs w) = f w) ->
  (forall w ts, f (set_tensors ts w) = f w) ->
  (forall w s, f (set_scaler s w) = f w) ->
  keeps f (scale outs).
Proof.
  intros Hc Ht Hs. unfold scale.
  apply keeps_bind; [apply keeps_gets | intros s].
  destruct (negb (_enabled s)); [apply keeps_ret |].
  pose proof (keeps_apply_scale f Hc Ht Hs) as Hap.
  destruct outs as [t|l|l|l|src|o];
    try (apply keeps_bind; [apply Hap | intros [r st]; apply keeps_ret]).
  apply keeps_bind; [apply keeps_read_tensor | intros x].
  apply keeps_bind; [apply keeps_ensure_scale; assumption | intros l].
  apply keeps_bind.
  { unfold cell_to. repeat first [ apply keeps_alloc_cell; exact Hc | keeps_step ]. }
  intros c. apply keeps_bind; [apply keeps_tensor_mul_cell; assumption | intros ?; apply keeps_ret].
Qed.

(** X6. On an enabled instance [scale] returns the structure of its
    argument (lists stay lists, tuples stay tuples), every tensor in it
    replaced by a newly allocated tensor, in the order they are met; the
    tensors that were there are left as they were, and so are the
    parameters, the record of optimizer calls and the log. Once the
    buffers exist, no attribute is rebound and no existing buffer is
    written. An iterable that is neither a list nor a tuple comes back at
    once as the unevaluated map over it, with nothing done; an object that
    is neither a tensor nor iterable is refused. *)
Theorem scale_result (w : world) (outs : outputs) :
  _enabled (scaler w) = true ->
  (forall r w', scale outs w = Return r w' ->
     r = fst (relabel outs (length (tensors w))) /\
     length (tensors w') = snd (relabel outs (length (tensors w))) /\
     (exists ext, tensors w' = tensors w ++ ext) /\
     params w' = params w /\ calls w' = calls w /\ log w' = log w /\
     (_scale (scaler w) <> None ->
      core w' = core w /\ exists ext, cells w' = cells w ++ ext)) /\
  (forall l, outs = OIter l -> scale outs w = Return (OLazy outs) w) /\
  (forall o, outs = OOther o ->
     scale outs w
     = Raise (ValueError "outputs must be a Tensor or an iterable of Tensors")).
Proof.
  intros He. split; [| split].
  - intros r w' H.
    assert (Hrel : r = fst (relabel outs (length (tensors w))) /\
                   length (tensors w') = snd (relabel outs (length (tensors w))) /\
                   exists ext, tensors w' = tensors w ++ ext).
    { revert H. unfold scale. cbn. rewrite He. cbn.
      destruct outs as [t|l|l|l|src|o].
      - intros H.
        apply bind_inv in H as (x & w1 & Hrd & H).
        pose proof (keeps_read_tensor tensors _ _ _ _ Hrd) as E1.
        apply bind_inv in H as (l0 & w2 & Hen & H).
        apply (keeps_ensure_scale tensors (t_device x)) in Hen; [| auto | auto].
        apply bind_inv in H as (c & w3 & Hto & H).
        assert (E3 : tensors w3 = tensors w2).
        { revert Hto. unfold cell_to. clear.
          assert (Hk : keeps tensors
                         (let* (d0, v) := read_float l0 in
                          if decide (d0 = t_device x) then ret l0
                          else alloc_cell (FloatCell (t_device x) v))) by keeps.
          apply Hk. }
        apply bind_inv in H as (y & w4 & Hmul & H).
        cbn in H. injection H as <- <-.
        apply tensor_mul_cell_allocates in Hmul as (-> & x0 & x' & _ & _ & Hts).
        cbn. rewrite Hts, length_app. cbn.
        rewrite E3, Hen, E1. repeat split; [lia | eauto].
      - intros H. apply bind_inv in H as ([r0 st] & w1 & Hap & H).
        cbn in H. injection H as <- <-. eapply apply_scale_relabel; eauto.
      - intros H. apply bind_inv in H as ([r0 st] & w1 & Hap & H).
        cbn in H. injection H as <- <-. eapply apply_scale_relabel; eauto.
      - intros H. apply bind_inv in H as ([r0 st] & w1 & Hap & H).
        cbn in H. injection H as <- <-. eapply apply_scale_relabel; eauto.
      - intros H. apply bind_inv in H as ([r0 st] & w1 & Hap & H).
        cbn in H. injection H as <- <-. eapply apply_scale_relabel; eauto.
      - intros H. apply bind_inv in H as ([r0 st] & w1 & Hap & H).
        cbn in H. injection H as <- <-. eapply apply_scale_relabel; eauto. }
    destruct Hrel as (Hr & Hlen & Hext).
    split; [exact Hr |]. split; [exact Hlen |]. split; [exact Hext |].
    split; [apply (keeps_scale params outs) in H; auto |].
    split; [apply (keeps_scale calls outs) in H; auto |].
    split; [apply (keeps_scale log outs) in H; auto |].
    intros Hsc.
    exact (stable_scale (core w) (cells w) outs Hsc w r w' (framed_refl w) H).
  - intros l ->. unfold scale. cbn. rewrite He. reflexivity.
  - intros o ->. unfold scale. cbn. rewrite He. reflexivity.
Qed.

Lemma scale_result_witness :
  scale (OList [OTensor 0; OTuple [OTensor 1]; OIter [OTensor 0]]) (materialized cpu_device)
  = Return (OList [OTensor 3; OTuple [OTensor 4]; OLazy (OIter [OTensor 0])])
      (after (scale (OList [OTensor 0; OTuple [OTensor 1]; OIter [OTensor 0]]))
             (materialized cpu_device)) /\
  length (tensors (after (scale (OList [OTensor 0; OTuple [OTensor 1]; OIter [OTensor 0]]))
                         (materialized cpu_device))) = 5.
Proof.
  assert (H : scale (OList [OTensor 0; OTuple [OTensor 1]; OIter [OTensor 0]])
                    (materialized cpu_device)
    = Return (OList [OTensor 3; OTuple [OTensor 4]; OLazy (OIter [OTensor 0])])
        (after (scale (OList [OTensor 0; OTuple [OTensor 1]; OIter [OTensor 0]]))
               (materialized cpu_device)))
    by (vm_compute; reflexivity).
  split; [exact H |].
  destruct (scale_result (materialized cpu_device)
              (OList [OTensor 0; OTuple [OTensor 1]; OIter [OTensor 0]]) eq_refl)
    as (Hret & _ & _).
  destruct (Hret _ _ H) as (_ & Hlen & _).
  rewrite Hlen. vm_compute. reflexivity.
Defined.

(** ** The scan on the CPU *)

Lemma scan_rows_prefix (f : Float.format) (inv : pyfloat) (rs : list (list spec_float)) :
  scan_rows f inv rs =
  (map (unscale_row f inv) (take (clean_prefix rs) rs) ++ drop (clean_prefix rs) rs,
   bool_decide (clean_prefix rs < length rs)).
Proof.
  induction rs as [|r rs IH]; cbn [scan_rows clean_prefix].
  - reflexivity.
  - unfold bad_row.
    destruct (existsb Float.isinf r || existsb Float.isnan r).
    + cbn [take drop map app length].
      rewrite bool_decide_eq_true_2 by lia. reflexivity.
    + rewrite IH. cbn [take drop map app length]. f_equal.
      destruct (decide (clean_prefix rs < length rs)) as [Hlt|Hge].
      * rewrite !bool_decide_eq_true_2 by lia. reflexivity.
      * rewrite !bool_decide_eq_false_2 by lia. reflexivity.
Qed.

(** X7. The scan used for gradients on the CPU works on the first tensor
    of the group it is given, slice by slice: the slices before the first
    one that holds an infinity or a NaN are multiplied by the reciprocal
    of the scale, that slice and the ones after it are left as they are,
    and the flag is set to 1 exactly when there is such a slice (it is
    never reset). The other tensors of the group, the parameters and the
    scaler are not touched. A first tensor without dimensions cannot be
    iterated and raises. *)
Theorem cpu_scan_effect (w : world) (g0 : nat) (rest : list nat)
    (found_inf inv_scale : nat) (t : tensor) (di df : device) (vi vf : spec_float) :
  cells w !! inv_scale = Some (FloatCell di vi) ->
  cells w !! found_inf = Some (FloatCell df vf) ->
  tensors w !! g0 = Some t ->
  (forall rs, t_data t = Rows rs ->
     let k := clean_prefix rs in
     let inv := Float.round Float.binary64 vi in
     exists w',
       _foreach_non_finite_check_and_unscale_cpu_ (g0 :: rest) found_inf inv_scale w
       = Return tt w' /\
       tensors w' =
         <[g0 := {| t_device := t_device t; t_dtype := t_dtype t;
                    t_data := Rows (map (unscale_row (dtype_format (t_dtype t)) inv)
                                        (take k rs) ++ drop k rs) |}]> (tensors w) /\
       cells w' =
         (if bool_decide (k < length rs)
          then <[found_inf := FloatCell cpu_device (Float.one Float.binary32)]> (cells w)
          else cells w) /\
       scaler w' = scaler w /\ params w' = params w) /\
  (forall x, t_data t = Scalar0 x ->
     _foreach_non_finite_check_and_unscale_cpu_ (g0 :: rest) found_inf inv_scale w
     = Raise (TypeError "iteration over a 0-d tensor")).
Proof.
  intros Hinv Hfi Ht. split.
  - intros rs Hrs k inv.
    unfold _foreach_non_finite_check_and_unscale_cpu_, read_float, read_cell, read_tensor.
    cbn. rewrite Hinv. cbn. rewrite Hfi. cbn. rewrite Ht. cbn. rewrite Hrs.
    rewrite scan_rows_prefix. fold k. fold inv.
    destruct (bool_decide (k < length rs)); cbn; eexists; repeat split.
  - intros x Hx.
    unfold _foreach_non_finite_check_and_unscale_cpu_, read_float, read_cell, read_tensor.
    cbn. rewrite Hinv. cbn. rewrite Hfi. cbn. rewrite Ht. cbn. rewrite Hx. reflexivity.
Qed.

Lemma cpu_scan_effect_witness :
  exists w',
    _foreach_non_finite_check_and_unscale_cpu_ [0; 1] 1 0
      (set_cells [FloatCell cpu_device (f32 1 (-1)); FloatCell cpu_device Float.zero]
         (boot [on_device cpu_device [[f32 2 0]; [Float.pinf]; [f32 4 0]];
                on_device cpu_device [[f32 2 0]]] [] []))
    = Return tt w' /\
    tensors w' = [on_device cpu_device [[f32 1 0]; [Float.pinf]; [f32 4 0]];
                  on_device cpu_device [[f32 2 0]]] /\
    cells w' = [FloatCell cpu_device (f32 1 (-1)); FloatCell cpu_device (f32 1 0)].
Proof.
  destruct (cpu_scan_effect
              (set_cells [FloatCell cpu_device (f32 1 (-1)); FloatCell cpu_device Float.zero]
                 (boot [on_device cpu_device [[f32 2 0]; [Float.pinf]; [f32 4 0]];
                        on_device cpu_device [[f32 2 0]]] [] []))
              0 [1] 1 0 (on_device cpu_device [[f32 2 0]; [Float.pinf]; [f32 4 0]])
              cpu_device cpu_device (f32 1 (-1)) Float.zero eq_refl eq_refl eq_refl)
    as [Hrows _].
  destruct (Hrows _ eq_refl) as (w' & Hrun & Hts & Hcs & _).
  exists w'. split; [exact Hrun |]. split.
  - rewrite Hts. vm_compute. reflexivity.
  - rewrite Hcs. vm_compute. reflexivity.
Defined.

(** ** What the operations never touch *)

Ltac keeps_deep :=
  repeat first
    [ keeps_step
    | progress lazy zeta
    | progress cbn beta
    | progress unfold unscale_, super_unscale_, _unscale_grads_, attr, reached_interval,
        _check_scale_growth_tracker, opt_state_of, set_stage,
        set_found_inf_per_device, set_opt_state, collect_param, coalesce,
        _foreach_non_finite_check_and_unscale_cpu_,
        _amp_foreach_non_finite_check_and_unscale_, all_reduce,
        call_optimizer_step, sum_items, _maybe_opt_step,
        gather_found_infs, combine_found_infs, scale_imul,
        _amp_update_scale_cpu_, _amp_update_scale_, update,
        get_scale, _get_growth_tracker, state_dict, item, float_item, int_item,
        load_state_dict, __getstate__, __setstate__, _check_inf_per_device,
        _found_inf_per_device ].

Lemma unscale_keeps_calls (o : Optimizer) : keeps calls (unscale_ o).
Proof. keeps_deep. Qed.

Lemma call_optimizer_step_logs (o : Optimizer) (args : list pyobj) (kw : kwargs)
    (w w' : world) (r : pyobj) :
  call_optimizer_step o args kw w = Return r w' ->
  r = step_result o args kw /\ w' = set_calls ((id o, args, kw) :: calls w) w.
Proof. unfold call_optimizer_step. cbn. intros [= <- <-]. auto. Qed.

(** X8. [optimizer.step] is invoked by [step] only, and at most once per
    call: [scale], [unscale_], [update], [load_state_dict] and
    [_check_inf_per_device] leave the record of invocations as it was, and
    a [step] that returns either made no invocation and returns None, or
    made exactly one, with the positional arguments it was given and the
    keyword arguments it was given (with [grad_scaler] added for an
    optimizer that handles the scale itself), and returns its result. *)
Theorem optimizer_called_by_step_only (w w' : world) :
  (forall outs r, scale outs w = Return r w' -> calls w' = calls w) /\
  (forall o, unscale_ o w = Return tt w' -> calls w' = calls w) /\
  (forall new_scale, update new_scale w = Return tt w' -> calls w' = calls w) /\
  (forall d, load_state_dict d w = Return tt w' -> calls w' = calls w) /\
  (forall o flags, _check_inf_per_device o w = Return flags w' -> calls w' = calls w) /\
  (forall o args kw r, step o args kw w = Return r w' ->
     (r = PyNone /\ calls w' = calls w) \/
     exists kw',
       (kw' = kw \/ kw' = dict_set "grad_scaler" PySelf kw) /\
       r = step_result o args kw' /\
       calls w' = (id o, args, kw') :: calls w).
Proof.
  split; [| split; [| split; [| split; [| split]]]].
  - intros outs r H. apply (keeps_scale calls outs) in H; auto.
  - intros o H. exact (unscale_keeps_calls o _ _ _ H).
  - intros ns. assert (Hk : keeps calls (update ns)) by keeps_deep. apply Hk.
  - intros d. assert (Hk : keeps calls (load_state_dict d)) by keeps_deep. apply Hk.
  - intros o flags. assert (Hk : keeps calls (_check_inf_per_device o)) by keeps_deep.
    apply Hk.
  - intros o args kw r H. unfold step in H.
    apply bind_inv in H as (s & w0 & Hs & H). cbn in Hs. injection Hs as <- <-.
    destruct (negb (_enabled (scaler w))).
    { apply call_optimizer_step_logs in H as [-> ->]. right. exists kw. auto. }
    destruct (has_key "closure" kw); [discriminate |].
    apply bind_inv in H as (lt & w1 & Hck & H).
    apply check_returns in Hck as (-> & _).
    apply bind_inv in H as (st & w2 & Hos & H).
    assert (E2 : calls w2 = calls w).
    { assert (Hk : keeps calls (opt_state_of (id o))) by keeps_deep. exact (Hk _ _ _ Hos). }
    destruct (bool_decide (stage st = STEPPED)); [discriminate |].
    assert (Hstage : keeps calls (set_stage (id o) STEPPED)) by keeps_deep.
    assert (Hplain :
      (x <- (if bool_decide (stage st = READY) then unscale_ o else ret tt) ;;
       optimizer_state <- opt_state_of (id o) ;;
       assert (0 <? length (found_inf_per_device optimizer_state))
              no_checks_for_optimizer_message ;;;
       retval <- _maybe_opt_step o optimizer_state args kw ;;
       set_stage (id o) STEPPED ;;; ret retval) w2 = Return r w' ->
      (r = PyNone /\ calls w' = calls w) \/
      exists kw', (kw' = kw \/ kw' = dict_set "grad_scaler" PySelf kw) /\
                  r = step_result o args kw' /\ calls w' = (id o, args, kw') :: calls w).
    { clear H. intros H.
      apply bind_inv in H as (u & w3 & Hun & H).
      assert (E3 : calls w3 = calls w2).
      { destruct (bool_decide (stage st = READY)).
        - exact (unscale_keeps_calls o _ _ _ Hun).
        - cbn in Hun. injection Hun as _ <-. reflexivity. }
      apply bind_inv in H as (st' & w4 & Hos' & H).
      assert (E4 : calls w4 = calls w3).
      { assert (Hk : keeps calls (opt_state_of (id o))) by keeps_deep. exact (Hk _ _ _ Hos'). }
      apply bind_inv in H as (u1 & w5 & Has & H).
      assert (E5 : calls w5 = calls w4).
      { assert (Hk : keeps calls (assert (0 <? length (found_inf_per_device st'))
                                         no_checks_for_optimizer_message)) by keeps_deep.
        exact (Hk _ _ _ Has). }
      apply bind_inv in H as (retval & w6 & Hmaybe & H).
      apply bind_inv in H as (u2 & w7 & Hst & H). cbn in H. injection H as <- <-.
      apply Hstage in Hst.
      unfold _maybe_opt_step in Hmaybe.
      apply bind_inv in Hmaybe as (total & w8 & Hsum & Hmaybe).
      assert (E8 : calls w8 = calls w5).
      { assert (Hk : keeps calls (sum_items (dict_values (found_inf_per_device st'))))
          by keeps_deep.
        exact (Hk _ _ _ Hsum). }
      destruct (negb (Float.truthy total)).
      - apply call_optimizer_step_logs in Hmaybe as [-> ->]. right. exists kw.
        split; [auto |]. split; [reflexivity |].
        rewrite Hst. cbn. congruence.
      - cbn in Hmaybe. injection Hmaybe as <- <-. left. split; [reflexivity |]. congruence. }
    destruct (_step_supports_amp_scaling o) as [[|]|]; [| exact (Hplain H) ..].
    apply bind_inv in H as (retval & w3 & Hcall & H).
    apply bind_inv in H as (u & w4 & Hst & H). cbn in H. injection H as <- <-.
    apply call_optimizer_step_logs in Hcall as [-> ->].
    apply Hstage in Hst. right. exists (dict_set "grad_scaler" PySelf kw).
    split; [auto |]. split; [reflexivity |]. rewrite Hst. cbn. congruence.
Qed.

Lemma unscale_log (o : Optimizer) (w w' : world) :
  unscale_ o w = Return tt w' ->
  display_warning (scaler w') = false /\
  log w' = (if display_warning (scaler w) && negb (is_OSS o)
            then not_sharded_warning :: log w else log w).
Proof.
  intros H. unfold unscale_ in H.
  apply bind_inv in H as (u0 & w0 & Ha & H). apply attr_inv in Ha as [-> _].
  apply bind_inv in H as (s & w0 & Hs & H). cbn in Hs. injection Hs as <- <-.
  apply bind_inv in H as (u1 & w1 & Hlog & H).
  apply bind_inv in H as (u2 & w2 & Hdw & H).
  cbn in Hdw. injection Hdw as _ <-.
  assert (Hrest : forall X (f : world -> X),
            (forall w cs, f (set_cells cs w) = f w) ->
            (forall w ts, f (set_tensors ts w) = f w) ->
            (forall w ps, f (set_params ps w) = f w) ->
            (forall w p, f (set_peers p w) = f w) ->
            (forall w st, f (set_scaler (set_per_optimizer_states st (scaler w)) w) = f w) ->
            f w' = f (set_scaler (set_display_warning false (scaler w1)) w1)).
  { intros X f Hc Ht Hp Hpe Hst. revert H.
    generalize (set_scaler (set_display_warning false (scaler w1)) w1). intros w2 H.
    assert (Hk : keeps f
      (super_unscale_ o ;;;
       attr "_per_optimizer_states" ;;;
       optimizer_state <- opt_state_of (id o) ;;
       for_each (dict_values (found_inf_per_device optimizer_state)) tt (fun v _ =>
         let* (d, x) := read_float v in
         if bool_decide (dev_type d = cpu) then
           v_on_cuda <- alloc_cell (FloatCell current_cuda_device x) ;;
           all_reduce v_on_cuda ;;;
           let* (_, y) := read_float v_on_cuda in
           _ <- alloc_cell (FloatCell cpu_device y) ;;
           ret tt
         else all_reduce v))).
    { repeat first
        [ apply keeps_alloc_cell; exact Hc
        | apply keeps_alloc_tensor; exact Ht
        | apply keeps_modify; intros ?;
            first [ apply Hc | apply Ht | apply Hp | apply Hpe | apply Hst
                  | rewrite Hc; apply Hpe | rewrite Hst; reflexivity ]
        | keeps_step
        | progress lazy zeta
        | progress cbn beta
        | progress unfold super_unscale_, _unscale_grads_, attr,
            _check_scale_growth_tracker, opt_state_of, set_stage,
            set_found_inf_per_device, set_opt_state, collect_param, coalesce,
            _foreach_non_finite_check_and_unscale_cpu_,
            _amp_foreach_non_finite_check_and_unscale_, all_reduce ]. }
    exact (Hk _ _ _ H). }
  split.
  - rewrite (Hrest _ (fun w => display_warning (scaler w))); auto.
  - rewrite (Hrest _ log); auto. cbn.
    destruct (display_warning (scaler w) && negb (is_OSS o)).
    + cbn in Hlog. injection Hlog as _ <-. reflexivity.
    + cbn in Hlog. injection Hlog as _ <-. reflexivity.
Qed.

(** X9. The warning about an optimizer that is not sharded is given at
    most once per instance: an [unscale_] that returns has logged it only
    if no earlier call had been made and the optimizer is not an OSS, it
    logs nothing else, and it leaves [display_warning] false, so that no
    later [unscale_] logs anything, whatever its optimizer. *)
Theorem unscale_warns_once (o : Optimizer) (w w' : world) :
  unscale_ o w = Return tt w' ->
  display_warning (scaler w') = false /\
  log w' = (if display_warning (scaler w) && negb (is_OSS o)
            then not_sharded_warning :: log w else log w) /\
  (forall o' w'', unscale_ o' w' = Return tt w'' -> log w'' = log w').
Proof.
  intros H. destruct (unscale_log o w w' H) as [Hdw Hlog].
  split; [exact Hdw |]. split; [exact Hlog |].
  intros o' w'' H'. destruct (unscale_log o' w' w'' H') as [_ Hlog'].
  rewrite Hlog', Hdw. reflexivity.
Qed.

Lemma unscale_warns_once_witness :
  unscale_ (torch_optimizer 7 [[0]]) (materialized cpu_device)
  = Return tt (after (unscale_ (torch_optimizer 7 [[0]])) (materialized cpu_device)) /\
  display_warning (scaler (after (unscale_ (torch_optimizer 7 [[0]]))
                                 (materialized cpu_device))) = false /\
  log (after (unscale_ (torch_optimizer 7 [[0]])) (materialized cpu_device))
  = [not_sharded_warning].
Proof.
  assert (H : unscale_ (torch_optimizer 7 [[0]]) (materialized cpu_device)
    = Return tt (after (unscale_ (torch_optimizer 7 [[0]])) (materialized cpu_device)))
    by (vm_compute; reflexivity).
  split; [exact H |].
  destruct (unscale_warns_once _ _ _ H) as (Hdw & Hlog & _).
  split; [exact Hdw |]. rewrite Hlog. vm_compute. reflexivity.
Defined.

(** X10. An [update] that returns on an enabled instance works on the
    scaler and its buffers only: the gradients, the parameters, the record
    of optimizer calls, the log and the pending reductions are as before,
    and so are the enabled switch, the binding of the scale buffer, both
    factors and the interval; the per-optimizer map is empty afterwards.
    Without a new scale it prints one line, "using cpu" or "using gpu"
    after the device of the scale buffer; with a new scale it prints
    nothing. *)
Theorem update_effects (w w' : world) (new_scale : new_scale_arg) :
  _enabled (scaler w) = true ->
  update new_scale w = Return tt w' ->
  tensors w' = tensors w /\ params w' = params w /\ calls w' = calls w /\
  log w' = log w /\ peers w' = peers w /\
  settings w' = settings w /\
  _per_optimizer_states (scaler w') = [] /\
  exists d, scale_device w = Some d /\
    stdout w' = match new_scale with
                | NewScaleNone => update_line d :: stdout w
                | _ => stdout w
                end.
Proof.
  intros He H.
  assert (K1 : keeps tensors (update new_scale)) by keeps_deep.
  assert (K2 : keeps params (update new_scale)) by keeps_deep.
  assert (K3 : keeps calls (update new_scale)) by keeps_deep.
  assert (K4 : keeps log (update new_scale)) by keeps_deep.
  assert (K5 : keeps peers (update new_scale)) by keeps_deep.
  assert (K6 : keeps settings (update new_scale)) by keeps_deep.
  split; [exact (K1 _ _ _ H) |]. split; [exact (K2 _ _ _ H) |].
  split; [exact (K3 _ _ _ H) |]. split; [exact (K4 _ _ _ H) |].
  split; [exact (K5 _ _ _ H) |]. split; [exact (K6 _ _ _ H) |].
  clear K1 K2 K3 K4 K5 K6.
  unfold update in H. cbn in H. rewrite He in H. cbn in H.
  apply bind_inv in H as ([l tr] & w1 & Hck & H).
  apply check_returns in Hck as (-> & Hsc & _). cbn in Hsc.
  cbn beta iota in H.
  apply bind_inv in H as ([dev v] & w1 & Hrd & H).
  unfold read_float, read_cell in Hrd. cbn in Hrd.
  destruct (cells w !! l) as [[d0 v0|d0 v0]|] eqn:Hl; cbn in Hrd; try discriminate.
  injection Hrd as <- <- <-.
  cbn beta iota in H.
  apply bind_inv in H as (u & w2 & Hbody & H).
  cbn in H. injection H as <-. cbn.
  split; [reflexivity |].
  exists d0. split; [unfold scale_device; rewrite Hsc, Hl; reflexivity |].
  destruct new_scale as [|x|t rg|o].
  - apply bind_inv in Hbody as (found & w3 & Hg & Hbody).
    assert (E3 : stdout w3 = stdout w).
    { assert (Hk : keeps stdout (gather_found_infs d0)) by keeps_deep. exact (Hk _ _ _ Hg). }
    destruct found as [|c rest]; [discriminate |].
    apply bind_inv in Hbody as (u1 & w4 & Hc & Hbody).
    assert (E4 : stdout w4 = stdout w3).
    { assert (Hk : keeps stdout (combine_found_infs c rest)) by keeps_deep.
      exact (Hk _ _ _ Hc). }
    unfold update_line.
    destruct (bool_decide (dev_type d0 = cpu)).
    + apply bind_inv in Hbody as (u2 & w5 & Hp & Hbody).
      cbn in Hp. injection Hp as _ <-.
      assert (Hk : keeps stdout (_amp_update_scale_cpu_ c)) by keeps_deep.
      rewrite (Hk _ _ _ Hbody). cbn. congruence.
    + apply bind_inv in Hbody as (u2 & w5 & Hp & Hbody).
      cbn in Hp. injection Hp as _ <-.
      apply bind_inv in Hbody as (s5 & w6 & Hs & Hbody).
      cbn in Hs. injection Hs as <- <-.
      assert (Hk : forall tr gf bf gi,
                keeps stdout (_amp_update_scale_ l tr c gf bf gi)) by (intros; keeps_deep).
      rewrite (Hk _ _ _ _ _ _ _ Hbody). cbn. congruence.
  - assert (Hk : keeps stdout (v <- to_float32 x ;; write_cell l (FloatCell d0 v)))
      by keeps_deep.
    exact (Hk _ _ _ Hbody).
  - assert (Hk : keeps stdout
        (x <- read_tensor t ;;
         assert (bool_decide (dev_type (t_device x) = cuda)
                 && bool_decide (t_dtype x = float32)) new_scale_reason ;;;
         assert (numel (t_data x) =? 1) new_scale_reason ;;;
         assert (negb rg) new_scale_reason ;;;
         write_cell l
           (FloatCell d0 (default Float.zero (head (tdata_elems (t_data x)))))))
      by keeps_deep.
    exact (Hk _ _ _ Hbody).
  - discriminate.
Qed.

Lemma update_effects_witness :
  update NewScaleNone (stepped current_cuda_device)
  = Return tt (after (update NewScaleNone) (stepped current_cuda_device)) /\
  stdout (after (update NewScaleNone) (stepped current_cuda_device)) = ["using gpu"] /\
  tensors (after (update NewScaleNone) (stepped current_cuda_device))
  = tensors (stepped current_cuda_device).
Proof.
  assert (H : update NewScaleNone (stepped current_cuda_device)
    = Return tt (after (update NewScaleNone) (stepped current_cuda_device)))
    by (vm_compute; reflexivity).
  split; [exact H |].
  destruct (update_effects (stepped current_cuda_device) _ NewScaleNone eq_refl H) as (Hts & _ & _ & _ & _ & _ & _ & d & Hd & Hout).
  split; [| exact Hts].
  rewrite Hout. vm_compute in Hd. injection Hd as <-. vm_compute. reflexivity.
Defined.

(** ** [step] *)

Lemma set_stage_result (k : nat) (v : OptState) (st : opt_state) (w w' : world) :
  dict_get k (_per_optimizer_states (scaler w)) = Some st ->
  set_stage k v w = Return tt w' ->
  w' = set_scaler
         (set_per_optimizer_states
            (dict_set k {| stage := v; found_inf_per_device := found_inf_per_device st |}
                      (_per_optimizer_states (scaler w)))
            (scaler w)) w.
Proof.
  intros Hget. unfold set_stage, set_opt_state, opt_state_of. cbn. rewrite Hget. cbn.
  intros [= <-]. reflexivity.
Qed.

(** X11. A [step] for an optimizer that has been unscaled explicitly in
    this iteration does not unscale again: the gradients, the parameters
    and every buffer are as they were, nothing is reduced or logged; the
    optimizer goes to STEPPED and keeps its recorded flags. *)
Theorem step_after_unscale (w w' : world) (optimizer : Optimizer)
    (args : list pyobj) (kw : kwargs) (r : pyobj) (st : opt_state) :
  _enabled (scaler w) = true ->
  _step_supports_amp_scaling optimizer <> Some true ->
  dict_get (id optimizer) (_per_optimizer_states (scaler w)) = Some st ->
  stage st = UNSCALED ->
  step optimizer args kw w = Return r w' ->
  tensors w' = tensors w /\ params w' = params w /\ cells w' = cells w /\
  peers w' = peers w /\ log w' = log w /\
  dict_get (id optimizer) (_per_optimizer_states (scaler w'))
  = Some {| stage := STEPPED; found_inf_per_device := found_inf_per_device st |}.
Proof.
  intros He Hamp Hget Hst H. unfold step in H. cbn in H. rewrite He in H. cbn in H.
  destruct (has_key "closure" kw); [discriminate |].
  apply bind_inv in H as (lt & w1 & Hck & H).
  apply check_returns in Hck as (-> & _).
  unfold opt_state_of at 1 in H. cbn in H. rewrite Hget in H. cbn in H.
  rewrite Hst in H.
  rewrite (bool_decide_eq_false_2 (UNSCALED = STEPPED)) in H by discriminate.
  rewrite (bool_decide_eq_false_2 (UNSCALED = READY)) in H by discriminate.
  assert (Hplain :
    (optimizer_state <- opt_state_of (id optimizer) ;;
     assert (0 <? length (found_inf_per_device optimizer_state))
            no_checks_for_optimizer_message ;;;
     retval <- _maybe_opt_step optimizer optimizer_state args kw ;;
     set_stage (id optimizer) STEPPED ;;; ret retval) w = Return r w').
  { destruct (_step_supports_amp_scaling optimizer) as [[|]|];
      [congruence | exact H | exact H]. }
  clear H.
  apply bind_inv in Hplain as (st' & w2 & Hos & H).
  unfold opt_state_of in Hos. cbn in Hos. rewrite Hget in Hos. cbn in Hos.
  injection Hos as <- <-.
  apply bind_inv in H as (u & w3 & Has & H).
  assert (E3 : w3 = w).
  { unfold assert in Has. destruct (0 <? length (found_inf_per_device st)); [|discriminate].
    cbn in Has. injection Has as _ <-. reflexivity. }
  subst w3.
  apply bind_inv in H as (retval & w4 & Hm & H).
  apply bind_inv in H as (u2 & w5 & Hss & H). cbn in H. injection H as <- <-.
  assert (K : forall X (f : world -> X),
            (forall w c, f (set_calls c w) = f w) -> f w4 = f w).
  { intros X f Hc.
    assert (Hk : keeps f (_maybe_opt_step optimizer st args kw)).
    { unfold _maybe_opt_step, sum_items, call_optimizer_step.
      repeat first [ apply keeps_modify; intros ?; apply Hc | keeps_step ]. }
    exact (Hk _ _ _ Hm). }
  assert (Hget4 : dict_get (id optimizer) (_per_optimizer_states (scaler w4)) = Some st).
  { rewrite (K _ (fun w => dict_get (id optimizer) (_per_optimizer_states (scaler w))));
      auto. }
  destruct u2. rewrite (set_stage_result _ _ _ _ _ Hget4 Hss). cbn.
  rewrite dict_get_set_eq.
  repeat split; apply K; auto.
Qed.

Lemma step_after_unscale_witness :
  step (plain_optimizer 7 [[0]]) [] []
       (after (unscale_ (plain_optimizer 7 [[0]])) (materialized cpu_device))
  = Return (PyObj 7)
      (after (step (plain_optimizer 7 [[0]]) [] [])
             (after (unscale_ (plain_optimizer 7 [[0]])) (materialized cpu_device))) /\
  tensors (after (step (plain_optimizer 7 [[0]]) [] [])
             (after (unscale_ (plain_optimizer 7 [[0]])) (materialized cpu_device)))
  = tensors (after (unscale_ (plain_optimizer 7 [[0]])) (materialized cpu_device)).
Proof.
  assert (H : step (plain_optimizer 7 [[0]]) [] []
       (after (unscale_ (plain_optimizer 7 [[0]])) (materialized cpu_device))
    = Return (PyObj 7)
      (after (step (plain_optimizer 7 [[0]]) [] [])
             (after (unscale_ (plain_optimizer 7 [[0]])) (materialized cpu_device))))
    by (vm_compute; reflexivity).
  split; [exact H |].
  assert (Hamp : _step_supports_amp_scaling (plain_optimizer 7 [[0]]) <> Some true)
    by discriminate.
  exact (proj1 (step_after_unscale
                  (after (unscale_ (plain_optimizer 7 [[0]])) (materialized cpu_device))
                  _ (plain_optimizer 7 [[0]]) [] [] (PyObj 7)
                  {| stage := UNSCALED; found_inf_per_device := [(cpu_device, 4)] |}
                  eq_refl Hamp eq_refl eq_refl H)).
Defined.





(** ** The growth tracker as a Python integer *)

Lemma five_entries_items (sc gf bf : pyfloat) (gi gt : Z) :
  dict_get "scale" (five_entries sc gf bf gi gt) = Some (PyFloat sc) /\
  dict_get "growth_factor" (five_entries sc gf bf gi gt) = Some (PyFloat gf) /\
  dict_get "backoff_factor" (five_entries sc gf bf gi gt) = Some (PyFloat bf) /\
  dict_get "growth_interval" (five_entries sc gf bf gi gt) = Some (PyInt gi) /\
  dict_get "_growth_tracker" (five_entries sc gf bf gi gt) = Some (PyInt gt).
Proof. repeat split; vm_compute; reflexivity. Qed.

Lemma keeps_read_float_scaler (l : nat) (w w' : world) (a : device * spec_float) :
  read_float l w = Return a w' -> scaler w' = scaler w.
Proof.
  assert (Hk : keeps (fun w => scaler w) (read_float l)) by keeps. apply Hk.
Qed.

(** X13. Once [_growth_tracker] is bound to a plain integer (which the
    update on the CPU does), it stays one: every later [update()] that
    returns leaves it bound to an integer, 0 or the count plus one. In
    that state [_get_growth_tracker] raises, and with it [state_dict],
    [__getstate__] at an iteration boundary, and [load_state_dict] of a
    well-formed blob. *)
Theorem tracker_as_integer (w : world) (z : Z) :
  _enabled (scaler w) = true ->
  _growth_tracker (scaler w) = TrackerInt z ->
  _get_growth_tracker w = Raise (AttributeError "'int' object has no attribute 'item'") /\
  (forall v, scale_value w = Some v ->
     state_dict w = Raise (AttributeError "'int' object has no attribute 'item'")) /\
  (forall v, scale_value w = Some v -> _per_optimizer_states (scaler w) = [] ->
     __getstate__ w = Raise (AttributeError "'int' object has no attribute 'item'")) /\
  (forall v sc gf bf gi gt, scale_value w = Some v ->
     overflows_float32 sc = false ->
     load_state_dict (five_entries sc gf bf gi gt) w
     = Raise (AttributeError "'int' object has no attribute 'fill_'")) /\
  (forall w', update NewScaleNone w = Return tt w' ->
     exists z', _growth_tracker (scaler w') = TrackerInt z' /\ (z' = 0 \/ z' = z + 1)%Z).
Proof.
  intros He Htr.
  assert (Hgt : _get_growth_tracker w
                = Raise (AttributeError "'int' object has no attribute 'item'")).
  { unfold _get_growth_tracker. cbn. rewrite He, Htr. reflexivity. }
  assert (Hgs : forall v, scale_value w = Some v ->
                  get_scale w = Return (Float.round Float.binary64 v) w).
  { intros v Hv. unfold scale_value in Hv. unfold get_scale. cbn. rewrite He.
    destruct (_scale (scaler w)) as [l|]; [|discriminate].
    unfold read_float, read_cell. cbn.
    destruct (cells w !! l) as [[d0 v0|d0 v0]|]; try discriminate.
    injection Hv as ->. reflexivity. }
  split; [exact Hgt |]. split; [| split; [| split]].
  - intros v Hv. unfold state_dict. cbn. rewrite He. cbn.
    rewrite (Hgs v Hv). cbn. rewrite Hgt. reflexivity.
  - intros v Hv Hst. unfold __getstate__. cbn. rewrite He, Hst. cbn.
    rewrite (Hgs v Hv). cbn. rewrite Hgt. reflexivity.
  - intros v sc gf bf gi gt Hv Hfit. unfold scale_value in Hv.
    destruct (five_entries_items sc gf bf gi gt) as (I1 & I2 & I3 & I4 & I5).
    unfold load_state_dict, float_item, int_item, item.
    rewrite I1, I2, I3, I4, I5. cbn. rewrite He. cbn.
    destruct (_scale (scaler w)) as [l|]; [|discriminate].
    unfold read_float, read_cell. cbn.
    destruct (cells w !! l) as [[d0 v0|d0 v0]|]; try discriminate.
    cbn. unfold to_float32. rewrite Hfit. cbn. rewrite Htr. reflexivity.
  - intros w' H. unfold update in H. cbn in H. rewrite He in H. cbn in H.
    apply bind_inv in H as ([l tr] & w1 & Hck & H).
    apply check_returns in Hck as (-> & _). cbn beta iota in H.
    apply bind_inv in H as ([dev v] & w1 & Hrd & H).
    assert (Hk0 : keeps (fun w => scaler w) (read_float l)) by keeps.
    pose proof (Hk0 _ _ _ Hrd) as E1. cbn beta in E1.
    cbn beta iota in H.
    apply bind_inv in H as (u & w2 & Hbody & H). destruct u.
    cbn in H. injection H as <-. cbn.
    apply bind_inv in Hbody as (found & w3 & Hg & Hbody).
    assert (Hk1 : keeps (fun w => scaler w) (gather_found_infs dev)) by keeps_deep.
    pose proof (Hk1 _ _ _ Hg) as E3. cbn beta in E3.
    destruct found as [|c rest]; [discriminate |].
    apply bind_inv in Hbody as (u1 & w4 & Hc & Hbody).
    assert (Hk2 : keeps (fun w => scaler w) (combine_found_infs c rest)) by keeps_deep.
    pose proof (Hk2 _ _ _ Hc) as E4. cbn beta in E4.
    assert (Htr4 : _growth_tracker (scaler w4) = TrackerInt z) by congruence.
    destruct (bool_decide (dev_type dev = cpu)).
    + apply bind_inv in Hbody as (u2 & w5 & Hp & Hbody).
      cbn in Hp. injection Hp as _ <-.
      unfold _amp_update_scale_cpu_ in Hbody.
      apply bind_inv in Hbody as ([dfi fi] & w6 & Hfi & Hbody).
      pose proof (keeps_read_float_scaler _ _ _ _ Hfi) as E6.
      cbn beta iota in Hbody.
      apply bind_inv in Hbody as (s6 & w7 & Hs & Hbody).
      cbn in Hs. injection Hs as <- <-.
      assert (Htr6 : _growth_tracker (scaler w6) = TrackerInt z) by (rewrite E6; exact Htr4).
      assert (Himul : forall factor wa wb,
                (scale_imul factor ;;; set_self (set_growth_tracker (TrackerInt 0))) wa
                = Return tt wb ->
                _growth_tracker (scaler wb) = TrackerInt 0).
      { intros factor wa wb Hi.
        apply bind_inv in Hi as (ui & wi & _ & Hi). cbn in Hi. injection Hi as <-.
        reflexivity. }
      destruct (Float.eqb fi Float.pinf || Float.eqb fi Float.ninf).
      * exists 0%Z. split; [| auto]. exact (Himul _ _ _ Hbody).
      * rewrite Htr6 in Hbody. cbn in Hbody.
        rewrite reached_interval_int in Hbody.
        destruct (z + 1 =? _growth_interval (scaler w6))%Z.
        -- exists 0%Z. split; [| auto]. exact (Himul _ _ _ Hbody).
        -- cbn in Hbody. injection Hbody as <-. exists (z + 1)%Z. auto.
    + apply bind_inv in Hbody as (u2 & w5 & Hp & Hbody).
      cbn in Hp. injection Hp as _ <-.
      apply bind_inv in Hbody as (s5 & w6 & Hs & Hbody).
      cbn in Hs. injection Hs as <- <-. cbn in Hbody.
      rewrite Htr4 in Hbody. discriminate.
Qed.

Lemma tracker_as_integer_witness :
  _growth_tracker (scaler (three_clean_iterations cpu_device)) = TrackerInt 0 /\
  _get_growth_tracker (three_clean_iterations cpu_device)
  = Raise (AttributeError "'int' object has no attribute 'item'") /\
  __getstate__ (three_clean_iterations cpu_device)
  = Raise (AttributeError "'int' object has no attribute 'item'").
Proof.
  assert (He : _enabled (scaler (three_clean_iterations cpu_device)) = true)
    by (vm_compute; reflexivity).
  assert (Htr : _growth_tracker (scaler (three_clean_iterations cpu_device)) = TrackerInt 0)
    by (vm_compute; reflexivity).
  assert (Hv : scale_value (three_clean_iterations cpu_device) = Some (f32 2048 0))
    by (vm_compute; reflexivity).
  assert (Hst : _per_optimizer_states (scaler (three_clean_iterations cpu_device)) = [])
    by (vm_compute; reflexivity).
  split; [exact Htr |].
  destruct (tracker_as_integer (three_clean_iterations cpu_device) 0 He Htr)
    as (H1 & _ & H3 & _).
  split; [exact H1 |]. exact (H3 _ Hv Hst).
Defined.

Lemma read_float_inv (a : nat) (w w' : world) (d : device) (x : spec_float) :
  read_float a w = Return (d, x) w' -> w' = w /\ cells w !! a = Some (FloatCell d x).
Proof.
  unfold read_float, read_cell. cbn.
  destruct (cells w !! a) as [[d0 v0|d0 v0]|]; cbn; try discriminate.
  intros [= <- <- <-]. auto.
Qed.

Lemma read_int_inv (a : nat) (w w' : world) (d : device) (x : Z) :
  read_int a w = Return (d, x) w' -> w' = w /\ cells w !! a = Some (IntCell d x).
Proof.
  unfold read_int, read_cell. cbn.
  destruct (cells w !! a) as [[d0 v0|d0 v0]|]; cbn; try discriminate.
  intros [= <- <- <-]. auto.
Qed.

(** Operations that write float buffers only leave an integer buffer as it
    is. *)
Lemma int_cell_kept_by_gather (t : nat) (d : device) (n : Z) (dev : device) :
  triple (fun w => cells w !! t = Some (IntCell d n)) (gather_found_infs dev)
         (fun _ w => cells w !! t = Some (IntCell d n)).
Proof.
  unfold gather_found_infs.
  eapply triple_bind with (Q := fun _ w => cells w !! t = Some (IntCell d n)).
  { intros w a w' HP [= _ <-]. exact HP. }
  intros s.
  apply (triple_for_each (fun _ w => cells w !! t = Some (IntCell d n))).
  intros st acc _.
  apply (triple_for_each (fun _ w => cells w !! t = Some (IntCell d n))).
  intros fi acc' _ w a w' HP H.
  apply bind_inv in H as (l & w1 & Hto & H). cbn in H. injection H as _ <-.
  unfold cell_to in Hto.
  apply bind_inv in Hto as ([d0 v0] & w2 & Hrd & Hto).
  apply read_float_inv in Hrd as [-> _]. cbn beta iota in Hto.
  destruct (decide (d0 = dev)).
  - cbn in Hto. injection Hto as _ <-. exact HP.
  - unfold alloc_cell in Hto. injection Hto as _ <-. cbn.
    apply lookup_app_l_Some. exact HP.
Qed.

Lemma int_cell_kept_by_combine (t : nat) (d : device) (n : Z) (c : nat) (rest : list nat) :
  triple (fun w => cells w !! t = Some (IntCell d n)) (combine_found_infs c rest)
         (fun _ w => cells w !! t = Some (IntCell d n)).
Proof.
  unfold combine_found_infs.
  apply (triple_for_each (fun _ w => cells w !! t = Some (IntCell d n))).
  intros fi u _ w a w' HP H.
  apply bind_inv in H as ([d0 x] & w1 & Hrd & H).
  apply read_float_inv in Hrd as [-> Hc]. cbn beta iota in H.
  apply bind_inv in H as ([d1 y] & w2 & Hrd & H).
  apply read_float_inv in Hrd as [-> _]. cbn beta iota in H.
  unfold write_cell in H. cbn in H. injection H as _ <-. cbn.
  rewrite list_lookup_insert_ne by congruence. exact HP.
Qed.

Lemma int_cell_kept_by_imul (t : nat) (d : device) (n : Z) (factor : pyfloat) :
  triple (fun w => cells w !! t = Some (IntCell d n)) (scale_imul factor)
         (fun _ w => cells w !! t = Some (IntCell d n)).
Proof.
  intros w a w' HP H. unfold scale_imul in H. cbn in H.
  destruct (_scale (scaler w)) as [l|]; [|discriminate].
  apply bind_inv in H as ([d0 x] & w1 & Hrd & H).
  apply read_float_inv in Hrd as [-> Hl]. cbn beta iota in H.
  unfold write_cell in H. cbn in H. injection H as _ <-. cbn.
  rewrite list_lookup_insert_ne by congruence. exact HP.
Qed.

(** X14. An [update()] on the CPU never writes the growth-tracker buffer:
    the buffer [_growth_tracker] referred to keeps the count it held, and
    the attribute is rebound, to the integer 0 when the scale was changed,
    otherwise to a new buffer holding the count plus one. *)
Theorem cpu_update_rebinds_tracker (w w' : world) (t : nat) (d dev : device) (n : Z) :
  _enabled (scaler w) = true ->
  scale_device w = Some dev -> dev_type dev = cpu ->
  _growth_tracker (scaler w) = TrackerTensor t ->
  cells w !! t = Some (IntCell d n) ->
  update NewScaleNone w = Return tt w' ->
  cells w' !! t = Some (IntCell d n) /\
  (_growth_tracker (scaler w') = TrackerInt 0 \/
   exists t', _growth_tracker (scaler w') = TrackerTensor t' /\ t' <> t /\
              length (cells w) <= t' /\
              cells w' !! t' = Some (IntCell d (wrap32 (n + 1)))).
Proof.
  intros He Hdev Hcpu Htr Ht H.
  unfold update in H. cbn in H. rewrite He in H. cbn in H.
  apply bind_inv in H as ([l tr] & w1 & Hck & H).
  apply check_returns in Hck as (-> & Hsc & _). cbn in Hsc. cbn beta iota in H.
  apply bind_inv in H as ([dev0 v] & w1 & Hrd & H).
  apply read_float_inv in Hrd as [-> Hl]. cbn beta iota in H.
  assert (dev0 = dev) as ->.
  { unfold scale_device in Hdev. rewrite Hsc, Hl in Hdev. cbn in Hdev. congruence. }
  apply bind_inv in H as (u & w2 & Hbody & H). destruct u.
  cbn in H. injection H as <-. cbn.
  apply bind_inv in Hbody as (found & w3 & Hg & Hbody).
  pose proof (int_cell_kept_by_gather t d n dev _ _ _ Ht Hg) as Ht3. cbn beta in Ht3.
  assert (Hs3 : scaler w3 = scaler w).
  { assert (Hk : keeps (fun w => scaler w) (gather_found_infs dev)) by keeps_deep.
    exact (Hk _ _ _ Hg). }
  assert (Hlen3 : length (cells w) <= length (cells w3)).
  { assert (Hf : framed (core w) (cells w) w3).
    { assert (Hst : stable_at (core w) (cells w) (gather_found_infs dev)).
      { unfold gather_found_infs.
        apply stable_bind; [apply stable_self | intros s].
        apply stable_for_each; intros st acc. apply stable_for_each; intros fi acc'.
        apply stable_bind; [apply stable_cell_to | intros ?; apply stable_ret]. }
      exact (Hst _ _ _ (framed_refl w) Hg). }
    destruct Hf as [_ [ext Hext]]. rewrite Hext, length_app. lia. }
  destruct found as [|c rest]; [discriminate |].
  apply bind_inv in Hbody as (u1 & w4 & Hc & Hbody).
  pose proof (int_cell_kept_by_combine t d n c rest _ _ _ Ht3 Hc) as Ht4. cbn beta in Ht4.
  assert (Hs4 : scaler w4 = scaler w3).
  { assert (Hk : keeps (fun w => scaler w) (combine_found_infs c rest)) by keeps_deep.
    exact (Hk _ _ _ Hc). }
  assert (Hlen4 : length (cells w4) = length (cells w3)).
  { assert (Hk : keeps (fun w => length (cells w)) (combine_found_infs c rest)).
    { unfold combine_found_infs.
      repeat first [ apply keeps_modify; intros ?; cbn; apply length_insert | keeps_step ]. }
    exact (Hk _ _ _ Hc). }
  rewrite bool_decide_eq_true_2 in Hbody by exact Hcpu.
  apply bind_inv in Hbody as (u2 & w5 & Hp & Hbody).
  cbn in Hp. injection Hp as _ <-.
  unfold _amp_update_scale_cpu_ in Hbody.
  apply bind_inv in Hbody as ([dfi fi] & w6 & Hfi & Hbody).
  apply read_float_inv in Hfi as [-> _]. cbn beta iota in Hbody.
  apply bind_inv in Hbody as (s6 & w7 & Hs & Hbody).
  cbn in Hs. injection Hs as <- <-. cbn in Hbody.
  assert (Himul : forall factor wa,
            cells wa !! t = Some (IntCell d n) ->
            (scale_imul factor ;;; set_self (set_growth_tracker (TrackerInt 0))) wa
            = Return tt w2 ->
            cells w2 !! t = Some (IntCell d n) /\
            _growth_tracker (scaler w2) = TrackerInt 0).
  { intros factor wa Hta Hi.
    apply bind_inv in Hi as (ui & wi & Him & Hi). cbn in Hi. injection Hi as <-.
    split; [| reflexivity]. cbn.
    exact (int_cell_kept_by_imul t d n factor _ _ _ Hta Him). }
  destruct (Float.eqb fi Float.pinf || Float.eqb fi Float.ninf).
  - apply Himul in Hbody as [Ht2 Htr2]; [auto | exact Ht4].
  - rewrite Hs4, Hs3, Htr in Hbody. cbn in Hbody.
    unfold read_int, read_cell in Hbody. cbn in Hbody. rewrite Ht4 in Hbody.
    cbn in Hbody.
    match type of Hbody with
    | context [reached_interval ?a ?b ?c] =>
        destruct (reached_interval a b c) as [e|reached wr] eqn:Hreach
    end; [discriminate |].
    apply reached_interval_inv in Hreach as ->.
    destruct reached.
    + apply Himul in Hbody as [Ht2 Htr2]; [auto |].
      cbn. apply lookup_app_l_Some. exact Ht4.
    + cbn in Hbody. injection Hbody as <-. cbn.
      split; [apply lookup_app_l_Some; exact Ht4 |].
      right. exists (length (cells w4)).
      assert (Hlt : t < length (cells w4)) by (eapply lookup_lt_Some; eauto).
      split; [reflexivity |]. split; [lia |]. split; [lia |].
      apply list_lookup_middle. reflexivity.
Qed.

Lemma cpu_update_rebinds_tracker_witness :
  update NewScaleNone (stepped cpu_device)
  = Return tt (after (update NewScaleNone) (stepped cpu_device)) /\
  _growth_tracker (scaler (stepped cpu_device)) = TrackerTensor 1 /\
  cells (after (update NewScaleNone) (stepped cpu_device)) !! 1
  = Some (IntCell cpu_device 0) /\
  tracker_value (after (update NewScaleNone) (stepped cpu_device)) = Some 1%Z.
Proof.
  assert (H : update NewScaleNone (stepped cpu_device)
              = Return tt (after (update NewScaleNone) (stepped cpu_device)))
    by (vm_compute; reflexivity).
  assert (He : _enabled (scaler (stepped cpu_device)) = true) by (vm_compute; reflexivity).
  assert (Hdev : scale_device (stepped cpu_device) = Some cpu_device)
    by (vm_compute; reflexivity).
  assert (Htr : _growth_tracker (scaler (stepped cpu_device)) = TrackerTensor 1)
    by (vm_compute; reflexivity).
  assert (Ht : cells (stepped cpu_device) !! 1 = Some (IntCell cpu_device 0))
    by (vm_compute; reflexivity).
  split; [exact H |]. split; [exact Htr |].
  destruct (cpu_update_rebinds_tracker _ _ 1 cpu_device cpu_device 0 He Hdev eq_refl Htr Ht H)
    as [Hkept _].
  split; [exact Hkept |]. vm_compute. reflexivity.
Defined.

(** ** The growth interval *)

(** Clean iterations count up from wherever the count stands, as long as
    it does not become equal to the interval (an interval within int32,
    which the comparison takes as it is). *)
Lemma clean_run_counts (N : nat) (w w' : world) (s0 : spec_float) (n0 : Z) :
  clean_run N w w' ->
  _enabled (scaler w) = true ->
  scale_value w = Some s0 ->
  tracker_value w = Some n0 ->
  (0 <= n0)%Z ->
  (- 2 ^ 31 <= _growth_interval (scaler w) < 2 ^ 31)%Z ->
  (n0 + Z.of_nat N < 2 ^ 31)%Z ->
  (n0 + Z.of_nat N < _growth_interval (scaler w) \/ _growth_interval (scaler w) <= n0)%Z ->
  scale_value w' = Some s0 /\
  tracker_value w' = Some (n0 + Z.of_nat N)%Z /\
  settings w' = settings w.
Proof.
  intros Hrun He Hs Ht Hn0 Hgi.
  induction Hrun as [w|n cs w w1 w2 w3 Hrun IH Hcalls Hclean Hup]; intros HN Hcase.
  - rewrite Z.add_0_r. auto.
  - destruct IH as (Hs1 & Ht1 & Hset1); try assumption; [lia | lia |].
    assert (He1 : _enabled (scaler w1) = true)
      by (rewrite (proj1 (settings_enabled _ _ Hset1)); exact He).
    destruct (performs_same_controller cs w1 w2 _ _ He1 Hs1 Ht1 Hcalls)
      as [(Hset2 & Hs2 & Ht2) _].
    assert (Hset12 : settings w2 = settings w) by congruence.
    destruct (settings_enabled _ _ Hset12) as (He2 & Hgi2 & Hgf2).
    destruct (clean_update_result w2 w3 s0 (n0 + Z.of_nat n)) as (Hset3 & _ & Hres);
      try congruence; [lia |].
    rewrite Hgi2 in Hres.
    destruct (n0 + Z.of_nat n + 1 =? _growth_interval (scaler w))%Z eqn:Heq; [lia |].
    destruct Hres as [Hs3 Ht3]. repeat split; try congruence.
    rewrite Ht3. f_equal. lia.
Qed.

(** The iteration in which the count reaches the interval. *)
Lemma clean_run_reaches (N : nat) (w w' : world) (s0 : spec_float) (n0 : Z) :
  clean_run N w w' ->
  _enabled (scaler w) = true ->
  scale_value w = Some s0 ->
  tracker_value w = Some n0 ->
  (0 <= n0 < _growth_interval (scaler w))%Z ->
  (_growth_interval (scaler w) < 2 ^ 31)%Z ->
  (n0 + Z.of_nat N = _growth_interval (scaler w))%Z ->
  scale_value w' = Some (grown_scale s0 (_growth_factor (scaler w))) /\
  tracker_value w' = Some 0%Z.
Proof.
  intros Hrun He Hs Ht Hn0 Hmax HN.
  destruct Hrun as [w|n cs w w1 w2 w3 Hrun Hcalls Hclean Hup]; [lia |].
  destruct (clean_run_counts n w w1 s0 n0 Hrun He Hs Ht) as (Hs1 & Ht1 & Hset1);
    [lia | lia | lia | lia |].
  assert (He1 : _enabled (scaler w1) = true)
    by (rewrite (proj1 (settings_enabled _ _ Hset1)); exact He).
  destruct (performs_same_controller cs w1 w2 _ _ He1 Hs1 Ht1 Hcalls)
    as [(Hset2 & Hs2 & Ht2) _].
  assert (Hset12 : settings w2 = settings w) by congruence.
  destruct (settings_enabled _ _ Hset12) as (He2 & Hgi2 & Hgf2).
  destruct (clean_update_result w2 w3 s0 (n0 + Z.of_nat n)) as (Hset3 & _ & Hres);
    try congruence; [lia | rewrite Hgi2; lia |].
  rewrite Hgi2, Hgf2 in Hres.
  destruct (n0 + Z.of_nat n + 1 =? _growth_interval (scaler w))%Z eqn:Heq; [| lia].
  exact Hres.
Qed.

Lemma clean_iteration_from (w : world) :
  perform (CallScale (OTensor 0)) w = Return tt (after (scale (OTensor 0)) w) ->
  perform (CallStep (plain_optimizer 7 [[0]]) [] []) (after (scale (OTensor 0)) w)
  = Return tt (after (forward_and_step (plain_optimizer 7 [[0]])) w) ->
  overflow_freeb (after (forward_and_step (plain_optimizer 7 [[0]])) w) = true ->
  update NewScaleNone (after (forward_and_step (plain_optimizer 7 [[0]])) w)
  = Return tt (after (update NewScaleNone)
                     (after (forward_and_step (plain_optimizer 7 [[0]])) w)) ->
  clean_run 1 w (after (update NewScaleNone)
                       (after (forward_and_step (plain_optimizer 7 [[0]])) w)).
Proof.
  intros Hscale Hstep Hfree Hup.
  apply (clean_run_S 0
           [CallScale (OTensor 0); CallStep (plain_optimizer 7 [[0]]) [] []]
           _ _ _ _ (clean_run_O w)
           (performs_cons _ _ _ _ _ Hscale
              (performs_cons _ _ _ _ _ Hstep (performs_nil _)))
           (overflow_freeb_sound _ Hfree) Hup).
Qed.

(** X15. With a growth interval that fits 32 bits, the scale grows only
    when the count of clean iterations becomes equal to it. From a count
    that is already at or past the interval (the interval was lowered, or
    a count was loaded), clean iterations keep counting and never change
    the scale. *)
Theorem no_growth_past_interval (N : nat) (w w' : world) (s0 : spec_float) (n0 : Z) :
  clean_run N w w' ->
  _enabled (scaler w) = true ->
  scale_value w = Some s0 ->
  tracker_value w = Some n0 ->
  (0 <= n0)%Z ->
  (- 2 ^ 31 <= _growth_interval (scaler w) <= n0)%Z ->
  (n0 + Z.of_nat N < 2 ^ 31)%Z ->
  scale_value w' = Some s0 /\
  tracker_value w' = Some (n0 + Z.of_nat N)%Z /\
  settings w' = settings w.
Proof.
  intros Hrun He Hs Ht Hn0 Hgi HN.
  apply (clean_run_counts N w w' s0 n0); auto; lia.
Qed.

Lemma no_growth_past_interval_witness :
  clean_run 1 (interval_reset cpu_device 1) (interval_reset_next cpu_device 1) /\
  tracker_value (interval_reset cpu_device 1) = Some 2%Z /\
  _growth_interval (scaler (interval_reset cpu_device 1)) = 1%Z /\
  scale_value (interval_reset_next cpu_device 1) = Some (f32 1024 0) /\
  tracker_value (interval_reset_next cpu_device 1) = Some 3%Z.
Proof.
  assert (Hrun : clean_run 1 (interval_reset cpu_device 1)
                             (interval_reset_next cpu_device 1)).
  { apply (clean_iteration_from (interval_reset cpu_device 1)).
    - vm_compute. reflexivity.
    - vm_compute. reflexivity.
    - vm_compute. reflexivity.
    - vm_compute. reflexivity. }
  assert (He : _enabled (scaler (interval_reset cpu_device 1)) = true)
    by (vm_compute; reflexivity).
  assert (Hs : scale_value (interval_reset cpu_device 1) = Some (f32 1024 0))
    by (vm_compute; reflexivity).
  assert (Ht : tracker_value (interval_reset cpu_device 1) = Some 2%Z)
    by (vm_compute; reflexivity).
  assert (Hgi : _growth_interval (scaler (interval_reset cpu_device 1)) = 1%Z)
    by (vm_compute; reflexivity).
  split; [exact Hrun |]. split; [exact Ht |]. split; [exact Hgi |].
  assert (Hle : (- 2 ^ 31 <= _growth_interval (scaler (interval_reset cpu_device 1)) <= 2)%Z)
    by (rewrite Hgi; lia).
  assert (Hlt : (2 + Z.of_nat 1 < 2 ^ 31)%Z) by (vm_compute; reflexivity).
  assert (H0 : (0 <= 2)%Z) by lia.
  destruct (no_growth_past_interval 1 _ _ (f32 1024 0) 2 Hrun He Hs Ht H0 Hle Hlt)
    as (Hs' & Ht' & _).
  split; [exact Hs' | exact Ht'].
Defined.

(** X16. [set_growth_interval] assigns the interval and leaves the count
    of clean iterations where it stands. With the count below the new
    interval, the iterations that follow keep the scale until the count
    reaches the new interval, and the one in which it does multiplies the
    scale by the growth factor and resets the count. *)
Theorem set_growth_interval_keeps_count (N : nat) (w0 w w' : world)
    (s0 : spec_float) (n0 g : Z) :
  _enabled (scaler w0) = true ->
  scale_value w0 = Some s0 ->
  tracker_value w0 = Some n0 ->
  (0 <= n0 < g)%Z -> (g < 2 ^ 31)%Z ->
  set_growth_interval g w0 = Return tt w ->
  clean_run N w w' ->
  get_growth_interval w = Return g w /\
  scale_value w = Some s0 /\ tracker_value w = Some n0 /\
  ((n0 + Z.of_nat N < g)%Z ->
     scale_value w' = Some s0 /\ tracker_value w' = Some (n0 + Z.of_nat N)%Z) /\
  ((n0 + Z.of_nat N = g)%Z ->
     scale_value w' = Some (grown_scale s0 (_growth_factor (scaler w0))) /\
     tracker_value w' = Some 0%Z).
Proof.
  intros He Hs Ht Hn0 Hg Hset Hrun.
  unfold set_growth_interval in Hset. cbn in Hset. injection Hset as <-.
  split.
  { unfold get_growth_interval. cbn.
    rewrite attr_enabled by (cbn; exact He). reflexivity. }
  split; [exact Hs |]. split; [exact Ht |]. split.
  - intros HN.
    destruct (clean_run_counts N _ w' s0 n0 Hrun He Hs Ht) as (Hs' & Ht' & _);
      cbn; auto; lia.
  - intros HN.
    apply (clean_run_reaches N _ w' s0 n0 Hrun He Hs Ht); cbn; lia.
Qed.

Lemma set_growth_interval_keeps_count_witness :
  set_growth_interval 5 (iterated current_cuda_device 2)
  = Return tt (interval_reset current_cuda_device 5) /\
  tracker_value (iterated current_cuda_device 2) = Some 2%Z /\
  _growth_interval (scaler (iterated current_cuda_device 2)) = 3%Z /\
  clean_run 1 (interval_reset current_cuda_device 5)
              (interval_reset_next current_cuda_device 5) /\
  scale_value (interval_reset_next current_cuda_device 5) = Some (f32 1024 0) /\
  tracker_value (interval_reset_next current_cuda_device 5) = Some 3%Z.
Proof.
  assert (Hset : set_growth_interval 5 (iterated current_cuda_device 2)
                 = Return tt (interval_reset current_cuda_device 5))
    by (vm_compute; reflexivity).
  assert (Hrun : clean_run 1 (interval_reset current_cuda_device 5)
                             (interval_reset_next current_cuda_device 5)).
  { apply (clean_iteration_from (interval_reset current_cuda_device 5)).
    - vm_compute. reflexivity.
    - vm_compute. reflexivity.
    - vm_compute. reflexivity.
    - vm_compute. reflexivity. }
  assert (He : _enabled (scaler (iterated current_cuda_device 2)) = true)
    by (vm_compute; reflexivity).
  assert (Hs : scale_value (iterated current_cuda_device 2) = Some (f32 1024 0))
    by (vm_compute; reflexivity).
  assert (Ht : tracker_value (iterated current_cuda_device 2) = Some 2%Z)
    by (vm_compute; reflexivity).
  assert (Hgi : _growth_interval (scaler (iterated current_cuda_device 2)) = 3%Z)
    by (vm_compute; reflexivity).
  split; [exact Hset |]. split; [exact Ht |]. split; [exact Hgi |]. split; [exact Hrun |].
  assert (Hn0 : (0 <= 2 < 5)%Z) by lia.
  assert (Hg : (5 < 2 ^ 31)%Z) by (vm_compute; reflexivity).
  destruct (set_growth_interval_keeps_count 1 _ _ _ (f32 1024 0) 2 5 He Hs Ht Hn0 Hg
              Hset Hrun) as (_ & _ & _ & Hbelow & _).
  apply Hbelow. vm_compute. reflexivity.
Defined.

(** ** The per-optimizer map *)

Lemma dict_set_missing {K V} `{EqDecision K} (k : K) (v : V) (d : list (K * V)) :
  dict_get k d = None -> dict_set k v d = d ++ [(k, v)].
Proof.
  induction d as [|[k' v'] d IH]; cbn; [reflexivity |].
  destruct (decide (k = k')); [discriminate |]. intros H. rewrite IH by exact H. reflexivity.
Qed.

(** X17. Asking [_found_inf_per_device] about an optimizer for which
    nothing is recorded answers with the empty mapping and, the map being
    a defaultdict, records a fresh entry (READY, no flags) for it; for a
    known optimizer it returns the recorded flags and changes nothing.
    Either way the map is not empty afterwards, so [__getstate__] refuses
    to pickle the instance. *)
Theorem found_inf_query_records_entry (w : world) (optimizer : Optimizer) :
  _enabled (scaler w) = true ->
  exists w',
    _found_inf_per_device optimizer w
    = Return (match dict_get (id optimizer) (_per_optimizer_states (scaler w)) with
              | Some st => found_inf_per_device st
              | None => []
              end) w' /\
    w' = (match dict_get (id optimizer) (_per_optimizer_states (scaler w)) with
          | Some _ => w
          | None =>
              set_scaler
                (set_per_optimizer_states
                   (_per_optimizer_states (scaler w)
                    ++ [(id optimizer, _refresh_per_optimizer_state)])
                   (scaler w)) w
          end) /\
    __getstate__ w' = Raise (AssertionError pickle_message).
Proof.
  intros He. unfold _found_inf_per_device, opt_state_of. cbn.
  rewrite (attr_enabled _ _ He). cbn.
  destruct (dict_get (id optimizer) (_per_optimizer_states (scaler w))) as [st|] eqn:Hget;
    cbn.
  - exists w. split; [reflexivity |]. split; [reflexivity |].
    unfold __getstate__. cbn. rewrite He.
    destruct (_per_optimizer_states (scaler w)); [discriminate Hget | reflexivity].
  - rewrite (dict_set_missing _ _ _ Hget).
    eexists. split; [reflexivity |]. split; [reflexivity |].
    unfold __getstate__. cbn. rewrite He, length_app. cbn.
    replace (length (_per_optimizer_states (scaler w)) + 1 =? 0) with false
      by (symmetry; apply Nat.eqb_neq; lia).
    reflexivity.
Qed.

Lemma found_inf_query_records_entry_witness :
  __getstate__ (materialized cpu_device)
  = Return (set_growth_tracker TrackerNone
              (set_scale None (scaler (materialized cpu_device))))
           (materialized cpu_device) /\
  exists w',
    _found_inf_per_device (plain_optimizer 7 [[0]]) (materialized cpu_device)
    = Return [] w' /\
    __getstate__ w' = Raise (AssertionError pickle_message).
Proof.
  split; [vm_compute; reflexivity |].
  destruct (found_inf_query_records_entry (materialized cpu_device)
              (plain_optimizer 7 [[0]]) eq_refl) as (w' & Hq & _ & Hp).
  exists w'. split; [exact Hq | exact Hp].
Defined.

Lemma set_opt_state_lookup (k : nat) (f : opt_state -> opt_state) (w w' : world) (u : unit) :
  set_opt_state k f w = Return u w' ->
  dict_get k (_per_optimizer_states (scaler w'))
  = Some (f (match dict_get k (_per_optimizer_states (scaler w)) with
             | Some st => st
             | None => _refresh_per_optimizer_state
             end)).
Proof.
  unfold set_opt_state, opt_state_of. cbn.
  destruct (dict_get k (_per_optimizer_states (scaler w))) as [st|] eqn:Hget; cbn;
    rewrite ?dict_get_set_eq; cbn; intros H; injection H; intros; subst; cbn;
    apply dict_get_set_eq.
Qed.

Lemma set_opt_state_has_attr (name : string) (k : nat) (f : opt_state -> opt_state)
    (w w' : world) (u : unit) :
  set_opt_state k f w = Return u w' ->
  has_attr name (scaler w) = has_attr name (scaler w').
Proof.
  unfold set_opt_state, opt_state_of. cbn.
  destruct (dict_get k (_per_optimizer_states (scaler w))); cbn;
    intros H; injection H as H; subst w'; reflexivity.
Qed.

(** X18. [_check_inf_per_device] records the flags it returns: right after
    it, [_found_inf_per_device] returns the same mapping and changes
    nothing. The flags are buffers created by the call, the attributes of
    the scaler other than the map are as before, and the stage of the
    optimizer is not advanced (READY if it was unknown), so that a later
    [step] still unscales. *)
Theorem check_inf_records_flags (w w' : world) (optimizer : Optimizer)
    (flags : list (device * nat)) :
  _check_inf_per_device optimizer w = Return flags w' ->
  _found_inf_per_device optimizer w' = Return flags w' /\
  Forall (fun p => length (cells w) <= snd p) flags /\
  core w' = core w /\
  stage_of (id optimizer) w'
  = Some (match stage_of (id optimizer) w with Some s => s | None => READY end).
Proof.
  intros H. unfold _check_inf_per_device in H.
  apply bind_inv in H as ([l tr] & w1 & Hck & H).
  apply check_returns in Hck as (-> & _). cbn beta iota in H.
  apply bind_inv in H as ([dev v] & w1 & Hrd & H).
  apply read_float_inv in Hrd as [-> _]. cbn beta iota in H.
  apply bind_inv in H as (dummy & w2 & Hal1 & H).
  pose proof (stable_alloc_cell _ _ _ _ _ _ (framed_refl w) Hal1) as F2. cbn beta in F2.
  assert (S2 : scaler w2 = scaler w) by (injection Hal1 as _ <-; reflexivity).
  apply bind_inv in H as (fi & w3 & Hal2 & H).
  pose proof (stable_alloc_cell _ _ _ _ _ _ F2 Hal2) as F3. cbn beta in F3.
  assert (S3 : scaler w3 = scaler w2) by (injection Hal2 as _ <-; reflexivity).
  apply bind_inv in H as (fl & w4 & Hug & H).
  destruct (triple_unscale_grads _ _ _ _ _ _ _ _ _ F3 Hug) as [F4 Hfresh].
  assert (S4 : scaler w4 = scaler w3).
  { assert (Hk : keeps (fun w => scaler w) (_unscale_grads_ optimizer dummy fi true))
      by keeps_deep.
    exact (Hk _ _ _ Hug). }
  apply bind_inv in H as (u0 & w40 & Ha & H). apply attr_inv in Ha as [-> Hhas].
  apply bind_inv in H as (u & w5 & Hset & H).
  pose proof (stable_set_found _ _ _ _ _ _ _ F4 Hset) as F5. cbn beta in F5.
  unfold set_found_inf_per_device in Hset.
  apply set_opt_state_lookup in Hset as Hget5. rewrite S4, S3, S2 in Hget5.
  unfold opt_state_of in H. cbn in H. rewrite Hget5 in H. cbn in H.
  injection H as <- <-.
  split; [| split; [| split]].
  - unfold _found_inf_per_device, opt_state_of. cbn.
    rewrite (set_opt_state_has_attr _ _ _ _ _ _ Hset) in Hhas.
    unfold attr. cbn. rewrite Hhas. cbn. rewrite Hget5. reflexivity.
  - exact Hfresh.
  - apply F5.
  - unfold stage_of. rewrite Hget5. cbn. f_equal.
    destruct (dict_get (id optimizer) (_per_optimizer_states (scaler w))); reflexivity.
Qed.

Lemma check_inf_records_flags_witness :
  _check_inf_per_device (plain_optimizer 7 [[0]]) (materialized cpu_device)
  = Return [(cpu_device, 4)]
      (after (_check_inf_per_device (plain_optimizer 7 [[0]])) (materialized cpu_device)) /\
  _found_inf_per_device (plain_optimizer 7 [[0]])
    (after (_check_inf_per_device (plain_optimizer 7 [[0]])) (materialized cpu_device))
  = Return [(cpu_device, 4)]
      (after (_check_inf_per_device (plain_optimizer 7 [[0]])) (materialized cpu_device)) /\
  stage_of 7 (after (_check_inf_per_device (plain_optimizer 7 [[0]]))
                    (materialized cpu_device)) = Some READY.
Proof.
  assert (H : _check_inf_per_device (plain_optimizer 7 [[0]]) (materialized cpu_device)
    = Return [(cpu_device, 4)]
        (after (_check_inf_per_device (plain_optimizer 7 [[0]])) (materialized cpu_device)))
    by (vm_compute; reflexivity).
  split; [exact H |].
  destruct (check_inf_records_flags _ _ _ _ H) as (Hq & _ & _ & Hst).
  split; [exact Hq | exact Hst].
Defined.

(** ** Pickling and checkpoints *)

Lemma get_scale_pure (w w' : world) (x : pyfloat) : get_scale w = Return x w' -> w' = w.
Proof.
  assert (Hk : keeps (fun w => w) get_scale) by keeps_deep. apply Hk.
Qed.

Lemma get_growth_tracker_pure (w w' : world) (z : Z) :
  _get_growth_tracker w = Return z w' -> w' = w.
Proof.
  assert (Hk : keeps (fun w => w) _get_growth_tracker) by keeps_deep. apply Hk.
Qed.

(** X19. Pickling and unpickling preserves what [state_dict] reports: when
    [__getstate__] returns on an enabled instance, [state_dict] returns a
    blob, and an instance that receives the pickled state through
    [__setstate__] has no buffers and no per-optimizer state, returns the
    same scale from [get_scale] and the same blob from [state_dict]. *)
Theorem pickle_round_trip (w w' w0 : world) (state : ShardedGradScaler) :
  _enabled (scaler w) = true ->
  __getstate__ w = Return state w' ->
  exists (sc : pyfloat) (d : blob) (w1 : world),
    get_scale w = Return sc w /\
    state_dict w = Return d w /\
    __setstate__ state w0 = Return tt w1 /\
    _scale (scaler w1) = None /\ _growth_tracker (scaler w1) = TrackerNone /\
    _per_optimizer_states (scaler w1) = [] /\
    get_scale w1 = Return sc w1 /\
    state_dict w1 = Return d w1.
Proof.
  intros He H. unfold __getstate__ in H. cbn in H. rewrite He in H.
  apply bind_inv in H as (u & w2 & Has & H).
  unfold assert in Has.
  destruct (length (_per_optimizer_states (scaler w)) =? 0) eqn:Hlen; [|discriminate].
  cbn in Has. injection Has as _ <-.
  apply bind_inv in H as (sc & w3 & Hsc & H).
  pose proof (get_scale_pure _ _ _ Hsc) as ->.
  apply bind_inv in H as (gt & w4 & Hgt & H).
  pose proof (get_growth_tracker_pure _ _ _ Hgt) as ->.
  cbn in H. injection H as <- <-.
  assert (Hst : _per_optimizer_states (scaler w) = []).
  { destruct (_per_optimizer_states (scaler w)); [reflexivity | discriminate]. }
  exists sc. eexists. eexists.
  split; [exact Hsc |]. split.
  { unfold state_dict. cbn. rewrite He. cbn. rewrite Hsc. cbn. rewrite Hgt. reflexivity. }
  split; [reflexivity |]. cbn.
  split; [reflexivity |]. split; [reflexivity |]. split; [exact Hst |].
  split.
  - unfold get_scale. cbn. reflexivity.
  - unfold state_dict, get_scale, _get_growth_tracker. cbn. reflexivity.
Qed.

Lemma pickle_round_trip_witness :
  exists state w1,
    __getstate__ (iterated current_cuda_device 3)
    = Return state (iterated current_cuda_device 3) /\
    __setstate__ state (boot [] [] []) = Return tt w1 /\
    state_dict w1 = Return (five_entries (py 2048 0) (py 2 0) (py 1 (-1)) 3 0) w1.
Proof.
  assert (He : _enabled (scaler (iterated current_cuda_device 3)) = true)
    by (vm_compute; reflexivity).
  assert (H : __getstate__ (iterated current_cuda_device 3)
              = Return (after_getstate (iterated current_cuda_device 3))
                       (iterated current_cuda_device 3))
    by (vm_compute; reflexivity).
  destruct (pickle_round_trip _ _ (boot [] [] []) _ He H)
    as (sc & d & w1 & _ & Hd & Hset & _ & _ & _ & _ & Hd1).
  exists (after_getstate (iterated current_cuda_device 3)), w1.
  split; [exact H |]. split; [exact Hset |].
  vm_compute in Hd. injection Hd as <-. exact Hd1.
Defined.

(** X20. On an enabled instance [load_state_dict] of a blob that is not
    empty but lacks one of the five keys raises KeyError for the first key
    it misses, in the order scale, growth_factor, backoff_factor,
    growth_interval, _growth_tracker; entries under other keys do not
    matter. *)
Theorem load_state_dict_missing_key (w : world) (d : blob) (k : string) :
  _enabled (scaler w) = true ->
  d <> [] ->
  (_scale (scaler w) = None \/ exists v, scale_value w = Some v) ->
  documented_types d = true ->
  (forall sc, dict_get "scale" d = Some (PyFloat sc) -> overflows_float32 sc = false) ->
  missing_key d = Some k ->
  load_state_dict d w = Raise (KeyError k).
Proof.
  intros He Hne Hsc Hty Hfit Hk.
  assert (Hlen : (length d =? 0) = false) by (destruct d; [congruence | reflexivity]).
  unfold documented_types, typed_entry in Hty.
  unfold missing_key, blob_keys in Hk. cbn [List.find] in Hk.
  unfold load_state_dict, float_item, int_item, item. cbn. rewrite He, Hlen. cbn.
  destruct (dict_get "scale" d) as [[sc|z]|] eqn:E1;
    [| discriminate Hty | injection Hk as <-; reflexivity].
  cbn.
  assert (Hfill :
    match _scale (scaler w) with
    | Some l => let* (dev, _) := read_float l in
                v <- to_float32 sc ;; write_cell l (FloatCell dev v)
    | None => ret tt
    end w = Return tt
              (match _scale (scaler w) with
               | Some l =>
                   match cells w !! l with
                   | Some (FloatCell dev _) =>
                       set_cells (<[l := FloatCell dev (Float.round Float.binary32 sc)]>
                                    (cells w)) w
                   | _ => w
                   end
               | None => w
               end)).
  { destruct Hsc as [Hnone | [v Hv]].
    - rewrite Hnone. reflexivity.
    - unfold scale_value in Hv.
      destruct (_scale (scaler w)) as [l|]; [|discriminate].
      unfold read_float, read_cell. cbn.
      destruct (cells w !! l) as [[dev v0|dev v0]|]; try discriminate.
      cbn. unfold to_float32. rewrite (Hfit sc eq_refl). reflexivity. }
  rewrite Hfill. cbn.
  destruct (dict_get "growth_factor" d) as [[gf|z]|] eqn:E2;
    [| discriminate Hty | injection Hk as <-; reflexivity].
  cbn.
  destruct (dict_get "backoff_factor" d) as [[bf|z]|] eqn:E3;
    [| discriminate Hty | injection Hk as <-; reflexivity].
  cbn.
  destruct (dict_get "growth_interval" d) as [[x|gi]|] eqn:E4;
    [discriminate Hty | | injection Hk as <-; reflexivity].
  cbn.
  destruct (dict_get "_growth_tracker" d) as [[x|gt]|] eqn:E5;
    [discriminate Hty | discriminate Hk | injection Hk as <-; reflexivity].
Qed.

Lemma load_state_dict_missing_key_witness :
  load_state_dict [("scale", PyFloat (py 2048 0)); ("growth_factor", PyFloat (py 2 0));
                   ("backoff_factor", PyFloat (py 1 (-1))); ("_growth_tracker", PyInt 0)]
                  (materialized cpu_device)
  = Raise (KeyError "growth_interval").
Proof.
  apply (load_state_dict_missing_key (materialized cpu_device)).
  - reflexivity.
  - discriminate.
  - right. exists (f32 1024 0). vm_compute. reflexivity.
  - vm_compute. reflexivity.
  - intros sc H. vm_compute in H. injection H as <-. vm_compute. reflexivity.
  - vm_compute. reflexivity.
Defined.

(** X21. What [state_dict] returns on an enabled instance can be loaded
    into any enabled instance that has not created its buffers yet,
    whatever that instance was constructed with; no buffer is created by
    the loading, and [state_dict] on the instance then returns the same
    blob. *)
Theorem state_dict_restores_fresh_instance (w w' w2 : world) (d : blob) :
  _enabled (scaler w) = true ->
  state_dict w = Return d w' ->
  _enabled (scaler w2) = true ->
  _scale (scaler w2) = None ->
  _growth_tracker (scaler w2) = TrackerNone ->
  exists w3,
    load_state_dict d w2 = Return tt w3 /\
    state_dict w3 = Return d w3 /\
    cells w3 = cells w2 /\ _scale (scaler w3) = None /\
    _growth_tracker (scaler w3) = TrackerNone.
Proof.
  intros He H He2 Hsc2 Htr2.
  unfold state_dict in H. cbn in H. rewrite He in H.
  apply bind_inv in H as (sc & w1 & Hsc & H).
  apply bind_inv in H as (gt & w1' & Hgt & H).
  cbn in H. injection H as <- _.
  change ([("scale", PyFloat sc); ("growth_factor", PyFloat (_growth_factor (scaler w)));
           ("backoff_factor", PyFloat (_backoff_factor (scaler w)));
           ("growth_interval", PyInt (_growth_interval (scaler w)));
           ("_growth_tracker", PyInt gt)])
    with (five_entries sc (_growth_factor (scaler w)) (_backoff_factor (scaler w))
                       (_growth_interval (scaler w)) gt).
  destruct (five_entries_items sc (_growth_factor (scaler w)) (_backoff_factor (scaler w))
              (_growth_interval (scaler w)) gt) as (I1 & I2 & I3 & I4 & I5).
  unfold load_state_dict, float_item, int_item, item.
  rewrite I1, I2, I3, I4, I5. cbn. rewrite He2, Hsc2, Htr2. cbn.
  eexists. split; [reflexivity |].
  unfold state_dict, get_scale, _get_growth_tracker. cbn.
  rewrite He2, Hsc2, Htr2. cbn. repeat split.
Qed.

Lemma state_dict_restores_fresh_instance_witness :
  exists w3,
    load_state_dict (five_entries (py 2048 0) (py 2 0) (py 1 (-1)) 3 0)
      (after (__init__ false (py 65536 0) (py 4 0) (py 1 (-2)) 2000 true) (boot [] [] []))
    = Return tt w3 /\
    state_dict w3 = Return (five_entries (py 2048 0) (py 2 0) (py 1 (-1)) 3 0) w3.
Proof.
  assert (He : _enabled (scaler (iterated current_cuda_device 3)) = true)
    by (vm_compute; reflexivity).
  assert (H : state_dict (iterated current_cuda_device 3)
              = Return (five_entries (py 2048 0) (py 2 0) (py 1 (-1)) 3 0)
                       (iterated current_cuda_device 3))
    by (vm_compute; reflexivity).
  destruct (state_dict_restores_fresh_instance _ _
              (after (__init__ false (py 65536 0) (py 4 0) (py 1 (-2)) 2000 true)
                     (boot [] [] []))
              _ He H eq_refl eq_refl eq_refl) as (w3 & Hload & Hsd & _).
  exists w3. split; [exact Hload | exact Hsd].
Defined.

(** X22. A blob loaded into an enabled instance before its first [scale]
    takes effect when the buffers are created: the first [scale] of a
    tensor puts the loaded scale, rounded to float32, and the loaded count
    into new buffers on the tensor's device, and both factors and the
    interval are the loaded ones. *)
Theorem loaded_state_takes_effect_at_first_scale (w : world) (t : nat) (x : tensor)
    (sc gf bf : pyfloat) (gi gt : Z) :
  _enabled (scaler w) = true ->
  _scale (scaler w) = None ->
  _growth_tracker (scaler w) = TrackerNone ->
  tensors w !! t = Some x ->
  overflows_float32 sc = false ->
  in_int32 gt = true ->
  exists w1 w2,
    load_state_dict (five_entries sc gf bf gi gt) w = Return tt w1 /\
    scale (OTensor t) w1 = Return (OTensor (length (tensors w))) w2 /\
    scale_value w2 = Some (Float.round Float.binary32 sc) /\
    tracker_value w2 = Some gt /\
    scale_device w2 = Some (t_device x) /\
    _growth_factor (scaler w2) = gf /\ _backoff_factor (scaler w2) = bf /\
    _growth_interval (scaler w2) = gi.
Proof.
  intros He Hsc Htr Ht Hfit Hint.
  destruct (five_entries_items sc gf bf gi gt) as (I1 & I2 & I3 & I4 & I5).
  assert (Hload : exists w1,
            load_state_dict (five_entries sc gf bf gi gt) w = Return tt w1 /\
            _enabled (scaler w1) = true /\ _scale (scaler w1) = None /\
            _growth_tracker (scaler w1) = TrackerNone /\
            tensors w1 = tensors w /\ cells w1 = cells w /\
            _init_scale (scaler w1) = sc /\ _init_growth_tracker (scaler w1) = gt /\
            _growth_factor (scaler w1) = gf /\ _backoff_factor (scaler w1) = bf /\
            _growth_interval (scaler w1) = gi).
  { unfold load_state_dict, float_item, int_item, item.
    rewrite I1, I2, I3, I4, I5. cbn. rewrite He, Hsc, Htr. cbn.
    eexists. split; [reflexivity |]. cbn. repeat split; assumption. }
  destruct Hload as (w1 & Hload & He1 & Hsc1 & Htr1 & Hts1 & Hcs1 & His & Hig & Hgf & Hbf & Hgi).
  rewrite <- His in Hfit. rewrite <- Hig in Hint. rewrite <- Hts1 in Ht.
  exists w1. eexists. split; [exact Hload |].
  split.
  { unfold scale. cbn. rewrite He1. cbn.
    unfold read_tensor. rewrite Ht. cbn.
    rewrite (ensure_scale_creates w1 (t_device x) Hsc1 Htr1 Hfit Hint). cbn.
    unfold cell_to, read_float, read_cell. cbn.
    rewrite list_lookup_middle by reflexivity. cbn.
    destruct (decide (t_device x = t_device x)) as [_|Hne]; [|congruence]. cbn.
    unfold tensor_mul_cell, read_tensor. cbn. rewrite Ht. cbn.
    unfold read_float, read_cell. cbn.
    rewrite list_lookup_middle by reflexivity. cbn.
    rewrite Hts1. reflexivity. }
  unfold scale_value, tracker_value, scale_device. cbn.
  rewrite list_lookup_middle by reflexivity.
  replace (S (length (cells w1))) with (length (cells w1) + 1) by lia.
  rewrite lookup_app_r by lia.
  replace (length (cells w1) + 1 - length (cells w1)) with 1 by lia.
  cbn. rewrite His, Hig. repeat split; assumption.
Qed.

Lemma loaded_state_takes_effect_at_first_scale_witness :
  exists w1 w2,
    load_state_dict (five_entries (py 2048 0) (py 2 0) (py 1 (-1)) 3 2)
      (after (init_1024 true) (one_gradient current_cuda_device (f32 1 0)))
    = Return tt w1 /\
    scale (OTensor 0) w1 = Return (OTensor 2) w2 /\
    scale_value w2 = Some (f32 2048 0) /\ tracker_value w2 = Some 2%Z.
Proof.
  destruct (loaded_state_takes_effect_at_first_scale
              (after (init_1024 true) (one_gradient current_cuda_device (f32 1 0)))
              0 (on_device current_cuda_device [[f32 1 0]])
              (py 2048 0) (py 2 0) (py 1 (-1)) 3 2
              eq_refl eq_refl eq_refl eq_refl eq_refl eq_refl)
    as (w1 & w2 & Hload & Hscale & Hsv & Htv & _).
  exists w1, w2. repeat split; assumption.
Defined.

(** ** Half-precision gradients *)

Lemma collect_refuses (l : list nat) (w : world) (p : nat) (r : grad_ref) (t : tensor) :
  Forall (fun p =>
            exists g, params w !! p = Some g /\
              forall r, g = Some r -> exists t, tensors w !! grad_values r = Some t) l ->
  In p l ->
  params w !! p = Some (Some r) ->
  tensors w !! grad_values r = Some t ->
  t_dtype t = float16 ->
  forall groups,
    for_each l groups (collect_param false) w = Raise (ValueError fp16_message).
Proof.
  intros Hall Hin Hp Ht Hfp.
  induction Hall as [|q l (g & Hq & Hg) Hall IH]; intros groups; [destruct Hin |].
  cbn [for_each].
  unfold collect_param at 1, read_param, read_tensor. cbn. rewrite Hq.
  destruct g as [r'|]; cbn.
  - destruct (Hg r' eq_refl) as [t' Ht']. rewrite Ht'. cbn.
    destruct (bool_decide (t_dtype t' = float16)) eqn:Hfp'; cbn; [reflexivity |].
    destruct Hin as [-> | Hin].
    + rewrite Hp in Hq. injection Hq as <-. rewrite Ht in Ht'. injection Ht' as <-.
      apply bool_decide_eq_false_1 in Hfp'. contradiction.
    + destruct (is_sparse r'); cbn; rewrite Ht'; cbn; apply IH; exact Hin.
  - destruct Hin as [-> | Hin]; [congruence |]. apply IH. exact Hin.
Qed.

(** X23. With half precision disallowed, [_unscale_grads_] raises
    ValueError as soon as any parameter of any group carries a float16
    gradient, dense or sparse; this happens while the gradients are being
    collected, before any of them is scanned or multiplied. *)
Theorem unscale_refuses_half_precision (w : world) (optimizer : Optimizer)
    (inv_scale found_inf p : nat) (r : grad_ref) (t : tensor) :
  readable_gradients optimizer w ->
  In p (concat (param_groups optimizer)) ->
  params w !! p = Some (Some r) ->
  tensors w !! grad_values r = Some t ->
  t_dtype t = float16 ->
  _unscale_grads_ optimizer inv_scale found_inf false w
  = Raise (ValueError "Attempting to unscale FP16 gradients.").
Proof.
  intros Hall Hin Hp Ht Hfp. unfold _unscale_grads_.
  assert (H : for_each (param_groups optimizer) ([] : grad_groups)
                (fun group groups => for_each group groups (collect_param false)) w
              = Raise (ValueError fp16_message)).
  { rewrite (for_each_concat (fun g : list nat => g)). rewrite map_id.
    exact (collect_refuses _ w p r t Hall Hin Hp Ht Hfp []). }
  cbn. rewrite H. reflexivity.
Qed.

Lemma unscale_refuses_half_precision_witness :
  _unscale_grads_ (plain_optimizer 7 [[0]; [1]]) 0 1 false half_precision_boot
  = Raise (ValueError "Attempting to unscale FP16 gradients.").
Proof.
  apply (unscale_refuses_half_precision half_precision_boot (plain_optimizer 7 [[0]; [1]])
           0 1 1 (DenseGrad 2)
           {| t_device := cpu_device; t_dtype := float16; t_data := Rows [[f32 1 0]] |}).
  - repeat constructor.
    + exists (Some (DenseGrad 1)). split; [reflexivity |].
      intros r [= <-]. eexists. reflexivity.
    + exists (Some (DenseGrad 2)). split; [reflexivity |].
      intros r [= <-]. eexists. reflexivity.
  - cbn. auto.
  - reflexivity.
  - reflexivity.
  - reflexivity.
Defined.

(** ** [step] and [unscale_] *)

Lemma unscale_marks_unscaled (o : Optimizer) (w w' : world) :
  _enabled (scaler w) = true ->
  unscale_ o w = Return tt w' ->
  stage_of (id o) w' = Some UNSCALED /\ core w' = core w.
Proof.
  intros He H.
  split; [| exact (proj1 (stable_unscale (core w) (cells w) o He w tt w' (framed_refl w) H))].
  unfold unscale_ in H.
  apply bind_inv in H as (u0 & w0 & Ha & H). apply attr_inv in Ha as [-> _].
  apply bind_inv in H as (s & w0 & Hs & H). cbn in Hs. injection Hs as <- <-.
  apply bind_inv in H as (u1 & w1 & Hlog & H).
  apply bind_inv in H as (u2 & w2 & Hdw & H).
  apply bind_inv in H as (u3 & w3 & Hsu & H).
  assert (He2 : _enabled (scaler w2) = true).
  { cbn in Hdw. injection Hdw as _ <-. cbn.
    destruct (display_warning (scaler w) && negb (is_OSS o));
      cbn in Hlog; injection Hlog as _ <-; exact He. }
  assert (Hst3 : stage_of (id o) w3 = Some UNSCALED).
  { unfold super_unscale_ in Hsu. cbn in Hsu. rewrite He2 in Hsu. cbn in Hsu.
    apply bind_inv in Hsu as ([l t] & w4 & _ & Hsu). cbn beta iota in Hsu.
    apply bind_inv in Hsu as (st & w5 & _ & Hsu).
    destruct (stage st); try discriminate.
    all: apply bind_inv in Hsu as ([dv v] & w6 & _ & Hsu).
    all: cbn beta iota in Hsu.
    all: apply bind_inv in Hsu as (inv & w7 & _ & Hsu).
    all: apply bind_inv in Hsu as (fi & w8 & _ & Hsu).
    all: apply bind_inv in Hsu as (flags & w9 & _ & Hsu).
    all: apply bind_inv in Hsu as (u & w10 & _ & Hsu).
    all: eapply set_stage_stage; exact Hsu. }
  apply bind_inv in H as (u5 & w30 & Ha & H). apply attr_inv in Ha as [-> _].
  apply bind_inv in H as (st & w4 & Hos & H).
  unfold stage_of in Hst3. unfold opt_state_of in Hos. cbn in Hos.
  destruct (dict_get (id o) (_per_optimizer_states (scaler w3))) as [st3|] eqn:Hget;
    [| discriminate Hst3].
  cbn in Hos. injection Hos as <- <-.
  assert (Hk : keeps (fun w => scaler w)
    (for_each (dict_values (found_inf_per_device st3)) tt (fun v _ =>
       let* (d, x) := read_float v in
       if bool_decide (dev_type d = cpu) then
         v_on_cuda <- alloc_cell (FloatCell current_cuda_device x) ;;
         all_reduce v_on_cuda ;;;
         let* (_, y) := read_float v_on_cuda in
         _ <- alloc_cell (FloatCell cpu_device y) ;;
         ret tt
       else all_reduce v))) by keeps_deep.
  unfold stage_of. rewrite (Hk _ _ _ H), Hget. exact Hst3.
Qed.

(** [step] for an optimizer that has been unscaled: its part after the
    stage has been looked at. *)
Lemma step_of_unscaled (o : Optimizer) (args : list pyobj) (kw : kwargs) (w : world)
    (l : nat) :
  _enabled (scaler w) = true ->
  has_key "closure" kw = false ->
  _scale (scaler w) = Some l ->
  _growth_tracker (scaler w) <> TrackerNone ->
  _step_supports_amp_scaling o <> Some true ->
  stage_of (id o) w = Some UNSCALED ->
  step o args kw w =
  (optimizer_state <- opt_state_of (id o) ;;
   assert (0 <? length (found_inf_per_device optimizer_state))
          no_checks_for_optimizer_message ;;;
   retval <- _maybe_opt_step o optimizer_state args kw ;;
   set_stage (id o) STEPPED ;;; ret retval) w.
Proof.
  intros He Hkw Hsc Htr Hamp Hst.
  unfold step. cbn. rewrite He, Hkw. cbn.
  rewrite check_passes with (l := l) by assumption. cbn.
  unfold stage_of in Hst. unfold opt_state_of at 1. cbn.
  destruct (dict_get (id o) (_per_optimizer_states (scaler w))) as [st|] eqn:Hget;
    [| discriminate Hst].
  cbn in Hst. injection Hst as Hst. cbn. rewrite Hst.
  rewrite (bool_decide_eq_false_2 (UNSCALED = STEPPED)) by discriminate.
  rewrite (bool_decide_eq_false_2 (UNSCALED = READY)) by discriminate.
  destruct (_step_supports_amp_scaling o) as [[|]|]; [congruence | reflexivity ..].
Qed.

(** X24. For an optimizer that leaves the unscaling to the scaler and has
    not been unscaled in this iteration, [step] is [unscale_] followed by
    [step]: whether the training loop calls [unscale_] itself first makes
    no difference to the result, the exception raised or the state
    left. *)
Theorem step_unscales_first (w : world) (optimizer : Optimizer)
    (args : list pyobj) (kw : kwargs) :
  _enabled (scaler w) = true ->
  has_key "closure" kw = false ->
  _scale (scaler w) <> None ->
  _growth_tracker (scaler w) <> TrackerNone ->
  _step_supports_amp_scaling optimizer <> Some true ->
  (stage_of (id optimizer) w = None \/ stage_of (id optimizer) w = Some READY) ->
  step optimizer args kw w = (unscale_ optimizer ;;; step optimizer args kw) w.
Proof.
  intros He Hkw Hsc Htr Hamp Hst.
  destruct (_scale (scaler w)) as [l|] eqn:Hl; [| congruence]. clear Hsc.
  (* the call of [unscale_] that [step] makes *)
  assert (Hleft :
    step optimizer args kw w =
    (unscale_ optimizer ;;;
     optimizer_state <- opt_state_of (id optimizer) ;;
     assert (0 <? length (found_inf_per_device optimizer_state))
            no_checks_for_optimizer_message ;;;
     retval <- _maybe_opt_step optimizer optimizer_state args kw ;;
     set_stage (id optimizer) STEPPED ;;; ret retval) w).
  { unfold step. cbn. rewrite He, Hkw. cbn.
    rewrite check_passes with (l := l) by assumption. cbn.
    unfold stage_of in Hst. unfold opt_state_of at 1. cbn.
    destruct (dict_get (id optimizer) (_per_optimizer_states (scaler w))) as [st|] eqn:Hget.
    - destruct Hst as [Hst | Hst]; [discriminate |]. cbn in Hst. injection Hst as Hst.
      cbn. rewrite Hst.
      rewrite (bool_decide_eq_false_2 (READY = STEPPED)) by discriminate.
      rewrite (bool_decide_eq_true_2 (READY = READY)) by reflexivity.
      destruct (_step_supports_amp_scaling optimizer) as [[|]|];
        [congruence | reflexivity ..].
    - cbn.
      rewrite (bool_decide_eq_false_2 (READY = STEPPED)) by discriminate.
      rewrite (bool_decide_eq_true_2 (READY = READY)) by reflexivity.
      assert (Hsame :
        unscale_ optimizer
          (set_scaler
             (set_per_optimizer_states
                (dict_set (id optimizer) _refresh_per_optimizer_state
                          (_per_optimizer_states (scaler w)))
                (scaler w)) w)
        = unscale_ optimizer w).
      { unfold unscale_, super_unscale_. cbn.
        rewrite !attr_enabled by (cbn; exact He). cbn.
        destruct (display_warning (scaler w) && negb (is_OSS optimizer)); cbn;
          rewrite He; cbn;
          rewrite !check_passes with (l := l) by (cbn; assumption); cbn;
          unfold opt_state_of; cbn; rewrite Hget, dict_get_set_eq; cbn;
          reflexivity. }
      destruct (_step_supports_amp_scaling optimizer) as [[|]|]; [congruence | |];
        cbn; rewrite Hsame; reflexivity. }
  rewrite Hleft. cbn.
  destruct (unscale_ optimizer w) as [e|[] w1] eqn:Hun; [reflexivity |].
  destruct (unscale_marks_unscaled _ _ _ He Hun) as [Hst1 Hcore].
  unfold core in Hcore. injection Hcore as He1 Hsc1 Htr1 _ _ _ _ _.
  symmetry. apply (step_of_unscaled optimizer args kw w1 l); congruence.
Qed.

Lemma step_unscales_first_witness :
  step (plain_optimizer 7 [[0]]) [] [] (materialized cpu_device)
  = (unscale_ (plain_optimizer 7 [[0]]) ;;; step (plain_optimizer 7 [[0]]) [] [])
      (materialized cpu_device) /\
  step (plain_optimizer 7 [[0]]) [] [] (materialized cpu_device)
  = Return (PyObj 7) (stepped cpu_device).
Proof.
  split; [| vm_compute; reflexivity].
  apply (step_unscales_first (materialized cpu_device) (plain_optimizer 7 [[0]]) [] []).
  - reflexivity.
  - reflexivity.
  - discriminate.
  - discriminate.
  - discriminate.
  - left. reflexivity.
Defined.
(** An [unscale_] of an optimizer that is UNSCALED is refused. *)
Lemma unscale_of_unscaled (o : Optimizer) (w : world) (l : nat) :
  _enabled (scaler w) = true ->
  _scale (scaler w) = Some l ->
  _growth_tracker (scaler w) <> TrackerNone ->
  stage_of (id o) w = Some UNSCALED ->
  unscale_ o w = Raise (RuntimeError unscaled_twice_message).
Proof.
  intros He Hsc Htr Hst. unfold stage_of in Hst.
  destruct (dict_get (id o) (_per_optimizer_states (scaler w))) as [st|] eqn:Hget;
    [| discriminate Hst].
  cbn in Hst. injection Hst as Hst.
  unfold unscale_, super_unscale_. cbn.
  rewrite attr_enabled by exact He. cbn.
  destruct (display_warning (scaler w) && negb (is_OSS o)); cbn; rewrite He; cbn;
    rewrite check_passes with (l := l) by (cbn; assumption); cbn;
    unfold opt_state_of; cbn; rewrite Hget; cbn; rewrite Hst; reflexivity.
Qed.

(** What the inherited part of an [unscale_] that returns has seen. *)
Lemma unscale_preconditions (o : Optimizer) (w w' : world) :
  _enabled (scaler w) = true ->
  unscale_ o w = Return tt w' ->
  stage_of (id o) w <> Some UNSCALED /\
  (exists l, _scale (scaler w) = Some l) /\
  _growth_tracker (scaler w) <> TrackerNone.
Proof.
  intros He H. unfold unscale_ in H.
  apply bind_inv in H as (u0 & w0 & Ha & H). apply attr_inv in Ha as [-> _].
  apply bind_inv in H as (s & w0 & Hs & H). cbn in Hs. injection Hs as <- <-.
  apply bind_inv in H as (u1 & w1 & Hlog & H).
  apply bind_inv in H as (u2 & w2 & Hdw & H).
  apply bind_inv in H as (u3 & w3 & Hsu & _).
  assert (Hw2 : _enabled (scaler w2) = true /\
                _per_optimizer_states (scaler w2) = _per_optimizer_states (scaler w) /\
                _scale (scaler w2) = _scale (scaler w) /\
                _growth_tracker (scaler w2) = _growth_tracker (scaler w)).
  { cbn in Hdw. injection Hdw as _ <-. cbn.
    destruct (display_warning (scaler w) && negb (is_OSS o));
      cbn in Hlog; injection Hlog as _ <-; auto. }
  destruct Hw2 as (He2 & Hst2 & Hsc2 & Htr2).
  unfold super_unscale_ in Hsu. cbn in Hsu. rewrite He2 in Hsu. cbn in Hsu.
  apply bind_inv in Hsu as ([l t] & w4 & Hck & Hsu). cbn beta iota in Hsu.
  apply check_returns in Hck as (-> & Hsc & Htr & Hne). cbn in Hsc, Htr, Hne.
  apply bind_inv in Hsu as (st & w5 & Hos & Hsu).
  split; [| split; [exists l; congruence | congruence]].
  unfold stage_of. rewrite <- Hst2.
  unfold opt_state_of in Hos. cbn in Hos.
  destruct (dict_get (id o) (_per_optimizer_states (scaler w2))) as [st2|];
    cbn in Hos; injection Hos as <- <-; [| discriminate].
  cbn. intros [= Hun]. rewrite Hun in Hsu. discriminate Hsu.
Qed.

(** X25. On an enabled instance, an [unscale_] that returns has found the
    optimizer not yet unscaled since the last [update()] : unknown, READY,
    or STEPPED, for the guard of the inherited method against a call
    after [step] never matches. It leaves the optimizer UNSCALED, so that
    a second [unscale_] is refused. It rebinds no attribute but the
    per-optimizer map and the warning switch, writes no buffer that
    existed before (the scale and the growth tracker among them), and the
    flags it records for the optimizer are buffers it created. *)
Theorem unscale_effect (w w' : world) (optimizer : Optimizer) :
  _enabled (scaler w) = true ->
  unscale_ optimizer w = Return tt w' ->
  stage_of (id optimizer) w <> Some UNSCALED /\
  stage_of (id optimizer) w' = Some UNSCALED /\
  unscale_ optimizer w' = Raise (RuntimeError unscaled_twice_message) /\
  core w' = core w /\
  (exists ext, cells w' = cells w ++ ext) /\
  state_flags_fresh (cells w) (id optimizer) w'.
Proof.
  intros He H.
  destruct (unscale_marks_unscaled _ _ _ He H) as [Hst Hcore].
  destruct (unscale_preconditions _ _ _ He H) as (Hbefore & [l Hsc] & Htr).
  pose proof (stable_unscale (core w) (cells w) optimizer He w tt w' (framed_refl w) H)
    as [_ Hext].
  split; [exact Hbefore |]. split; [exact Hst |]. split.
  { unfold core in Hcore. injection Hcore as He' Hsc' Htr' _ _ _ _ _.
    apply (unscale_of_unscaled optimizer w' l); congruence. }
  split; [exact Hcore |]. split; [exact Hext |].
  unfold unscale_ in H.
  apply bind_inv in H as (u0 & w0 & Ha & H). apply attr_inv in Ha as [-> _].
  apply bind_inv in H as (s & w0 & Hs & H). cbn in Hs. injection Hs as <- <-.
  apply bind_inv in H as (u1 & w1 & Hlog & H).
  apply bind_inv in H as (u2 & w2 & Hdw & H).
  apply bind_inv in H as (u3 & w3 & Hsu & H).
  assert (F2 : framed (core w) (cells w) w2).
  { cbn in Hdw. injection Hdw as _ <-.
    destruct (display_warning (scaler w) && negb (is_OSS optimizer));
      cbn in Hlog; injection Hlog as _ <-;
      (split; [reflexivity | exists []; cbn; rewrite app_nil_r; reflexivity]). }
  destruct (triple_super_unscale (core w) (cells w) optimizer He _ _ _ F2 Hsu)
    as [F3 Hfresh].
  apply bind_inv in H as (u5 & w30 & Ha & H). apply attr_inv in Ha as [-> _].
  apply bind_inv in H as (st & w4 & Hos & H).
  unfold stage_of in Hst.
  assert (Hk : forall st, keeps (fun w => scaler w)
    (for_each (dict_values (found_inf_per_device st)) tt (fun v _ =>
       let* (d, x) := read_float v in
       if bool_decide (dev_type d = cpu) then
         v_on_cuda <- alloc_cell (FloatCell current_cuda_device x) ;;
         all_reduce v_on_cuda ;;;
         let* (_, y) := read_float v_on_cuda in
         _ <- alloc_cell (FloatCell cpu_device y) ;;
         ret tt
       else all_reduce v))) by (intros; keeps_deep).
  pose proof (Hk _ _ _ _ H) as E4. cbn beta in E4.
  unfold state_flags_fresh in *. rewrite E4.
  unfold opt_state_of in Hos. cbn in Hos.
  destruct (dict_get (id optimizer) (_per_optimizer_states (scaler w3))) as [st3|] eqn:Hget.
  + cbn in Hos. injection Hos as _ <-. rewrite Hget. exact Hfresh.
  + cbn in Hos. injection Hos as _ <-. cbn. rewrite dict_get_set_eq. constructor.
Qed.

Lemma unscale_effect_witness :
  stage_of 7 (stepped cpu_device) = Some STEPPED /\
  unscale_ (plain_optimizer 7 [[0]]) (stepped cpu_device)
  = Return tt (after (unscale_ (plain_optimizer 7 [[0]])) (stepped cpu_device)) /\
  stage_of 7 (after (unscale_ (plain_optimizer 7 [[0]])) (stepped cpu_device))
  = Some UNSCALED /\
  unscale_ (plain_optimizer 7 [[0]])
           (after (unscale_ (plain_optimizer 7 [[0]])) (stepped cpu_device))
  = Raise (RuntimeError unscaled_twice_message) /\
  core (after (unscale_ (plain_optimizer 7 [[0]])) (stepped cpu_device))
  = core (stepped cpu_device).
Proof.
  assert (H : unscale_ (plain_optimizer 7 [[0]]) (stepped cpu_device)
    = Return tt (after (unscale_ (plain_optimizer 7 [[0]])) (stepped cpu_device)))
    by (vm_compute; reflexivity).
  assert (He : _enabled (scaler (stepped cpu_device)) = true) by (vm_compute; reflexivity).
  split; [vm_compute; reflexivity |]. split; [exact H |].
  destruct (unscale_effect _ _ _ He H) as (_ & Hst & Htwice & Hcore & _).
  split; [exact Hst |]. split; [exact Htwice | exact Hcore].
Defined.

(** ** One flag per device *)

Lemma dict_set_keys {K V} `{EqDecision K} (k k' : K) (v : V) (d : list (K * V)) :
  List.In k' (map fst (dict_set k v d)) <-> k' = k \/ List.In k' (map fst d).
Proof.
  induction d as [|[k0 v0] d IH]; cbn.
  - intuition congruence.
  - destruct (decide (k = k0)) as [->|Hne]; cbn; [intuition congruence |].
    rewrite IH. intuition congruence.
Qed.

Lemma dict_set_NoDup {K V} `{EqDecision K} (k : K) (v : V) (d : list (K * V)) :
  List.NoDup (map fst d) -> List.NoDup (map fst (dict_set k v d)).
Proof.
  induction d as [|[k0 v0] d IH]; cbn; intros Hnd.
  - constructor; [intros [] | constructor].
  - inversion Hnd as [|? ? Hnotin Hnd']; subst.
    destruct (decide (k = k0)) as [->|Hne]; cbn.
    + constructor; assumption.
    + constructor; [| apply IH; exact Hnd'].
      rewrite dict_set_keys. intros [-> | Hin]; [congruence | contradiction].
Qed.

Lemma dict_get_key {K V} `{EqDecision K} (k : K) (v : V) (d : list (K * V)) :
  dict_get k d = Some v -> List.In k (map fst d).
Proof.
  induction d as [|[k0 v0] d IH]; cbn; [discriminate |].
  destruct (decide (k = k0)) as [->|Hne]; [auto | intros H; right; auto].
Qed.

Lemma dict_set_value {K V} `{EqDecision K} (k k' : K) (v v' : V) (d : list (K * V)) :
  List.In (k', v') (dict_set k v d) -> (k' = k /\ v' = v) \/ List.In (k', v') d.
Proof.
  induction d as [|[k0 v0] d IH]; cbn.
  - intros [[= <- <-] | []]. auto.
  - destruct (decide (k = k0)) as [->|Hne]; cbn.
    + intros [[= <- <-] | Hin]; auto.
    + intros [Heq | Hin]; [auto |]. destruct (IH Hin); auto.
Qed.

Lemma read_param_inv (p : nat) (w w' : world) (g : option grad_ref) :
  read_param p w = Return g w' -> w' = w /\ params w !! p = Some g.
Proof.
  unfold read_param. destruct (params w !! p); [| discriminate].
  intros [= -> ->]. auto.
Qed.

Lemma read_tensor_inv (l : nat) (w w' : world) (t : tensor) :
  read_tensor l w = Return t w' -> w' = w /\ tensors w !! l = Some t.
Proof.
  unfold read_tensor. destruct (tensors w !! l); [| discriminate].
  intros [= -> ->]. auto.
Qed.

(** What collecting one parameter does: nothing if it has no gradient,
    otherwise its gradient goes to the group of its device; the devices of
    the gradients of readable parameters are as before. *)
Lemma collect_param_step (a : bool) (p : nat) (G G1 : grad_groups) (w1 w2 : world) :
  collect_param a p G w1 = Return G1 w2 ->
  (forall p', readable_gradient w1 p' ->
     readable_gradient w2 p' /\ grad_device w2 p' = grad_device w1 p') /\
  ((G1 = G /\ grad_device w1 p = None) \/
   exists d t g, grad_device w1 p = Some d /\ G1 = group_append d t g G).
Proof.
  unfold collect_param. intros H.
  apply bind_inv in H as (og & w & Hrp & H).
  apply read_param_inv in Hrp as [-> Hp].
  destruct og as [g|].
  2:{ cbn in H. injection H as <- <-. split; [auto |].
      left. split; [reflexivity |]. unfold grad_device. rewrite Hp. reflexivity. }
  apply bind_inv in H as (t & w & Hrt & H).
  apply read_tensor_inv in Hrt as [-> Ht].
  assert (Hdev : grad_device w1 p = Some (t_device t)).
  { unfold grad_device. rewrite Hp, Ht. reflexivity. }
  destruct (negb a && bool_decide (t_dtype t = float16)); [discriminate |].
  apply bind_inv in H as (tu & w3 & Htu & H).
  apply bind_inv in H as (t' & w4 & Hrt' & H).
  cbn in H. injection H as <- <-.
  apply read_tensor_inv in Hrt' as [-> Ht3].
  (* the tensor to unscale is on the device of the gradient, and the world
     has changed by a coalesced copy at most *)
  assert (Hkeep :
    t_device t' = t_device t /\
    forall p', readable_gradient w1 p' ->
      readable_gradient w3 p' /\ grad_device w3 p' = grad_device w1 p').
  { destruct (is_sparse g) eqn:Hsp.
    - apply bind_inv in Htu as (g' & w5 & Hg' & Htu).
      cbn in Htu. injection Htu as <- <-.
      destruct (bool_decide (t_dtype t = float16)).
      + apply bind_inv in Hg' as (g'' & w6 & Hco & Hg').
        apply bind_inv in Hg' as (u & w7 & Hwp & Hg').
        cbn in Hg'. injection Hg' as <- <-.
        unfold write_param in Hwp. cbn in Hwp. injection Hwp as _ <-.
        destruct g as [tg|idx v [|]]; [discriminate Hsp | |].
        * cbn in Hco. injection Hco as <- <-. cbn in Ht3.
          cbn in Ht. rewrite Ht in Ht3. injection Ht3 as <-.
          split; [reflexivity |]. intros p' (g0 & Hp' & Hg0).
          assert (Hins : <[p := Some (SparseGrad idx v true)]> (params w1) !! p'
                         = params w1 !! p').
          { destruct (decide (p' = p)) as [->|Hne].
            - rewrite list_lookup_insert_eq by (eapply lookup_lt_Some; eauto).
              symmetry. exact Hp.
            - apply list_lookup_insert_ne. congruence. }
          split.
          -- exists g0. cbn. rewrite Hins. auto.
          -- unfold grad_device. cbn. rewrite Hins. reflexivity.
        * cbn in Hco. cbn in Ht.
          apply bind_inv in Hco as (tv & w8 & Hrv & Hco).
          apply read_tensor_inv in Hrv as [-> Hrv].
          rewrite Ht in Hrv. injection Hrv as <-.
          destruct (t_data t) as [x0|rs]; [discriminate |].
          apply bind_inv in Hco as (v' & w9 & Hal & Hco).
          cbn in Hco. injection Hco as <- <-.
          unfold alloc_tensor in Hal. injection Hal as <- <-.
          cbn in Ht3. rewrite list_lookup_middle in Ht3 by reflexivity.
          injection Ht3 as <-. split; [reflexivity |].
          intros p' (g0 & Hp' & Hg0).
          destruct (decide (p' = p)) as [->|Hne].
          -- rewrite Hp in Hp'. injection Hp' as <-.
             split.
             ++ eexists. cbn. split.
                ** apply list_lookup_insert_eq. eapply lookup_lt_Some; eauto.
                ** intros r [= <-]. cbn. eexists. apply list_lookup_middle. reflexivity.
             ++ unfold grad_device. cbn.
                rewrite list_lookup_insert_eq by (eapply lookup_lt_Some; eauto).
                cbn. rewrite list_lookup_middle by reflexivity.
                rewrite Hp. cbn. rewrite Ht. reflexivity.
          -- split.
             ++ exists g0. cbn. rewrite list_lookup_insert_ne by congruence.
                split; [exact Hp' |]. intros r Hr. destruct (Hg0 r Hr) as [tr Htr].
                exists tr. apply lookup_app_l_Some. exact Htr.
             ++ unfold grad_device. cbn. rewrite list_lookup_insert_ne by congruence.
                rewrite Hp'. destruct g0 as [r|]; [| reflexivity].
                destruct (Hg0 r eq_refl) as [tr Htr].
                rewrite Htr. rewrite (lookup_app_l_Some _ _ _ _ Htr). reflexivity.
      + cbn in Hg'. injection Hg' as <- <-.
        rewrite Ht in Ht3. injection Ht3 as <-. auto.
    - cbn in Htu. injection Htu as <- <-.
      rewrite Ht in Ht3. injection Ht3 as <-. auto. }
  destruct Hkeep as [Hd Hkeep].
  split; [exact Hkeep |].
  right. exists (t_device t'), (t_dtype t'), tu. rewrite Hd. auto.
Qed.

Lemma group_append_keys (d d' : device) (t : dtype) (g : loc) (G : grad_groups) :
  List.In d' (map fst (group_append d t g G)) <-> d' = d \/ List.In d' (map fst G).
Proof. unfold group_append. apply dict_set_keys. Qed.

Lemma dict_set_nonempty {K V} `{EqDecision K} (k : K) (v : V) (d : list (K * V)) :
  dict_set k v d <> [].
Proof.
  destruct d as [|[k0 v0] d]; cbn; [discriminate |].
  destruct (decide (k = k0)); discriminate.
Qed.

Lemma group_append_ok (d : device) (t : dtype) (g : loc) (G : grad_groups) :
  groups_ok G -> groups_ok (group_append d t g G).
Proof.
  intros [Hnd Hne]. split.
  - unfold group_append. apply dict_set_NoDup. exact Hnd.
  - apply Forall_forall. intros [d' v'] Hin. cbn.
    unfold group_append in Hin. apply list_elem_of_In in Hin.
    apply dict_set_value in Hin as [[_ ->] | Hin].
    + apply dict_set_nonempty.
    + rewrite Forall_forall in Hne. apply (Hne (d', v')).
      apply list_elem_of_In. exact Hin.
Qed.

Lemma collect_all (a : bool) (ps : list nat) :
  forall (G G' : grad_groups) (w w' : world),
    Forall (readable_gradient w) ps ->
    for_each ps G (collect_param a) w = Return G' w' ->
    groups_ok G ->
    groups_ok G' /\
    forall d, List.In d (map fst G') <->
              List.In d (map fst G) \/
              exists p, List.In p ps /\ grad_device w p = Some d.
Proof.
  induction ps as [|p ps IH]; intros G G' w w' Hr H Hok.
  - cbn in H. injection H as <- <-. split; [exact Hok |].
    intros d. split; [auto | intros [H | (p & [] & _)]; exact H].
  - cbn in H. apply bind_inv in H as (G1 & w1 & Hstep & H).
    apply collect_param_step in Hstep as [Hkeep Hcase].
    inversion Hr as [|? ? Hp Hps]; subst.
    assert (Hr1 : Forall (readable_gradient w1) ps).
    { rewrite Forall_forall in *. intros q Hq. apply Hkeep. auto. }
    assert (Hok1 : groups_ok G1).
    { destruct Hcase as [[-> _] | (d & t & g & _ & ->)];
        [exact Hok | apply group_append_ok; exact Hok]. }
    destruct (IH _ _ _ _ Hr1 H Hok1) as [Hok' Hkeys].
    split; [exact Hok' |]. intros d. rewrite Hkeys.
    assert (Hsame : forall q, List.In q ps -> grad_device w1 q = grad_device w q).
    { intros q Hq. apply Hkeep. rewrite Forall_forall in Hps. apply Hps.
      apply list_elem_of_In. exact Hq. }
    split.
    + intros [Hin | (q & Hq & Hd)].
      * destruct Hcase as [[-> _] | (d0 & t & g & Hd0 & ->)]; [auto |].
        apply group_append_keys in Hin as [-> | Hin]; [| auto].
        right. exists p. split; [left; reflexivity | exact Hd0].
      * right. exists q. split; [right; exact Hq |].
        rewrite <- (Hsame q Hq). exact Hd.
    + intros [Hin | (q & [<- | Hq] & Hd)].
      * left. destruct Hcase as [[-> _] | (d0 & t & g & Hd0 & ->)]; [auto |].
        apply group_append_keys. auto.
      * left. destruct Hcase as [[_ Hnone] | (d0 & t & g & Hd0 & ->)];
          [congruence |].
        apply group_append_keys. left. congruence.
      * right. exists q. split; [exact Hq |]. rewrite (Hsame q Hq). exact Hd.
Qed.

Lemma get_keys (r r' : _GeneralMultiDeviceReplicator) (d : device) (l : loc)
    (w w' : world) :
  get r d w = Return (l, r') w' ->
  (List.NoDup (map fst (_per_device_tensors r)) ->
   List.NoDup (map fst (_per_device_tensors r'))) /\
  forall d', List.In d' (map fst (_per_device_tensors r')) <->
             d' = d \/ List.In d' (map fst (_per_device_tensors r)).
Proof.
  unfold get. destruct (dict_get d (_per_device_tensors r)) as [x|] eqn:Hget.
  - cbn. intros [= <- <- <-]. split; [auto |].
    intros d'. split; [auto | intros [-> | H]; [| exact H]].
    eapply dict_get_key; eauto.
  - intros H. apply bind_inv in H as ([d0 v] & w1 & _ & H).
    apply bind_inv in H as (x & w2 & _ & H).
    cbn in H. injection H as <- <- <-. cbn. split.
    + apply dict_set_NoDup.
    + intros d'. apply dict_set_keys.
Qed.

Section ScanLoops.
Variable inner : device -> list loc -> replicators -> M replicators.
Hypothesis inner_gets : forall d grads rinv rfound w reps' w',
  inner d grads (rinv, rfound) w = Return reps' w' ->
  exists l w1, get rfound d w = Return (l, snd reps') w1.

Lemma scan_groups_keys (d : device) (l : list (list loc)) :
  forall (reps reps' : replicators) (w w' : world),
    for_each l reps (inner d) w = Return reps' w' ->
    (List.NoDup (copies_on reps) -> List.NoDup (copies_on reps')) /\
    forall d', List.In d' (copies_on reps') <->
               List.In d' (copies_on reps) \/ (l <> [] /\ d' = d).
Proof.
  induction l as [|grads l IH]; intros reps reps' w w' H.
  - cbn in H. injection H as <- <-. split; [auto |].
    intros d'. split; [auto | intros [H | [H _]]; [exact H | congruence]].
  - cbn in H. apply bind_inv in H as (reps1 & w1 & Hin & H).
    destruct reps as [rinv rfound].
    apply inner_gets in Hin as (x & w2 & Hget).
    apply get_keys in Hget as [Hnd Hk].
    destruct (IH _ _ _ _ H) as [Hnd' Hk'].
    split; [auto |]. intros d'. rewrite Hk'. unfold copies_on in *. rewrite Hk. cbn.
    split.
    + intros [[-> | H1] | [_ ->]]; auto; right; split; congruence.
    + intros [H1 | [_ ->]]; auto.
Qed.

Lemma scan_devices_keys (G : grad_groups) :
  forall (reps reps' : replicators) (w w' : world),
    Forall (fun dg => snd dg <> []) G ->
    for_each G reps
      (fun dg reps => for_each (dict_values (snd dg)) reps (inner (fst dg))) w
    = Return reps' w' ->
    (List.NoDup (copies_on reps) -> List.NoDup (copies_on reps')) /\
    forall d', List.In d' (copies_on reps') <->
               List.In d' (copies_on reps) \/ List.In d' (map fst G).
Proof.
  induction G as [|[d pd] G IH]; intros reps reps' w w' Hne H.
  - cbn in H. injection H as <- <-. split; [auto |].
    intros d'. split; [auto | intros [H | []]; exact H].
  - cbn in H. apply bind_inv in H as (reps1 & w1 & Hin & H).
    inversion Hne as [|? ? Hpd HG]; subst. cbn in Hpd.
    apply scan_groups_keys in Hin as [Hnd Hk].
    destruct (IH _ _ _ _ HG H) as [Hnd' Hk'].
    split; [auto |]. intros d'. rewrite Hk', Hk. cbn.
    assert (Hv : dict_values pd <> []).
    { destruct pd; [congruence | discriminate]. }
    split.
    + intros [[H1 | [_ ->]] | H1]; auto.
    + intros [H1 | [<- | H1]]; auto.
Qed.
End ScanLoops.

(** X26. The flags [_unscale_grads_] returns: one for every device that
    holds a gradient of the optimizer's parameters, none for any other
    device, and no device twice. *)
Theorem one_flag_per_device (optimizer : Optimizer) (inv_scale found_inf : loc)
    (allow_fp16 : bool) (w w' : world) (flags : list (device * loc)) :
  readable_gradients optimizer w ->
  _unscale_grads_ optimizer inv_scale found_inf allow_fp16 w = Return flags w' ->
  List.NoDup (map fst flags) /\
  forall d, List.In d (map fst flags) <->
            exists p, List.In p (concat (param_groups optimizer)) /\
                      grad_device w p = Some d.
Proof.
  intros Hr H. unfold _unscale_grads_ in H.
  apply bind_inv in H as (G & w1 & Hcollect & H).
  rewrite (for_each_concat (fun group => group)) in Hcollect.
  rewrite map_id in Hcollect.
  apply collect_all in Hcollect as [[HndG HneG] HkG];
    [| exact Hr | split; [constructor | constructor]].
  apply bind_inv in H as ([rinv rfound] & w2 & Hscan & H).
  cbn in H. injection H as <- <-.
  eapply (scan_devices_keys
            (fun device grads reps =>
               let (rinv, rfound) := reps : _ * _ in
               let* (fi, rfound) := get rfound device in
               let* (inv, rinv) := get rinv device in
               g0 <- match grads with
                     | g0 :: _ => read_tensor g0
                     | [] => unmodelled "empty group"
                     end ;;
               (if bool_decide (dev_type (t_device g0) = cpu)
                then _foreach_non_finite_check_and_unscale_cpu_ grads fi inv
                else _amp_foreach_non_finite_check_and_unscale_ grads fi inv) ;;;
               ret (rinv, rfound))) in Hscan; [| | exact HneG].
  - destruct Hscan as [Hnd Hk]. unfold copies_on in Hnd, Hk. cbn in Hnd, Hk. split; [apply Hnd; constructor |].
    intros d. rewrite Hk, HkG. cbn. tauto.
  - clear. intros d grads rinv rfound w reps' w' H.
    apply bind_inv in H as ([fi rfound'] & w1 & Hget & H).
    apply bind_inv in H as ([inv rinv'] & w2 & _ & H).
    apply bind_inv in H as (g0 & w3 & _ & H).
    apply bind_inv in H as (u & w4 & _ & H).
    cbn in H. injection H as <- <-. cbn. eauto.
Qed.

Lemma one_flag_per_device_witness :
  readable_gradients (plain_optimizer 7 [[0; 1]; [2]]) two_devices_boot /\
  _unscale_grads_ (plain_optimizer 7 [[0; 1]; [2]]) 0 1 true two_devices_boot
  = Return [(cpu_device, 2); (current_cuda_device, 4)]
      (after (_unscale_grads_ (plain_optimizer 7 [[0; 1]; [2]]) 0 1 true)
             two_devices_boot) /\
  List.NoDup [cpu_device; current_cuda_device].
Proof.
  assert (Hr : readable_gradients (plain_optimizer 7 [[0; 1]; [2]]) two_devices_boot).
  { unfold readable_gradients. cbn.
    repeat (apply List.Forall_cons;
            [eexists; split; [reflexivity | intros r [= <-]; eexists; reflexivity] |]).
    apply List.Forall_nil. }
  assert (H : _unscale_grads_ (plain_optimizer 7 [[0; 1]; [2]]) 0 1 true two_devices_boot
    = Return [(cpu_device, 2); (current_cuda_device, 4)]
        (after (_unscale_grads_ (plain_optimizer 7 [[0; 1]; [2]]) 0 1 true)
               two_devices_boot))
    by (vm_compute; reflexivity).
  split; [exact Hr |]. split; [exact H |].
  exact (proj1 (one_flag_per_device _ _ _ _ _ _ _ Hr H)).
Defined.
